(** * Expense tracker: aggregation functions and view controllers

    A shallow embedding of the TypeScript sources of the expense tracker
    (dashboard, budgets list and form, expenses list, goals list) together
    with the properties of the specification that concern them.

    Modelling conventions, fixed once for the whole development:
    - a JavaScript [number] holding a money amount is an exact rational
      ([Q]); rounding of IEEE doubles is not modelled, [NaN] (the result of
      [parseFloat] on a non-number) is [None]; the quotient that decides
      whether a goal is completed is a [JSNumber.Number], with the
      infinities and [NaN] that a division by 0 gives, while the quotient
      by a budget's amount is the rational one, which is JavaScript's for
      an amount other than 0 (the theorems on it assume a positive
      amount);
    - a [Date] object is its time value, the number of milliseconds since
      the epoch ([Z]); the host's time zone is a [JSDate.Zone], and the
      local getters and setters ([getMonth], [getFullYear], [getDate],
      [setDate], [setMonth]) go through it, while [new Date("YYYY-MM-DD")]
      and [toISOString] are in UTC whatever the zone;
    - a date-only ISO string [YYYY-MM-DD] is the record of its three
      numeric fields;
    - strings are strings of ASCII characters (code units below 128),
      on which [toLowerCase] maps the letters A to Z to a to z and nothing
      else; the theorems that depend on it say so with [JSString.isAscii];
    - an object literal used as a map ([JSObject]) is the list of its own
      properties in creation order, read through the members it inherits
      from [Object.prototype] and listed by [Object.values] with the
      array-index keys first;
    - [differenceInDays] of date-fns, a library that is not part of the
      sources, is a parameter of the functions that call it;
    - an [await] on a gateway call either resolves to a [{data, error}]
      response or rejects (throws). *)

From Stdlib Require Import ZArith QArith Qminmax List String Ascii Bool Lia.
From Stdlib Require Import Lqa Permutation.
Import ListNotations.

Local Open Scope Z_scope.

(** ** JavaScript dates *)

Module JSDate.

(** The text of a date-only ISO string, [YYYY-MM-DD]. *)
Record ISODate := mkISO { year : Z; month : Z; day : Z }.

Definition msPerDay : Z := 86400000.

(** Days per 400-year cycle of the Gregorian calendar. *)
Definition daysPerEra : Z := 146097.

(** Day number of 1970-01-01 counted from 0000-03-01. *)
Definition epochShift : Z := 719468.

Definition isLeap (y : Z) : bool :=
  ((y mod 4 =? 0) && negb (y mod 100 =? 0)) || (y mod 400 =? 0).

Definition daysInMonth (y m : Z) : Z :=
  if m =? 2 then (if isLeap y then 29 else 28)
  else if (m =? 4) || (m =? 6) || (m =? 9) || (m =? 11) then 30
  else 31.

Definition validb (c : ISODate) : bool :=
  (1 <=? month c) && (month c <=? 12) &&
  (1 <=? day c) && (day c <=? daysInMonth (year c) (month c)).

(** Years start in March, so that the leap day is the last day of a year:
    [shiftedMonth] is 0 for March and 11 for February, [monthStart] the
    day of the year on which a shifted month starts, [yearStart] the day
    of the 400-year cycle on which a year of the cycle starts, and
    [yearOfEra] the year of the cycle a day of the cycle falls in. *)
Definition shiftedMonth (m : Z) : Z := if m <=? 2 then m + 9 else m - 3.
Definition monthStart (mp : Z) : Z := (153 * mp + 2) / 5.
Definition yearStart (yoe : Z) : Z := 365 * yoe + yoe / 4 - yoe / 100.
Definition yearOfEra (doe : Z) : Z :=
  (doe - doe / 1460 + doe / 36524 - doe / 146096) / 365.

(** Day number (days since 1970-01-01) of a civil date, for a month in
    1..12 and any day offset. *)
Definition days_from_civil (y m d : Z) : Z :=
  let y' := if m <=? 2 then y - 1 else y in
  let era := y' / 400 in
  let yoe := y' - era * 400 in
  let doy := monthStart (shiftedMonth m) + d - 1 in
  let doe := yearStart yoe + doy in
  era * daysPerEra + doe - epochShift.

(** Civil date of a day number. *)
Definition civil_from_days (z : Z) : ISODate :=
  let z' := z + epochShift in
  let era := z' / daysPerEra in
  let doe := z' - era * daysPerEra in
  let yoe := yearOfEra doe in
  let doy := doe - yearStart yoe in
  let mp := (5 * doy + 2) / 153 in
  let d := doy - monthStart mp + 1 in
  let m := if mp <? 10 then mp + 3 else mp - 9 in
  let y := yoe + era * 400 in
  mkISO (if m <=? 2 then y + 1 else y) m d.

(** A [Date] object: its time value in milliseconds since the epoch. *)
Definition Date := Z.

(** ECMAScript [Day(t)] and [TimeWithinDay(t)]. *)
Definition Day (t : Date) : Z := t / msPerDay.
Definition TimeWithinDay (t : Date) : Z := t mod msPerDay.

(** ECMAScript [MakeDay(year, month, date)]: [month] is 0-based and may
    lie outside 0..11, [date] may lie outside the month; both carry
    over. *)
Definition MakeDay (y m dt : Z) : Z :=
  days_from_civil (y + m / 12) (m mod 12 + 1) 1 + dt - 1.

Definition MakeDate (dayno time : Z) : Date := dayno * msPerDay + time.

(** [new Date("YYYY-MM-DD")]: midnight UTC of that day. *)
Definition parse (c : ISODate) : Date :=
  MakeDate (days_from_civil (year c) (month c) (day c)) 0.

(** ECMAScript [YearFromTime(t)], [MonthFromTime(t)] (0-based) and
    [DateFromTime(t)]. *)
Definition YearFromTime (t : Z) : Z := year (civil_from_days (Day t)).
Definition MonthFromTime (t : Z) : Z := month (civil_from_days (Day t)) - 1.
Definition DateFromTime (t : Z) : Z := day (civil_from_days (Day t)).

(** The host's time zone: the offset of local time from UTC, in
    milliseconds, in force at a UTC time value ([atUTC]), and the offset
    by which a local time value is read ([atLocal]); ECMAScript's
    [LocalTZA(t, true)] and [LocalTZA(t, false)]. *)
Record Zone := mkZone { atUTC : Z -> Z; atLocal : Z -> Z }.

(** ECMAScript [LocalTime(t)] and [UTC(t)]. *)
Definition LocalTime (zone : Zone) (t : Date) : Z := t + atUTC zone t.
Definition UTC (zone : Zone) (t : Z) : Date := t - atLocal zone t.

(** A zone whose offset never changes, and UTC itself. *)
Definition fixed (offset : Z) : Zone :=
  mkZone (fun _ => offset) (fun _ => offset).
Definition utc : Zone := fixed 0.

(** Offsets stay within a day of UTC. *)
Definition withinADay (zone : Zone) : Prop :=
  forall t, (- msPerDay < atUTC zone t < msPerDay) /\
            (- msPerDay < atLocal zone t < msPerDay).

(** [d.getFullYear()], [d.getMonth()] (0-based) and [d.getDate()]: the
    fields of the local time. *)
Definition getFullYear (zone : Zone) (t : Date) : Z :=
  YearFromTime (LocalTime zone t).
Definition getMonth (zone : Zone) (t : Date) : Z :=
  MonthFromTime (LocalTime zone t).
Definition getDate (zone : Zone) (t : Date) : Z :=
  DateFromTime (LocalTime zone t).

(** The local time value [t] with its day of the month, or its month,
    replaced. *)
Definition withDate (t : Z) (dt : Z) : Z :=
  MakeDate (MakeDay (YearFromTime t) (MonthFromTime t) dt) (TimeWithinDay t).
Definition withMonth (t : Z) (m : Z) : Z :=
  MakeDate (MakeDay (YearFromTime t) m (DateFromTime t)) (TimeWithinDay t).

(** [d.setDate(n)] and [d.setMonth(n)], returning the new time value:
    the change is made on the local time, which is then read back as a
    UTC time value. *)
Definition setDate (zone : Zone) (t : Date) (dt : Z) : Date :=
  UTC zone (withDate (LocalTime zone t) dt).
Definition setMonth (zone : Zone) (t : Date) (m : Z) : Date :=
  UTC zone (withMonth (LocalTime zone t) m).

(** [d.toISOString().split('T')[0]]: the date in UTC. *)
Definition toISODate (t : Date) : ISODate := civil_from_days (Day t).

(** Calendar order on date strings: lexicographic on year, month, day. *)
Definition leb (a b : ISODate) : bool :=
  (year a <? year b) ||
  ((year a =? year b) &&
   ((month a <? month b) || ((month a =? month b) && (day a <=? day b)))).

Definition ltb (a b : ISODate) : bool :=
  (year a <? year b) ||
  ((year a =? year b) &&
   ((month a <? month b) || ((month a =? month b) && (day a <? day b)))).

Definition sameMonth (a b : ISODate) : bool :=
  (year a =? year b) && (month a =? month b).

(** The calendar date one month after [c], when that day exists. *)
Definition nextMonth (c : ISODate) : ISODate :=
  if month c =? 12 then mkISO (year c + 1) 1 (day c)
  else mkISO (year c) (month c + 1) (day c).

End JSDate.

(** ** Strings *)

Module JSString.
Local Open Scope nat_scope.

(** The strings of the model: every character is an ASCII character. *)
Definition isAsciiChar (c : ascii) : bool := nat_of_ascii c <? 128.

Fixpoint isAscii (s : string) : bool :=
  match s with
  | EmptyString => true
  | String c s' => isAsciiChar c && isAscii s'
  end.

Definition lower_char (c : ascii) : ascii :=
  let n := nat_of_ascii c in
  if (65 <=? n) && (n <=? 90) then ascii_of_nat (n + 32) else c.

(** [s.toLowerCase()] on a string of ASCII characters. *)
Fixpoint toLowerCase (s : string) : string :=
  match s with
  | EmptyString => EmptyString
  | String c s' => String (lower_char c) (toLowerCase s')
  end.

Fixpoint startsWith (s p : string) : bool :=
  match p, s with
  | EmptyString, _ => true
  | String a p', String b s' => Ascii.eqb a b && startsWith s' p'
  | String _ _, EmptyString => false
  end.

(** [s.includes(t)]: [t] occurs in [s] as a contiguous substring. *)
Fixpoint includes (s t : string) : bool :=
  startsWith s t ||
  match s with
  | EmptyString => false
  | String _ s' => includes s' t
  end.

(** The empty string is the only falsy string. *)
Definition truthy (s : string) : bool := negb (String.eqb s EmptyString).

End JSString.

(** ** Numbers *)

Module JSNumber.
Local Open Scope Q_scope.

(** [x > y] on numbers. *)
Definition gtb (x y : Q) : bool := negb (Qle_bool x y).

(** [x >= y] on numbers. *)
Definition geb (x y : Q) : bool := Qle_bool y x.

(** [Math.max(x, y)] and [Math.min(x, y)]. *)
Definition max (x y : Q) : Q := Qmax x y.
Definition min (x y : Q) : Q := Qmin x y.

(** A number that may come from a division by 0. *)
Inductive Number :=
| finite (q : Q)
| posInfinity
| negInfinity
| NaN.

(** [x / y]: over 0 a positive number gives [Infinity], a negative one
    [-Infinity] and 0 gives [NaN]. *)
Definition div (x y : Q) : Number :=
  if Qeq_bool y 0 then
    if Qeq_bool x 0 then NaN
    else if Qle_bool 0 x then posInfinity else negInfinity
  else finite (x / y).

(** [n * k]. *)
Definition times (n : Number) (k : Q) : Number :=
  match n with
  | finite q => finite (q * k)
  | posInfinity =>
      if Qeq_bool k 0 then NaN
      else if Qle_bool 0 k then posInfinity else negInfinity
  | negInfinity =>
      if Qeq_bool k 0 then NaN
      else if Qle_bool 0 k then negInfinity else posInfinity
  | NaN => NaN
  end.

(** [n >= y]: false whenever [n] is [NaN]. *)
Definition atLeast (n : Number) (y : Q) : bool :=
  match n with
  | finite q => geb q y
  | posInfinity => true
  | negInfinity => false
  | NaN => false
  end.

(** [Math.min(x, n)]: [NaN] when [n] is. *)
Definition minOf (x : Q) (n : Number) : Number :=
  match n with
  | finite q => finite (min x q)
  | posInfinity => finite x
  | negInfinity => negInfinity
  | NaN => NaN
  end.

End JSNumber.

(** ** Object literals used as maps *)

Module JSObject.

(** The names an object literal inherits from [Object.prototype]; each
    of them reads as a function, or for [__proto__] as the prototype
    itself, hence as a truthy value. *)
Definition inheritedNames : list string :=
  [ "constructor"; "__defineGetter__"; "__defineSetter__";
    "hasOwnProperty"; "__lookupGetter__"; "__lookupSetter__";
    "isPrototypeOf"; "propertyIsEnumerable"; "toString"; "valueOf";
    "__proto__"; "toLocaleString" ]%string.

Definition inherited (k : string) : bool :=
  existsb (String.eqb k) inheritedNames.

Definition digit (c : ascii) : option N :=
  let n := N_of_ascii c in
  if (48 <=? n)%N && (n <=? 57)%N then Some (n - 48)%N else None.

(** The number a string of decimal digits writes, read from the left
    with [acc] the number read so far. *)
Fixpoint decimal (acc : N) (s : string) : option N :=
  match s with
  | EmptyString => Some acc
  | String c s' =>
      match digit c with
      | Some d => decimal (10 * acc + d)%N s'
      | None => None
      end
  end.

(** The array index a property key stands for: the key is the canonical
    decimal text of an integer from 0 to 2^32 - 2. *)
Definition arrayIndex (k : string) : option N :=
  match k with
  | EmptyString => None
  | String c rest =>
      if Ascii.eqb c "0"%char && negb (String.eqb rest EmptyString) then None
      else if (10 <? String.length k)%nat then None
      else
        match decimal 0 k with
        | Some n => if (n <=? 4294967294)%N then Some n else None
        | None => None
        end
  end.

Fixpoint insertIndexed {V} (i : N) (v : V) (l : list (N * V))
  : list (N * V) :=
  match l with
  | [] => [(i, v)]
  | (j, w) :: l' =>
      if (i <? j)%N then (i, v) :: l else (j, w) :: insertIndexed i v l'
  end.

(** The values under array-index keys, by ascending index. *)
Definition indexedValues {V} (o : list (string * V)) : list V :=
  map snd
    (fold_left (fun acc kv =>
                  match arrayIndex (fst kv) with
                  | Some i => insertIndexed i (snd kv) acc
                  | None => acc
                  end) o []).

(** The values under the other keys, in creation order. *)
Definition namedValues {V} (o : list (string * V)) : list V :=
  map snd
    (filter (fun kv => match arrayIndex (fst kv) with
                       | Some _ => false
                       | None => true
                       end) o).

(** [Object.values(o)]: array-index keys first, by ascending index, then
    the other keys in creation order. *)
Definition values {V} (o : list (string * V)) : list V :=
  indexedValues o ++ namedValues o.

End JSObject.

(** ** Database types (lib/supabase.ts) *)

Module Category.
Record t := mk {
  id : string;
  user_id : string;
  name : string;
  color : string;
  icon : string;
  created_at : string
}.
End Category.

Module Expense.
Record t := mk {
  id : string;
  user_id : string;
  category_id : string;
  amount : Q;
  description : string;
  notes : option string;
  date : JSDate.ISODate;
  created_at : string;
  category : option Category.t
}.
End Expense.

Inductive Period := weekly | monthly.

Module Budget.
Record t := mk {
  id : string;
  user_id : string;
  category_id : string;
  amount : Q;
  period : Period;
  start_date : JSDate.ISODate;
  end_date : JSDate.ISODate;
  created_at : string;
  category : option Category.t
}.
End Budget.

Module SavingsGoal.
Record t := mk {
  id : string;
  user_id : string;
  title : string;
  target_amount : Q;
  current_amount : Q;
  target_date : JSDate.ISODate;
  created_at : string;
  updated_at : string
}.

(** [{ ...goal, current_amount: newAmount }]. *)
Definition with_current_amount (goal : t) (newAmount : Q) : t :=
  mk (id goal) (user_id goal) (title goal) (target_amount goal) newAmount
     (target_date goal) (created_at goal) (updated_at goal).
End SavingsGoal.

(** ** The remote data gateway *)

Module Gateway.

Record RequestError := mkError { message : string }.

(** The [{ data, error }] object a query resolves to. *)
Record Response (A : Type) := mkResponse {
  data : option A;
  error : option RequestError
}.
Arguments mkResponse {A}.
Arguments data {A}.
Arguments error {A}.

(** Outcome of awaiting a query: it resolves to a response, or the
    promise rejects and the [await] throws. *)
Inductive Settled (A : Type) :=
| Resolved (r : Response A)
| Rejected (e : RequestError).
Arguments Resolved {A}.
Arguments Rejected {A}.

Definition succeeded {A} (rows : A) : Settled A :=
  Resolved (mkResponse (Some rows) None).

(** A failed request resolves with [data: null] and the error set. *)
Definition failed {A} (e : RequestError) : Settled A :=
  Resolved (mkResponse None (Some e)).

(** The request went through: it resolved without error. *)
Definition accepted {A} (s : Settled A) : Prop :=
  match s with
  | Resolved r => error r = None
  | Rejected _ => False
  end.

(** The gateway reports an error: the response carries one, or the call
    throws. *)
Definition reports_error {A} (s : Settled A) : Prop :=
  match s with
  | Resolved r => error r <> None
  | Rejected _ => True
  end.

(** [data || []]. *)
Definition orEmpty {A} (d : option (list A)) : list A :=
  match d with
  | Some rows => rows
  | None => []
  end.

(** Server side of the queries the views issue, over the rows of a
    table. *)

Fixpoint insert_by_date_desc (e : Expense.t) (l : list Expense.t)
  : list Expense.t :=
  match l with
  | [] => [e]
  | x :: l' =>
      if JSDate.leb (Expense.date e) (Expense.date x)
      then x :: insert_by_date_desc e l'
      else e :: l
  end.

(** [.order('date', { ascending: false })]. *)
Definition order_by_date_desc (l : list Expense.t) : list Expense.t :=
  fold_left (fun acc e => insert_by_date_desc e acc) l [].

(** [.eq('user_id', uid)] on expenses. *)
Definition expenses_of (uid : string) (table : list Expense.t)
  : list Expense.t :=
  filter (fun e => String.eqb (Expense.user_id e) uid) table.

(** [.limit(n)]. *)
Definition limit {A} (n : nat) (rows : list A) : list A := firstn n rows.

(** [.update({ current_amount, updated_at }).eq('id', id)] on
    savings_goals. *)
Definition update_current_amount
    (table : list SavingsGoal.t) (id : string) (newAmount : Q)
    (stamp : string) : list SavingsGoal.t :=
  map (fun g =>
         if String.eqb (SavingsGoal.id g) id
         then SavingsGoal.mk (SavingsGoal.id g) (SavingsGoal.user_id g)
                (SavingsGoal.title g) (SavingsGoal.target_amount g)
                newAmount (SavingsGoal.target_date g)
                (SavingsGoal.created_at g) stamp
         else g) table.

(** [.delete().eq('id', id)] on savings_goals. *)
Definition delete_goal (table : list SavingsGoal.t) (id : string)
  : list SavingsGoal.t :=
  filter (fun g => negb (String.eqb (SavingsGoal.id g) id)) table.

End Gateway.

(** Reduction of a collection to the sum of its amounts, as in
    [xs.reduce((sum, x) => sum + x.amount, 0)]. *)
Definition reduce_amounts {A} (amount : A -> Q) (xs : list A) : Q :=
  fold_left (fun sum x => (sum + amount x)%Q) xs 0%Q.

(** ** components/dashboard/Dashboard.tsx *)

Module Dashboard.
Import Gateway.
Local Open Scope Q_scope.

Record State := mkState {
  expenses : list Expense.t;
  budgets : list Budget.t;
  goals : list SavingsGoal.t;
  categories : list Category.t;
  loading : bool
}.

(** State at mount: the [useState] initial values. *)
Definition initial : State := mkState [] [] [] [] true.

Definition setLoading (b : bool) (st : State) : State :=
  mkState (expenses st) (budgets st) (goals st) (categories st) b.

(** The expenses query of [loadDashboardData] as the server answers it:
    the ten most recent expenses of the user. *)
Definition recent_expenses (uid : string) (table : list Expense.t)
  : list Expense.t :=
  limit 10 (order_by_date_desc (expenses_of uid table)).

(** [loadDashboardData]: four queries awaited in turn inside one
    [try]; only the [data] of each response is read. Returns the new
    state and what was written to the console. *)
Definition loadDashboardData (st : State)
    (categoriesQ : Settled (list Category.t))
    (expensesQ : Settled (list Expense.t))
    (budgetsQ : Settled (list Budget.t))
    (goalsQ : Settled (list SavingsGoal.t)) : State * list string :=
  match categoriesQ, expensesQ, budgetsQ, goalsQ with
  | Resolved c, Resolved e, Resolved b, Resolved g =>
      (mkState (orEmpty (data e)) (orEmpty (data b)) (orEmpty (data g))
               (orEmpty (data c)) false, [])
  | _, _, _, _ =>
      (setLoading false st, ["Error loading dashboard data:"%string])
  end.

(** The month test of [calculateMonthlySpending] and
    [getBudgetProgress]; [zone] is the host's time zone, [now] the value
    of [new Date()]. *)
Definition inCurrentMonth (zone : JSDate.Zone) (now : JSDate.Date)
    (expense : Expense.t) : bool :=
  let currentMonth := JSDate.getMonth zone now in
  let currentYear := JSDate.getFullYear zone now in
  let expenseDate := JSDate.parse (Expense.date expense) in
  (JSDate.getMonth zone expenseDate =? currentMonth)%Z &&
  (JSDate.getFullYear zone expenseDate =? currentYear)%Z.

Definition calculateMonthlySpending (zone : JSDate.Zone) (now : JSDate.Date)
    (expenses : list Expense.t) : Q :=
  reduce_amounts Expense.amount (filter (inCurrentMonth zone now) expenses).

Record Slice := mkSlice { name : string; value : Q; color : string }.

(** [expense.category?.name || 'Other'] and
    [expense.category?.color || '#6B7280']. *)
Definition categoryName (expense : Expense.t) : string :=
  match Expense.category expense with
  | Some c => if JSString.truthy (Category.name c) then Category.name c
              else "Other"%string
  | None => "Other"%string
  end.

Definition categoryColor (expense : Expense.t) : string :=
  match Expense.category expense with
  | Some c => if JSString.truthy (Category.color c) then Category.color c
              else "#6B7280"%string
  | None => "#6B7280"%string
  end.

(** The accumulator object [{}], as its own properties in creation
    order. *)
Definition Totals := list (string * Slice).

Fixpoint lookup (k : string) (acc : Totals) : option Slice :=
  match acc with
  | [] => None
  | (k', s) :: acc' => if String.eqb k' k then Some s else lookup k acc'
  end.

(** [acc[k].value += amount]. *)
Fixpoint addValue (k : string) (amount : Q) (acc : Totals) : Totals :=
  match acc with
  | [] => []
  | (k', s) :: acc' =>
      if String.eqb k' k
      then (k', mkSlice (name s) (value s + amount) (color s)) :: acc'
      else (k', s) :: addValue k amount acc'
  end.

(** The callback of the [reduce]. Under a name that [Object.prototype]
    has, [acc[categoryName]] reads the inherited member, which is truthy:
    no entry is made, and the [+=] sets a [value] on that member and
    leaves the accumulator as it is. *)
Definition accumulate (acc : Totals) (expense : Expense.t) : Totals :=
  let categoryName := categoryName expense in
  let categoryColor := categoryColor expense in
  if JSObject.inherited categoryName then acc
  else
    let acc1 :=
      match lookup categoryName acc with
      | None => acc ++ [(categoryName, mkSlice categoryName 0 categoryColor)]
      | Some _ => acc
      end in
    addValue categoryName (Expense.amount expense) acc1.

(** The accumulator keeps one entry per name, labelled with it. *)
Definition wellKeyed (acc : Totals) : Prop :=
  NoDup (map fst acc) /\ forall k s, In (k, s) acc -> name s = k.

(** The value held under a name, 0 when the name is absent. *)
Definition held (k : string) (acc : Totals) : Q :=
  match lookup k acc with Some s => value s | None => 0 end.

(** [getExpensesByCategory]: [Object.values] of the accumulator. *)
Definition getExpensesByCategory (expenses : list Expense.t) : list Slice :=
  JSObject.values (fold_left accumulate expenses []).

Record Progress := mkProgress {
  category : string;
  budget : Q;
  spent : Q;
  remaining : Q;
  percentage : Q;
  isOverBudget : bool
}.

Definition matchesBudget (zone : JSDate.Zone) (now : JSDate.Date)
    (budget : Budget.t) (expense : Expense.t) : bool :=
  String.eqb (Expense.category_id expense) (Budget.category_id budget) &&
  inCurrentMonth zone now expense.

Definition budgetProgress (zone : JSDate.Zone) (now : JSDate.Date)
    (expenses : list Expense.t) (budget : Budget.t) : Progress :=
  let spent :=
    reduce_amounts Expense.amount
                   (filter (matchesBudget zone now budget) expenses) in
  let percentage := (spent / Budget.amount budget) * 100 in
  mkProgress
    (match Budget.category budget with
     | Some c => if JSString.truthy (Category.name c) then Category.name c
                 else "Unknown"%string
     | None => "Unknown"%string
     end)
    (Budget.amount budget)
    spent
    (JSNumber.max 0 (Budget.amount budget - spent))
    (JSNumber.min 100 percentage)
    (JSNumber.gtb percentage 100).

Definition getBudgetProgress (zone : JSDate.Zone) (now : JSDate.Date)
    (st : State) : list Progress :=
  map (budgetProgress zone now (expenses st)) (budgets st).

End Dashboard.

(** ** components/budgets/BudgetsList.tsx *)

Module BudgetsList.
Import Gateway.
Local Open Scope Q_scope.

Record State := mkState {
  budgets : list Budget.t;
  expenses : list Expense.t;
  loading : bool;
  showForm : bool
}.

Definition initial : State := mkState [] [] true false.

Definition setLoading (b : bool) (st : State) : State :=
  mkState (budgets st) (expenses st) b (showForm st).
Definition setBudgets (l : list Budget.t) (st : State) : State :=
  mkState l (expenses st) (loading st) (showForm st).
Definition setExpenses (l : list Expense.t) (st : State) : State :=
  mkState (budgets st) l (loading st) (showForm st).

(** [loadBudgets]: [if (error) throw error] before the collection is
    replaced; the [catch] logs, the [finally] clears the flag. *)
Definition loadBudgets (st : State) (q : Settled (list Budget.t))
  : State * list string :=
  match q with
  | Resolved r =>
      match error r with
      | Some _ => (setLoading false st, ["Error loading budgets:"%string])
      | None => (setLoading false (setBudgets (orEmpty (data r)) st), [])
      end
  | Rejected _ => (setLoading false st, ["Error loading budgets:"%string])
  end.

(** [loadExpenses]: no guard; a rejected promise leaves the state as it
    is. *)
Definition loadExpenses (st : State) (q : Settled (list Expense.t)) : State :=
  match q with
  | Resolved r => setExpenses (orEmpty (data r)) st
  | Rejected _ => st
  end.

(** [handleDelete]: [confirmed] is the answer to the confirm dialog, [q]
    the outcome of the delete request (issued only when confirmed). *)
Definition handleDelete (st : State) (id : string) (confirmed : bool)
    (q : Settled unit) : State * list string :=
  if negb confirmed then (st, [])
  else
    match q with
    | Resolved r =>
        match error r with
        | Some _ => (st, ["Error deleting budget:"%string])
        | None =>
            (setBudgets
               (filter (fun budget => negb (String.eqb (Budget.id budget) id))
                       (budgets st)) st, [])
        end
    | Rejected _ => (st, ["Error deleting budget:"%string])
    end.

Record Progress := mkProgress {
  spent : Q;
  remaining : Q;
  percentage : Q;
  isOverBudget : bool
}.

Definition inWindow (budget : Budget.t) (expense : Expense.t) : bool :=
  let startDate := JSDate.parse (Budget.start_date budget) in
  let endDate := JSDate.parse (Budget.end_date budget) in
  let expenseDate := JSDate.parse (Expense.date expense) in
  String.eqb (Expense.category_id expense) (Budget.category_id budget) &&
  (expenseDate >=? startDate)%Z &&
  (expenseDate <=? endDate)%Z.

Definition getBudgetProgress (expenses : list Expense.t) (budget : Budget.t)
  : Progress :=
  let spent :=
    reduce_amounts Expense.amount (filter (inWindow budget) expenses) in
  let percentage := (spent / Budget.amount budget) * 100 in
  let isOverBudget := JSNumber.gtb percentage 100 in
  let remaining := JSNumber.max 0 (Budget.amount budget - spent) in
  mkProgress spent remaining (JSNumber.min 100 percentage) isOverBudget.

End BudgetsList.

(** ** components/budgets/BudgetForm.tsx *)

Module BudgetForm.

(** The row handed to [insert]; [amount] is [parseFloat] of the amount
    field. *)
Record Insert := mkInsert {
  user_id : string;
  category_id : string;
  amount : option Q;
  period : Period;
  start_date : JSDate.ISODate;
  end_date : JSDate.ISODate
}.

(** End of the budget period, from the two [new Date()] of
    [handleSubmit]; [zone] is the host's time zone. *)
Definition endDate (zone : JSDate.Zone) (now : JSDate.Date)
    (period : Period) : JSDate.Date :=
  let startDate := now in
  let endDate := now in
  match period with
  | weekly =>
      JSDate.setDate zone endDate (JSDate.getDate zone startDate + 7)
  | monthly =>
      JSDate.setMonth zone endDate (JSDate.getMonth zone startDate + 1)
  end.

(** The insert of [handleSubmit]. *)
Definition handleSubmit (zone : JSDate.Zone) (now : JSDate.Date)
    (user : string) (category_id : string) (amount : option Q)
    (period : Period) : Insert :=
  mkInsert user category_id amount period
           (JSDate.toISODate now)
           (JSDate.toISODate (endDate zone now period)).

End BudgetForm.

(** ** The expenses list: [ExpensesList] of src/unnamed/part_000 *)

Module ExpensesList.
Import Gateway.

Record State := mkState {
  expenses : list Expense.t;
  loading : bool;
  showForm : bool;
  searchTerm : string;
  selectedCategory : string;
  categories : list Category.t
}.

Definition initial : State :=
  mkState [] true false EmptyString EmptyString [].

Definition setLoading (b : bool) (st : State) : State :=
  mkState (expenses st) b (showForm st) (searchTerm st)
          (selectedCategory st) (categories st).
Definition setExpenses (l : list Expense.t) (st : State) : State :=
  mkState l (loading st) (showForm st) (searchTerm st)
          (selectedCategory st) (categories st).

Definition loadExpenses (st : State) (q : Settled (list Expense.t))
  : State * list string :=
  match q with
  | Resolved r =>
      match error r with
      | Some _ => (setLoading false st, ["Error loading expenses:"%string])
      | None => (setLoading false (setExpenses (orEmpty (data r)) st), [])
      end
  | Rejected _ => (setLoading false st, ["Error loading expenses:"%string])
  end.

Definition handleDelete (st : State) (id : string) (confirmed : bool)
    (q : Settled unit) : State * list string :=
  if negb confirmed then (st, [])
  else
    match q with
    | Resolved r =>
        match error r with
        | Some _ => (st, ["Error deleting expense:"%string])
        | None =>
            (setExpenses
               (filter (fun expense =>
                          negb (String.eqb (Expense.id expense) id))
                       (expenses st)) st, [])
        end
    | Rejected _ => (st, ["Error deleting expense:"%string])
    end.

(** The predicate of [filteredExpenses]; [notes?.…] is undefined, hence
    falsy, when the notes are null. *)
Definition matches (searchTerm selectedCategory : string)
    (expense : Expense.t) : bool :=
  let matchesSearch :=
    JSString.includes (JSString.toLowerCase (Expense.description expense))
                      (JSString.toLowerCase searchTerm) ||
    match Expense.notes expense with
    | Some notes =>
        JSString.includes (JSString.toLowerCase notes)
                          (JSString.toLowerCase searchTerm)
    | None => false
    end in
  let matchesCategory :=
    negb (JSString.truthy selectedCategory) ||
    String.eqb (Expense.category_id expense) selectedCategory in
  matchesSearch && matchesCategory.

Definition filteredExpenses (st : State) : list Expense.t :=
  filter (matches (searchTerm st) (selectedCategory st)) (expenses st).

Definition totalAmount (st : State) : Q :=
  reduce_amounts Expense.amount (filteredExpenses st).

End ExpensesList.

(** ** The goals list: [GoalsList] of src/unnamed/part_001 *)

Module GoalsList.
Import Gateway.
Local Open Scope Q_scope.

Record State := mkState {
  goals : list SavingsGoal.t;
  loading : bool;
  showForm : bool
}.

Definition initial : State := mkState [] true false.

Definition setLoading (b : bool) (st : State) : State :=
  mkState (goals st) b (showForm st).
Definition setGoals (l : list SavingsGoal.t) (st : State) : State :=
  mkState l (loading st) (showForm st).

Definition loadGoals (st : State) (q : Settled (list SavingsGoal.t))
  : State * list string :=
  match q with
  | Resolved r =>
      match error r with
      | Some _ => (setLoading false st, ["Error loading goals:"%string])
      | None => (setLoading false (setGoals (orEmpty (data r)) st), [])
      end
  | Rejected _ => (setLoading false st, ["Error loading goals:"%string])
  end.

Definition handleDelete (st : State) (id : string) (confirmed : bool)
    (q : Settled unit) : State * list string :=
  if negb confirmed then (st, [])
  else
    match q with
    | Resolved r =>
        match error r with
        | Some _ => (st, ["Error deleting goal:"%string])
        | None =>
            (setGoals
               (filter (fun goal => negb (String.eqb (SavingsGoal.id goal) id))
                       (goals st)) st, [])
        end
    | Rejected _ => (st, ["Error deleting goal:"%string])
    end.

(** [updateProgress]: on success the goal with that id gets the new
    amount in the in-memory collection. *)
Definition updateProgress (st : State) (id : string) (newAmount : Q)
    (q : Settled unit) : State * list string :=
  match q with
  | Resolved r =>
      match error r with
      | Some _ => (st, ["Error updating goal:"%string])
      | None =>
          (setGoals
             (map (fun goal =>
                     if String.eqb (SavingsGoal.id goal) id
                     then SavingsGoal.with_current_amount goal newAmount
                     else goal) (goals st)) st, [])
      end
  | Rejected _ => (st, ["Error updating goal:"%string])
  end.

(** The guard of the two input handlers (Enter key and plus button):
    [amount] is [parseFloat(input.value)], [None] for [NaN]. *)
Definition acceptsAmount (amount : option Q) : option Q :=
  match amount with
  | Some a => if JSNumber.gtb a 0 then Some a else None
  | None => None
  end.

(** The input handlers of a rendered goal: the amount to write, when
    the update is issued at all. *)
Definition requestedAmount (goal : SavingsGoal.t) (amount : option Q)
  : option Q :=
  match acceptsAmount amount with
  | Some a => Some (SavingsGoal.current_amount goal + a)
  | None => None
  end.

Definition submitAmount (st : State) (goal : SavingsGoal.t)
    (amount : option Q) (q : Settled unit) : State * list string :=
  match requestedAmount goal amount with
  | Some newAmount => updateProgress st (SavingsGoal.id goal) newAmount q
  | None => (st, [])
  end.

(** [differenceInDays] of date-fns, which is not part of the sources:
    the functions that call it take it as a parameter. *)
Definition DifferenceInDays := JSDate.Date -> JSDate.Date -> Z.

Record Recommendation := mkRecommendation {
  daily : Q;
  weekly : Q;
  monthly : Q
}.

(** [differenceInDays(new Date(goal.target_date), new Date())]. *)
Definition daysLeft (differenceInDays : DifferenceInDays)
    (now : JSDate.Date) (goal : SavingsGoal.t) : Z :=
  differenceInDays (JSDate.parse (SavingsGoal.target_date goal)) now.

Definition getRecommendedSavings (differenceInDays : DifferenceInDays)
    (now : JSDate.Date) (goal : SavingsGoal.t) : Recommendation :=
  let remaining :=
    SavingsGoal.target_amount goal - SavingsGoal.current_amount goal in
  let daysLeft := daysLeft differenceInDays now goal in
  if (daysLeft <=? 0)%Z then mkRecommendation 0 0 0
  else
    let daily := remaining / inject_Z daysLeft in
    let weekly := daily * 7 in
    let monthly := daily * 30 in
    mkRecommendation (JSNumber.max 0 daily) (JSNumber.max 0 weekly)
                     (JSNumber.max 0 monthly).

(** What the card of a goal shows below the progress bar. *)
Inductive Panel :=
| RecommendedSavings (r : Recommendation)
| GoalOverdue (days : Z)
| GoalCompleted.

(** [(goal.current_amount / goal.target_amount) * 100]. *)
Definition progress (goal : SavingsGoal.t) : JSNumber.Number :=
  JSNumber.times
    (JSNumber.div (SavingsGoal.current_amount goal)
                  (SavingsGoal.target_amount goal)) 100.

(** [progress >= 100]. *)
Definition isCompleted (goal : SavingsGoal.t) : bool :=
  JSNumber.atLeast (progress goal) 100.

Definition panel (differenceInDays : DifferenceInDays) (now : JSDate.Date)
    (goal : SavingsGoal.t) : Panel :=
  let daysLeft := daysLeft differenceInDays now goal in
  let recommendations := getRecommendedSavings differenceInDays now goal in
  if negb (isCompleted goal) then
    if (daysLeft >? 0)%Z then RecommendedSavings recommendations
    else GoalOverdue (Z.abs daysLeft)
  else GoalCompleted.

End GoalsList.

(** ** Goals: the stored table together with one goals view *)

Module GoalsSystem.
Import Gateway.

Record Sys := mkSys {
  table : list SavingsGoal.t;     (* rows of savings_goals of the user *)
  issued : list string;           (* every id the table has handed out *)
  view : GoalsList.State
}.

Definition ids (l : list SavingsGoal.t) : list string :=
  map SavingsGoal.id l.

(** One serialized user action, carried through to the settling of its
    request. *)
Inductive step : Sys -> Sys -> Prop :=
| step_load (s : Sys) (rows : list SavingsGoal.t) :
    Permutation rows (table s) ->
    step s (mkSys (table s) (issued s)
                  (fst (GoalsList.loadGoals (view s) (succeeded rows))))
| step_load_failed (s : Sys) (q : Settled (list SavingsGoal.t)) :
    reports_error q ->
    step s (mkSys (table s) (issued s)
                  (fst (GoalsList.loadGoals (view s) q)))
| step_create (s : Sys) (g : SavingsGoal.t) :
    ~ In (SavingsGoal.id g) (issued s) ->
    SavingsGoal.current_amount g = 0%Q ->
    step s (mkSys (table s ++ [g]) (SavingsGoal.id g :: issued s) (view s))
| step_submit_ignored (s : Sys) (goal : SavingsGoal.t) (amount : option Q)
    (q : Settled unit) :
    In goal (GoalsList.goals (view s)) ->
    GoalsList.requestedAmount goal amount = None ->
    step s (mkSys (table s) (issued s)
                  (fst (GoalsList.submitAmount (view s) goal amount q)))
| step_submit (s : Sys) (goal : SavingsGoal.t) (amount : option Q)
    (newAmount : Q) (stamp : string) (q : Settled unit) :
    In goal (GoalsList.goals (view s)) ->
    GoalsList.requestedAmount goal amount = Some newAmount ->
    accepted q ->
    step s (mkSys (update_current_amount (table s) (SavingsGoal.id goal)
                                         newAmount stamp)
                  (issued s)
                  (fst (GoalsList.submitAmount (view s) goal amount q)))
| step_submit_failed (s : Sys) (goal : SavingsGoal.t) (amount : option Q)
    (q : Settled unit) :
    In goal (GoalsList.goals (view s)) ->
    reports_error q ->
    step s (mkSys (table s) (issued s)
                  (fst (GoalsList.submitAmount (view s) goal amount q)))
| step_delete_cancelled (s : Sys) (id : string) (q : Settled unit) :
    step s (mkSys (table s) (issued s)
                  (fst (GoalsList.handleDelete (view s) id false q)))
| step_delete (s : Sys) (id : string) (q : Settled unit) :
    accepted q ->
    step s (mkSys (delete_goal (table s) id) (issued s)
                  (fst (GoalsList.handleDelete (view s) id true q)))
| step_delete_failed (s : Sys) (id : string) (q : Settled unit) :
    reports_error q ->
    step s (mkSys (table s) (issued s)
                  (fst (GoalsList.handleDelete (view s) id true q))).

Inductive steps : Sys -> Sys -> Prop :=
| steps_refl (s : Sys) : steps s s
| steps_cons (s1 s2 s3 : Sys) : step s1 s2 -> steps s2 s3 -> steps s1 s3.

(** The table has one row per id, every id of a row was issued by the
    table, and each goal the view holds is a row's id and amount. *)
Definition consistent (s : Sys) : Prop :=
  NoDup (ids (table s)) /\
  (forall g, In g (table s) -> In (SavingsGoal.id g) (issued s)) /\
  (forall g, In g (GoalsList.goals (view s)) ->
     exists r, In r (table s) /\
               SavingsGoal.id r = SavingsGoal.id g /\
               SavingsGoal.current_amount r = SavingsGoal.current_amount g).

End GoalsSystem.

(** ** Notions of the specification *)

Module Spec.
Local Open Scope Q_scope.

(** Sum of the amounts of a collection. *)
Fixpoint total {A} (amount : A -> Q) (xs : list A) : Q :=
  match xs with
  | [] => 0
  | x :: xs' => amount x + total amount xs'
  end.

(** Capital and small letters of the alphabet. *)
Definition isCapital (c : ascii) : Prop :=
  (65 <= nat_of_ascii c <= 90)%nat.

(** [b] is the small letter of the capital [a]. *)
Definition smallOf (a b : ascii) : Prop :=
  isCapital a /\ nat_of_ascii b = (nat_of_ascii a + 32)%nat.

(** The same character, letter case aside. *)
Definition sameLetter (a b : ascii) : Prop :=
  a = b \/ smallOf a b \/ smallOf b a.

(** The same text, letter case aside. *)
Fixpoint equalIgnoringCase (s t : string) : Prop :=
  match s, t with
  | EmptyString, EmptyString => True
  | String a s', String b t' => sameLetter a b /\ equalIgnoringCase s' t'
  | _, _ => False
  end.

(** [t] occurs in [s] as a contiguous substring, letter case aside. *)
Definition containsIgnoringCase (s t : string) : Prop :=
  exists pre mid post : string,
    s = (pre ++ mid ++ post)%string /\ equalIgnoringCase mid t.

(** The texts of an expense are texts of the model. *)
Definition asciiTexts (expense : Expense.t) : Prop :=
  JSString.isAscii (Expense.description expense) = true /\
  match Expense.notes expense with
  | Some notes => JSString.isAscii notes = true
  | None => True
  end.

(** Exact budget window: same category and date within
    [[start_date, end_date]], both ends included, in calendar order. *)
Definition inBudgetWindow (budget : Budget.t) (expense : Expense.t) : bool :=
  String.eqb (Expense.category_id expense) (Budget.category_id budget) &&
  JSDate.leb (Budget.start_date budget) (Expense.date expense) &&
  JSDate.leb (Expense.date expense) (Budget.end_date budget).

(** Today's date on the host. *)
Definition today (zone : JSDate.Zone) (now : JSDate.Date) : JSDate.ISODate :=
  JSDate.civil_from_days (JSDate.Day (JSDate.LocalTime zone now)).

(** The host is at or east of UTC at the midnight (UTC) that starts the
    date [c]. *)
Definition eastAt (zone : JSDate.Zone) (c : JSDate.ISODate) : Prop :=
  (0 <= JSDate.atUTC zone (JSDate.parse c) < JSDate.msPerDay)%Z.

(** Dated in the calendar month and year of [today]. *)
Definition inMonthOf (today : JSDate.ISODate) (expense : Expense.t) : bool :=
  JSDate.sameMonth (Expense.date expense) today.

(** Current calendar month: same category and dated in the month and
    year of [today]. *)
Definition inCurrentMonth (today : JSDate.ISODate) (budget : Budget.t)
    (expense : Expense.t) : bool :=
  String.eqb (Expense.category_id expense) (Budget.category_id budget) &&
  inMonthOf today expense.

(** The expenses whose category name is not the name of a member of
    [Object.prototype]. *)
Definition plainlyNamed (expense : Expense.t) : bool :=
  negb (JSObject.inherited (Dashboard.categoryName expense)).

(** What a budget's progress must be, given the budgeted amount and the
    expenses that count towards it: the sum, the percentage clamped at
    100, the remainder floored at 0, and the over-budget flag taken from
    the unclamped ratio. *)
Definition progressOf (amount : Q) (matching : list Expense.t)
    (spent remaining percentage : Q) (isOverBudget : bool) : Prop :=
  spent == total Expense.amount matching /\
  (spent <= amount -> percentage == spent / amount * 100) /\
  (amount < spent -> percentage == 100) /\
  (spent <= amount -> remaining == amount - spent) /\
  (amount < spent -> remaining == 0) /\
  (isOverBudget = true <-> 100 < spent / amount * 100) /\
  (isOverBudget = true <-> amount < spent).

(** The dates a collection carries are dates of the calendar. *)
Definition datedValidly (expenses : list Expense.t) : Prop :=
  forall e, In e expenses -> JSDate.validb (Expense.date e) = true.

End Spec.

(** ** Sample data *)

Module Sample.
Local Open Scope string_scope.
Local Open Scope Q_scope.

(** The creation stamp the sample rows carry. *)
Definition created : string := "2024-01-01T00:00:00Z".

Definition food : Category.t :=
  Category.mk "c-food" "u1" "Food & Dining" "#EF4444" "Utensils" created.
Definition gas : Category.t :=
  Category.mk "c-gas" "u1" "Transportation" "#3B82F6" "Car" created.
(** A category that carries the name of a member of every object. *)
Definition builder : Category.t :=
  Category.mk "c-build" "u1" "constructor" "#10B981" "Hammer" created.

Definition expense (id : string) (c : Category.t) (amount : Q)
    (description : string) (notes : option string) (date : JSDate.ISODate)
  : Expense.t :=
  Expense.mk id "u1" (Category.id c) amount description notes date created
             (Some c).

(** Noon of 15 March 2024, UTC. *)
Definition now : JSDate.Date :=
  (JSDate.parse (JSDate.mkISO 2024 3 15) + 43200000)%Z.

(** A host five hours west of UTC the year round. *)
Definition west : JSDate.Zone := JSDate.fixed (-18000000).

(** New York in 2024: four hours west of UTC from 10 March, 07:00 UTC,
    to 3 November, 06:00 UTC, and five hours west before and after; on
    the local clock, from 03:00 of 10 March to 02:00 of 3 November. *)
Definition newYork : JSDate.Zone :=
  JSDate.mkZone
    (fun t =>
       if ((JSDate.parse (JSDate.mkISO 2024 3 10) + 25200000 <=? t)
           && (t <? JSDate.parse (JSDate.mkISO 2024 11 3) + 21600000))%Z
       then (-14400000)%Z else (-18000000)%Z)
    (fun l =>
       if ((JSDate.parse (JSDate.mkISO 2024 3 10) + 10800000 <=? l)
           && (l <? JSDate.parse (JSDate.mkISO 2024 11 3) + 7200000))%Z
       then (-14400000)%Z else (-18000000)%Z).

(** Los Angeles in the winter: eight hours west of UTC. *)
Definition pacific : JSDate.Zone := JSDate.fixed (-28800000).

(** [differenceInDays] on a host in UTC: the full days between two
    instants, truncated toward zero. *)
Definition fullDays : GoalsList.DifferenceInDays :=
  fun later earlier => Z.quot (later - earlier) JSDate.msPerDay.

Definition januaryBudget : Budget.t :=
  Budget.mk "b1" "u1" "c-food" 100 monthly
            (JSDate.mkISO 2024 1 1) (JSDate.mkISO 2024 2 1) created (Some food).

Definition januaryLunch : Expense.t :=
  expense "e1" food 50 "Lunch" None (JSDate.mkISO 2024 1 10).

(** Two expenses for food, dated on the first of March and of April. *)
Definition firstOfMarch : Expense.t :=
  expense "e8" food 30 "Bread" None (JSDate.mkISO 2024 3 1).
Definition firstOfApril : Expense.t :=
  expense "e9" food 45 "Cheese" None (JSDate.mkISO 2024 4 1).

Definition marchBudget : Budget.t :=
  Budget.mk "b2" "u1" "c-food" 100 weekly
            (JSDate.mkISO 2024 3 10) (JSDate.mkISO 2024 3 17) created
            (Some food).

Definition marchExpenses : list Expense.t :=
  [ expense "e2" food 50 "Groceries" None (JSDate.mkISO 2024 3 11);
    expense "e3" food 70 "Coffee beans" (Some "Monthly treat")
            (JSDate.mkISO 2024 3 12);
    expense "e4" gas 20 "Fuel" None (JSDate.mkISO 2024 3 12) ].

(** Groceries for 50 and nails for 25, both bought in March 2024. *)
Definition marchPurchases : list Expense.t :=
  [ expense "e2" food 50 "Groceries" None (JSDate.mkISO 2024 3 11);
    expense "e10" builder 25 "Nails" None (JSDate.mkISO 2024 3 12) ].

(** Eleven coffees, one on each of the first eleven days of March. *)
Definition coffee (id : string) (dayOfMarch : Z) : Expense.t :=
  expense id food 10 "Coffee" None (JSDate.mkISO 2024 3 dayOfMarch).

Definition marchTable : list Expense.t :=
  [ coffee "m01" 1; coffee "m02" 2; coffee "m03" 3; coffee "m04" 4;
    coffee "m05" 5; coffee "m06" 6; coffee "m07" 7; coffee "m08" 8;
    coffee "m09" 9; coffee "m10" 10; coffee "m11" 11 ].

(** A dashboard that has loaded its collections. *)
Definition loadedDashboard : Dashboard.State :=
  Dashboard.mkState marchExpenses [marchBudget] [] [food; gas] false.

Definition refused : Gateway.RequestError :=
  Gateway.mkError "JWT expired".

(** Midnight of 15 March 2024. *)
Definition midnight : JSDate.Date := JSDate.parse (JSDate.mkISO 2024 3 15).

(** A goal due ten days after 15 March 2024. *)
Definition holiday : SavingsGoal.t :=
  SavingsGoal.mk "g1" "u1" "Holiday" 1000 200 (JSDate.mkISO 2024 3 25)
                 created created.

(** A goal reached in full and due two weeks before 15 March 2024. *)
Definition reached : SavingsGoal.t :=
  SavingsGoal.mk "g2" "u1" "Bicycle" 1000 1000 (JSDate.mkISO 2024 3 1)
                 created created.


(** A goal ten short of its target, stored and shown. *)
Definition nearly : SavingsGoal.t :=
  SavingsGoal.mk "g4" "u1" "Camera" 100 90 (JSDate.mkISO 2024 6 1)
                 created created.

Definition shown : GoalsSystem.Sys :=
  GoalsSystem.mkSys [nearly] ["g4"] (GoalsList.mkState [nearly] false false).

(** The state after 50 is entered on the card of that goal. *)
Definition deposited : GoalsSystem.Sys :=
  GoalsSystem.mkSys
    (Gateway.update_current_amount [nearly] "g4" (90 + 50) "2024-03-15")
    ["g4"]
    (fst (GoalsList.submitAmount (GoalsList.mkState [nearly] false false)
            nearly (Some 50) (Gateway.succeeded tt))).

End Sample.

(** ** What the views draw from the derived values *)

Module Render.
Local Open Scope Q_scope.

Inductive BarColor := red | yellow | emerald.

(** The class of a progress bar:
    [isOverBudget ? 'bg-red-500' : percentage > 80 ? 'bg-yellow-500'
     : 'bg-emerald-500']. *)
Definition barColor (isOverBudget : bool) (percentage : Q) : BarColor :=
  if isOverBudget then red
  else if JSNumber.gtb percentage 80 then yellow
  else emerald.

(** The width of a progress bar, in percent:
    [Math.min(100, percentage)]. *)
Definition barWidth (percentage : Q) : Q := JSNumber.min 100 percentage.

(** A card of the budgets list: the bar, then the label and the figure of
    its last row. *)
Record BudgetCard := mkBudgetCard {
  color : BarColor;
  width : Q;
  label : string;
  figure : Q
}.

Definition budgetCard (expenses : list Expense.t) (budget : Budget.t)
  : BudgetCard :=
  let progress := BudgetsList.getBudgetProgress expenses budget in
  mkBudgetCard
    (barColor (BudgetsList.isOverBudget progress)
              (BudgetsList.percentage progress))
    (barWidth (BudgetsList.percentage progress))
    (if BudgetsList.isOverBudget progress then "Over budget"%string
     else "Remaining"%string)
    (BudgetsList.remaining progress).

(** The bar of a goal card: [Math.min(100, progress)]. *)
Definition goalBarWidth (goal : SavingsGoal.t) : JSNumber.Number :=
  JSNumber.minOf 100 (GoalsList.progress goal).

End Render.

(** ** The search box and the category select of the expenses list *)

Module ExpensesFilters.

(** [setSearchTerm(e.target.value)] and
    [setSelectedCategory(e.target.value)]. *)
Definition setSearchTerm (term : string) (st : ExpensesList.State)
  : ExpensesList.State :=
  ExpensesList.mkState (ExpensesList.expenses st) (ExpensesList.loading st)
    (ExpensesList.showForm st) term (ExpensesList.selectedCategory st)
    (ExpensesList.categories st).

Definition setSelectedCategory (id : string) (st : ExpensesList.State)
  : ExpensesList.State :=
  ExpensesList.mkState (ExpensesList.expenses st) (ExpensesList.loading st)
    (ExpensesList.showForm st) (ExpensesList.searchTerm st) id
    (ExpensesList.categories st).


End ExpensesFilters.

(** ** The forms: saving a new record *)

Module Forms.
Import Gateway.

(** The callbacks a form receives from the list that opens it. *)
Inductive Callback := onSave | onClose.

(** What a [handleSubmit] has done once the insert has settled: the
    callbacks it called, in order, what it logged, and its [loading]
    flag. *)
Record Submitted := mkSubmitted {
  calls : list Callback;
  log : list string;
  loading : bool
}.

(** The shape the three [handleSubmit] share:
    [if (error) throw error; onSave(); onClose()] inside a [try] whose
    [catch] logs and whose [finally] clears the flag. *)
Definition settle (label : string) (q : Settled unit) : Submitted :=
  match q with
  | Resolved r =>
      match error r with
      | Some _ => mkSubmitted [] [label] false
      | None => mkSubmitted [onSave; onClose] [] false
      end
  | Rejected _ => mkSubmitted [] [label] false
  end.

End Forms.

Module ExpenseForm.

Definition handleSubmit (q : Gateway.Settled unit) : Forms.Submitted :=
  Forms.settle "Error saving expense:" q.

End ExpenseForm.

Module GoalForm.

Definition handleSubmit (q : Gateway.Settled unit) : Forms.Submitted :=
  Forms.settle "Error saving goal:" q.

End GoalForm.

(** The lists carry the callbacks out: [onSave] is their load,
    [onClose] is [setShowForm(false)]. *)
Module FormHosts.








End FormHosts.

(** ** Further sample data *)

Module Cases.
Local Open Scope string_scope.
Local Open Scope Q_scope.

(** One in the morning of 10 March 2024. *)
Definition tenth : JSDate.Date :=
  (JSDate.parse (JSDate.mkISO 2024 3 10) + 3600000)%Z.

(** The budget a monthly submission at [Sample.now] stores. *)
Definition freshBudget : Budget.t :=
  Budget.mk "b3" "u1" "c-food" 100 monthly
            (JSDate.mkISO 2024 3 15) (JSDate.mkISO 2024 4 15)
            Sample.created (Some Sample.food).

Definition todaysLunch : Expense.t :=
  Sample.expense "e5" Sample.food 12 "Lunch" None (JSDate.mkISO 2024 3 15).

Definition groceries : Expense.t :=
  Sample.expense "e2" Sample.food 50 "Groceries" None
                 (JSDate.mkISO 2024 3 11).

Definition beans : Expense.t :=
  Sample.expense "e3" Sample.food 70 "Coffee beans" (Some "Monthly treat")
                 (JSDate.mkISO 2024 3 12).

(** The expenses list holding the March expenses, no filter set. *)
Definition listing : ExpensesList.State :=
  ExpensesList.mkState Sample.marchExpenses false false EmptyString
                       EmptyString [Sample.food; Sample.gas].


End Cases.

(** * Calendar facts *)

Section CalendarFacts.
Import JSDate.

(** Goals about quotients and remainders by constants. *)
Ltac zdiv := Z.to_euclidean_division_equations; lia.

Lemma isLeap_spec (y : Z) :
  isLeap y = true <-> (y mod 4 = 0 /\ y mod 100 <> 0) \/ y mod 400 = 0.
Proof.
  unfold isLeap.
  rewrite orb_true_iff, andb_true_iff, negb_true_iff, !Z.eqb_eq, Z.eqb_neq.
  reflexivity.
Qed.

Lemma validb_spec (c : ISODate) :
  validb c = true <->
  1 <= month c <= 12 /\ 1 <= day c <= daysInMonth (year c) (month c).
Proof.
  unfold validb. rewrite !andb_true_iff, !Z.leb_le. tauto.
Qed.

Lemma daysInMonth_le_31 (y m : Z) : daysInMonth y m <= 31.
Proof.
  unfold daysInMonth.
  destruct (m =? 2); [destruct (isLeap y); lia|].
  destruct (_ || _); lia.
Qed.

Lemma daysInMonth_ge_28 (y m : Z) : 28 <= daysInMonth y m.
Proof.
  unfold daysInMonth.
  destruct (m =? 2); [destruct (isLeap y); lia|].
  destruct (_ || _); lia.
Qed.

(** The length of a month, by the start of the next shifted month; the
    length of February, by the leap year rule. *)
Lemma daysInMonth_shifted (y m : Z) :
  1 <= m <= 12 ->
  (m <> 2 ->
   daysInMonth y m
   = monthStart (shiftedMonth m + 1) - monthStart (shiftedMonth m)) /\
  (m = 2 ->
   daysInMonth y m <= 29 /\ (daysInMonth y m = 29 -> isLeap y = true)).
Proof.
  intros Hm. split.
  - intros Hne.
    assert (C : m = 1 \/ m = 3 \/ m = 4 \/ m = 5 \/ m = 6 \/ m = 7 \/ m = 8
                \/ m = 9 \/ m = 10 \/ m = 11 \/ m = 12) by lia.
    repeat (destruct C as [->|C]; [reflexivity|]). subst m. reflexivity.
  - intros ->. unfold daysInMonth. cbn [Z.eqb Pos.eqb].
    destruct (isLeap y); split; try lia; reflexivity.
Qed.

(** A day of the cycle falls in the year of the cycle that
    [yearOfEra] gives; it is the 366th day of that year in leap years
    only. *)
Lemma yearOfEra_spec (doe : Z) :
  0 <= doe < daysPerEra ->
  0 <= yearOfEra doe < 400 /\
  0 <= doe - yearStart (yearOfEra doe) <= 365 /\
  (doe - yearStart (yearOfEra doe) = 365 ->
   ((yearOfEra doe + 1) mod 4 = 0 /\ (yearOfEra doe + 1) mod 100 <> 0) \/
   (yearOfEra doe + 1) mod 400 = 0).
Proof. unfold daysPerEra, yearStart, yearOfEra. intros H. zdiv. Qed.

(** A day of the year falls in the shifted month that the quotient
    gives. *)
Lemma monthOfYear_spec (doy : Z) :
  0 <= doy <= 365 ->
  0 <= (5 * doy + 2) / 153 <= 11 /\
  monthStart ((5 * doy + 2) / 153) <= doy
    < monthStart ((5 * doy + 2) / 153 + 1).
Proof. unfold monthStart. intros H. zdiv. Qed.

Lemma monthOfYear_monthStart (mp d : Z) :
  0 <= mp <= 11 -> 1 <= d ->
  monthStart mp + d - 1 < monthStart (mp + 1) ->
  (5 * (monthStart mp + d - 1) + 2) / 153 = mp.
Proof. unfold monthStart. intros Hm Hd H. zdiv. Qed.

Lemma shiftedMonth_spec (m : Z) :
  1 <= m <= 12 ->
  0 <= shiftedMonth m <= 11 /\
  (if shiftedMonth m <? 10 then shiftedMonth m + 3 else shiftedMonth m - 9)
  = m.
Proof.
  intros Hm. unfold shiftedMonth.
  destruct (Z.leb_spec m 2).
  - destruct (Z.ltb_spec (m + 9) 10); lia.
  - destruct (Z.ltb_spec (m - 3) 10); lia.
Qed.

(** The number of days before a year, counted from year 0 of the shifted
    calendar. *)
Lemma yearStart_era (y : Z) :
  y / 400 * daysPerEra + yearStart (y - y / 400 * 400)
  = 365 * y + y / 4 - y / 100 + y / 400.
Proof. unfold daysPerEra, yearStart. zdiv. Qed.

(** [days_from_civil] in closed form. *)
Lemma days_from_civil_closed (y m d : Z) :
  days_from_civil y m d
  = (let y' := if m <=? 2 then y - 1 else y in
     365 * y' + y' / 4 - y' / 100 + y' / 400)
    + monthStart (shiftedMonth m) + d - 1 - epochShift.
Proof.
  unfold days_from_civil. cbv zeta.
  set (y' := if m <=? 2 then y - 1 else y).
  rewrite <- (yearStart_era y'). ring.
Qed.

(** The fields [civil_from_days] computes, and their ranges. *)
Lemma civil_from_days_fields (z : Z) :
  exists era yoe doy : Z,
    z = era * daysPerEra + yearStart yoe + doy - epochShift /\
    0 <= yoe < 400 /\ 0 <= doy <= 365 /\
    (doy = 365 -> isLeap (yoe + 1) = true) /\
    civil_from_days z
    = (let mp := (5 * doy + 2) / 153 in
       let m := if mp <? 10 then mp + 3 else mp - 9 in
       mkISO (if m <=? 2 then yoe + era * 400 + 1 else yoe + era * 400)
             m (doy - monthStart mp + 1)).
Proof.
  set (era := (z + epochShift) / daysPerEra).
  set (doe := z + epochShift - era * daysPerEra).
  assert (Hdoe : 0 <= doe < daysPerEra)
    by (unfold doe, era, daysPerEra; zdiv).
  destruct (yearOfEra_spec doe Hdoe) as (Hy & Hd & Hl).
  exists era, (yearOfEra doe), (doe - yearStart (yearOfEra doe)).
  split; [unfold doe, daysPerEra, epochShift; lia|].
  split; [exact Hy|]. split; [exact Hd|].
  split; [intros E; apply isLeap_spec, Hl, E|reflexivity].
Qed.

(** The civil date of a day number is a valid date. *)
Lemma civil_from_days_valid (z : Z) : validb (civil_from_days z) = true.
Proof.
  destruct (civil_from_days_fields z)
    as (era & yoe & doy & _ & Hy & Hd & Hl & ->).
  cbv zeta. destruct (monthOfYear_spec doy Hd) as (Hmp & Hms).
  set (mp := (5 * doy + 2) / 153) in *.
  set (m := if mp <? 10 then mp + 3 else mp - 9).
  assert (Hm : 1 <= m <= 12 /\ shiftedMonth m = mp).
  { unfold m, shiftedMonth. destruct (Z.ltb_spec mp 10).
    - destruct (Z.leb_spec (mp + 3) 2); lia.
    - destruct (Z.leb_spec (mp - 9) 2); lia. }
  destruct Hm as (Hm & Hs).
  apply validb_spec. cbn [year month day]. split; [exact Hm|].
  set (y := if m <=? 2 then yoe + era * 400 + 1 else yoe + era * 400).
  destruct (daysInMonth_shifted y m Hm) as (Hother & Hfeb).
  destruct (Z.eq_dec m 2) as [E|N].
  - assert (Emp : mp = 11) by (unfold m in E; destruct (mp <? 10); lia).
    assert (Ey : y = yoe + 1 + 400 * era)
      by (unfold y; rewrite E; change (2 <=? 2) with true; ring).
    rewrite E. unfold daysInMonth. cbn [Z.eqb Pos.eqb].
    rewrite Emp in *. change (monthStart 11) with 337 in *.
    destruct (isLeap y) eqn:L; [lia|].
    assert (doy <> 365); [|lia].
    intros E365. rewrite Ey in L.
    apply Hl in E365. apply isLeap_spec in E365.
    assert (isLeap (yoe + 1 + 400 * era) = true); [|congruence].
    apply isLeap_spec. zdiv.
  - rewrite (Hother N), Hs. lia.
Qed.

(** A day number is recovered from its civil date. *)
Lemma days_from_civil_of_civil (z : Z) :
  days_from_civil (year (civil_from_days z)) (month (civil_from_days z))
                  (day (civil_from_days z)) = z.
Proof.
  destruct (civil_from_days_fields z)
    as (era & yoe & doy & Hz & Hy & Hd & _ & ->).
  cbv zeta. destruct (monthOfYear_spec doy Hd) as (Hmp & Hms).
  set (mp := (5 * doy + 2) / 153) in *.
  set (m := if mp <? 10 then mp + 3 else mp - 9).
  cbn [year month day]. unfold days_from_civil. cbv zeta.
  assert (Hs : shiftedMonth m = mp).
  { unfold m, shiftedMonth. destruct (Z.ltb_spec mp 10).
    - destruct (Z.leb_spec (mp + 3) 2); lia.
    - destruct (Z.leb_spec (mp - 9) 2); lia. }
  rewrite Hs.
  replace (if m <=? 2
           then (if m <=? 2 then yoe + era * 400 + 1 else yoe + era * 400) - 1
           else (if m <=? 2 then yoe + era * 400 + 1 else yoe + era * 400))
    with (yoe + era * 400) by (destruct (m <=? 2); ring).
  rewrite Z.div_add by lia. rewrite (Z.div_small yoe 400) by lia.
  replace (yoe + era * 400 - (0 + era) * 400) with yoe by ring.
  rewrite Hz. ring.
Qed.

Lemma ltb_spec (a b : ISODate) :
  ltb a b = true <->
  year a < year b \/
  (year a = year b /\
   (month a < month b \/ (month a = month b /\ day a < day b))).
Proof.
  unfold ltb.
  rewrite !orb_true_iff, !andb_true_iff, !orb_true_iff, !andb_true_iff,
    !Z.ltb_lt, !Z.eqb_eq. tauto.
Qed.

Lemma leb_spec (a b : ISODate) :
  leb a b = true <->
  year a < year b \/
  (year a = year b /\
   (month a < month b \/ (month a = month b /\ day a <= day b))).
Proof.
  unfold leb.
  rewrite !orb_true_iff, !andb_true_iff, !orb_true_iff, !andb_true_iff,
    !Z.ltb_lt, !Z.eqb_eq, Z.leb_le. tauto.
Qed.

(** The day of the year of a valid date lies within its year. *)
Lemma dayOfYear_bound (c : ISODate) :
  validb c = true ->
  let y' := if month c <=? 2 then year c - 1 else year c in
  0 <= monthStart (shiftedMonth (month c)) + day c - 1 /\
  monthStart (shiftedMonth (month c)) + day c - 1
    < monthStart (shiftedMonth (month c) + 1) /\
  (365 * y' + y' / 4 - y' / 100 + y' / 400)
    + monthStart (shiftedMonth (month c)) + day c - 1
  < 365 * (y' + 1) + (y' + 1) / 4 - (y' + 1) / 100 + (y' + 1) / 400.
Proof.
  intros Hv y'. apply validb_spec in Hv. destruct Hv as (Hm & Hd).
  destruct (daysInMonth_shifted (year c) (month c) Hm) as (Hother & Hfeb).
  destruct (shiftedMonth_spec (month c) Hm) as (Hmp & _).
  assert (Hms : 0 <= monthStart (shiftedMonth (month c))
                /\ monthStart (shiftedMonth (month c) + 1) <= 367
                /\ (shiftedMonth (month c) <= 10 ->
                    monthStart (shiftedMonth (month c) + 1) <= 337))
    by (unfold monthStart; zdiv).
  destruct (Z.eq_dec (month c) 2) as [E|N].
  - assert (Ey : y' = year c - 1) by (unfold y'; rewrite E; reflexivity).
    destruct (Hfeb E) as (H29 & Hleap).
    assert (Emp : shiftedMonth (month c) = 11) by (rewrite E; reflexivity).
    rewrite Emp in *. change (monthStart 11) with 337.
    change (monthStart (11 + 1)) with 367.
    split; [lia|]. split; [lia|].
    destruct (Z.eq_dec (day c) 29) as [E29|N29].
    + assert (L : isLeap (year c) = true) by (apply Hleap; lia).
      apply isLeap_spec in L. rewrite Ey. zdiv.
    + assert (day c <= 28) by lia. zdiv.
  - specialize (Hother N).
    assert (Hle : shiftedMonth (month c) <= 10).
    { unfold shiftedMonth. destruct (Z.leb_spec (month c) 2); lia. }
    split; [lia|]. split; [lia|].
    assert (monthStart (shiftedMonth (month c)) + day c - 1 <= 336) by lia.
    zdiv.
Qed.

(** Day numbers grow strictly with the calendar order of valid dates. *)
Lemma days_from_civil_lt (a b : ISODate) :
  validb a = true -> validb b = true -> ltb a b = true ->
  days_from_civil (year a) (month a) (day a)
  < days_from_civil (year b) (month b) (day b).
Proof.
  intros Ha Hb Hlt. apply ltb_spec in Hlt.
  rewrite !days_from_civil_closed. cbv zeta.
  pose proof (dayOfYear_bound a Ha) as Ba.
  pose proof (dayOfYear_bound b Hb) as Bb. cbv zeta in Ba, Bb.
  apply validb_spec in Ha, Hb.
  destruct (shiftedMonth_spec (month a) (proj1 Ha)) as (Hmpa & _).
  destruct (shiftedMonth_spec (month b) (proj1 Hb)) as (Hmpb & _).
  set (ya := if month a <=? 2 then year a - 1 else year a) in *.
  set (yb := if month b <=? 2 then year b - 1 else year b) in *.
  set (mpa := shiftedMonth (month a)) in *.
  set (mpb := shiftedMonth (month b)) in *.
  assert (Hkey : 12 * ya + mpa = 12 * year a + month a - 3
                 /\ 12 * yb + mpb = 12 * year b + month b - 3).
  { unfold ya, yb, mpa, mpb, shiftedMonth.
    destruct (month a <=? 2), (month b <=? 2); lia. }
  assert (Hmono : forall p q, 0 <= p -> p + 1 <= q -> q <= 12 ->
                    monthStart (p + 1) <= monthStart q)
    by (intros p q Hp Hpq Hq; unfold monthStart; zdiv).
  destruct (Z.lt_trichotomy ya yb) as [Hy|[Hy|Hy]].
  - assert (365 * (ya + 1) + (ya + 1) / 4 - (ya + 1) / 100 + (ya + 1) / 400
            <= 365 * yb + yb / 4 - yb / 100 + yb / 400) by zdiv.
    lia.
  - rewrite Hy in *.
    destruct (Z.lt_trichotomy mpa mpb) as [Hm|[Hm|Hm]].
    + pose proof (Hmono mpa mpb ltac:(lia) ltac:(lia) ltac:(lia)). lia.
    + assert (month a = month b) by lia. rewrite Hm in *. lia.
    + lia.
  - lia.
Qed.

(** A valid civil date is recovered from its day number. *)
Lemma civil_from_days_of_civil (c : ISODate) :
  validb c = true ->
  civil_from_days (days_from_civil (year c) (month c) (day c)) = c.
Proof.
  intros Hv.
  set (z := days_from_civil (year c) (month c) (day c)).
  pose proof (civil_from_days_valid z) as Hv'.
  pose proof (days_from_civil_of_civil z) as Hz.
  set (c' := civil_from_days z) in *.
  destruct (ltb c c') eqn:L1.
  - pose proof (days_from_civil_lt c c' Hv Hv' L1). fold z in H. lia.
  - destruct (ltb c' c) eqn:L2.
    + pose proof (days_from_civil_lt c' c Hv' Hv L2). fold z in H. lia.
    + assert (N1 : ~ (ltb c c' = true)) by congruence.
      assert (N2 : ~ (ltb c' c = true)) by congruence.
      rewrite ltb_spec in N1, N2.
      destruct c as [y m d], c' as [y' m' d']. cbn [year month day] in *.
      f_equal; lia.
Qed.

(** Calendar order of valid dates is the order of their day numbers. *)
Lemma leb_days (a b : ISODate) :
  validb a = true -> validb b = true ->
  (leb a b = true <->
   days_from_civil (year a) (month a) (day a)
     <= days_from_civil (year b) (month b) (day b)).
Proof.
  intros Ha Hb. split.
  - intros Hle. destruct (ltb a b) eqn:L.
    + apply Z.lt_le_incl, days_from_civil_lt; assumption.
    + assert (N : ~ (ltb a b = true)) by congruence.
      rewrite ltb_spec in N. rewrite leb_spec in Hle.
      assert (a = b).
      { destruct a as [y m d], b as [y' m' d']. cbn [year month day] in *.
        f_equal; lia. }
      subst b. lia.
  - intros Hle. destruct (ltb b a) eqn:L.
    + pose proof (days_from_civil_lt b a Hb Ha L). lia.
    + assert (N : ~ (ltb b a = true)) by congruence.
      rewrite ltb_spec in N. apply leb_spec. lia.
Qed.

End CalendarFacts.

(** * Sums and comparisons of amounts *)

Section Amounts.
Local Open Scope Q_scope.

Lemma fold_left_total {A} (amount : A -> Q) (xs : list A) :
  forall acc,
    fold_left (fun sum x => sum + amount x) xs acc
    == acc + Spec.total amount xs.
Proof.
  induction xs as [|x xs IH]; intros acc; simpl.
  - ring.
  - rewrite IH. ring.
Qed.

Lemma reduce_amounts_total {A} (amount : A -> Q) (xs : list A) :
  reduce_amounts amount xs == Spec.total amount xs.
Proof. unfold reduce_amounts. rewrite fold_left_total. ring. Qed.

Lemma total_app {A} (amount : A -> Q) (xs ys : list A) :
  Spec.total amount (xs ++ ys)
  == Spec.total amount xs + Spec.total amount ys.
Proof.
  induction xs as [|x xs IH]; simpl.
  - ring.
  - rewrite IH. ring.
Qed.

Lemma gtb_lt (x y : Q) : JSNumber.gtb x y = true <-> y < x.
Proof.
  unfold JSNumber.gtb. rewrite negb_true_iff.
  split.
  - intros H. apply Qnot_le_lt. intros Hle.
    apply Qle_bool_iff in Hle. congruence.
  - intros H. destruct (Qle_bool x y) eqn:E; [|reflexivity].
    apply Qle_bool_iff in E. exfalso. eapply Qlt_not_le; eassumption.
Qed.

Lemma geb_le (x y : Q) : JSNumber.geb x y = true <-> y <= x.
Proof. unfold JSNumber.geb. apply Qle_bool_iff. Qed.

(** The percentage exceeds 100 exactly when more was spent than
    budgeted. *)
Lemma percentage_over (spent amount : Q) :
  0 < amount -> (100 < spent / amount * 100 <-> amount < spent).
Proof.
  intros Ha.
  assert (Hne : ~ amount == 0) by (intros E; rewrite E in Ha; discriminate).
  assert (E : spent / amount * 100 - 100
              == (spent - amount) * (100 / amount)) by (field; exact Hne).
  assert (Hpos : 0 < 100 / amount).
  { apply Qlt_shift_div_l; [exact Ha|]. rewrite Qmult_0_l. reflexivity. }
  split; intros H.
  - assert (H1 : 0 < (spent - amount) * (100 / amount)).
    { rewrite <- E. rewrite <- (Qplus_opp_r 100).
      apply Qplus_lt_l. exact H. }
    assert (H2 : 0 < spent - amount).
    { apply Qnot_le_lt. intros Hle.
      apply (Qlt_not_le _ _ H1).
      rewrite <- (Qmult_0_l (100 / amount)).
      apply Qmult_le_compat_r; [exact Hle|apply Qlt_le_weak, Hpos]. }
    apply (Qplus_lt_l _ _ (- amount)). rewrite Qplus_opp_r. exact H2.
  - assert (H2 : 0 < spent - amount).
    { rewrite <- (Qplus_opp_r amount). apply Qplus_lt_l. exact H. }
    assert (H1 : 0 < spent / amount * 100 - 100).
    { rewrite E. rewrite <- (Qmult_0_l (100 / amount)).
      apply Qmult_lt_compat_r; assumption. }
    apply (Qplus_lt_l _ _ (- (100))). rewrite Qplus_opp_r. exact H1.
Qed.

End Amounts.

(** * Budget progress *)

Section BudgetProgress.
Local Open Scope Q_scope.

Lemma percentage_within (spent amount : Q) :
  0 < amount -> (spent / amount * 100 <= 100 <-> spent <= amount).
Proof.
  intros Ha. split; intros H.
  - apply Qnot_lt_le. intros Hlt.
    apply (proj2 (percentage_over spent amount Ha)) in Hlt.
    eapply Qlt_not_le; eassumption.
  - apply Qnot_lt_le. intros Hlt.
    apply (proj1 (percentage_over spent amount Ha)) in Hlt.
    eapply Qlt_not_le; eassumption.
Qed.

(** The arithmetic shared by the two [getBudgetProgress]. *)
Lemma progress_arithmetic (amount : Q) (matching : list Expense.t) :
  0 < amount ->
  let spent := reduce_amounts Expense.amount matching in
  let percentage := spent / amount * 100 in
  Spec.progressOf amount matching spent
    (JSNumber.max 0 (amount - spent))
    (JSNumber.min 100 percentage)
    (JSNumber.gtb percentage 100).
Proof.
  intros Ha spent percentage.
  unfold Spec.progressOf, JSNumber.max, JSNumber.min.
  repeat split.
  - apply reduce_amounts_total.
  - intros H. apply Q.min_r. apply percentage_within; assumption.
  - intros H. apply Q.min_l. apply Qlt_le_weak.
    apply percentage_over; assumption.
  - intros H. apply Q.max_r.
    rewrite <- (Qplus_opp_r spent). apply Qplus_le_l. exact H.
  - intros H. apply Q.max_l.
    rewrite <- (Qplus_opp_r spent). apply Qplus_le_l.
    apply Qlt_le_weak, H.
  - intros H. apply gtb_lt in H. exact H.
  - intros H. apply gtb_lt. exact H.
  - intros H. apply (proj1 (percentage_over _ _ Ha)), gtb_lt, H.
  - intros H. apply gtb_lt, (proj2 (percentage_over _ _ Ha)), H.
Qed.

(** C1. For a budget with a positive amount and any expense collection,
    both the budgets view and the dashboard compute [spent] as the sum of
    the amounts of the matching expenses, [percentage] as
    spent/amount × 100 clamped at 100, [remaining] as
    max(0, amount − spent), and [isOverBudget] as true exactly when the
    unclamped ratio exceeds 100, that is exactly when spent > amount,
    also when the displayed percentage is 100. *)
Theorem budget_progress_correct
    (zone : JSDate.Zone) (now : JSDate.Date) (expenses : list Expense.t)
    (budget : Budget.t) :
  0 < Budget.amount budget ->
  let p := BudgetsList.getBudgetProgress expenses budget in
  let d := Dashboard.budgetProgress zone now expenses budget in
  Spec.progressOf (Budget.amount budget)
    (filter (BudgetsList.inWindow budget) expenses)
    (BudgetsList.spent p) (BudgetsList.remaining p)
    (BudgetsList.percentage p) (BudgetsList.isOverBudget p) /\
  Spec.progressOf (Budget.amount budget)
    (filter (Dashboard.matchesBudget zone now budget) expenses)
    (Dashboard.spent d) (Dashboard.remaining d)
    (Dashboard.percentage d) (Dashboard.isOverBudget d).
Proof.
  intros Ha p d. split.
  - apply (progress_arithmetic (Budget.amount budget)
             (filter (BudgetsList.inWindow budget) expenses) Ha).
  - apply (progress_arithmetic (Budget.amount budget)
             (filter (Dashboard.matchesBudget zone now budget) expenses) Ha).
Qed.

End BudgetProgress.

(** * Reference windows *)

Section ReferenceWindows.
Import JSDate.
Local Open Scope Z_scope.

Lemma Day_parse (c : ISODate) :
  Day (parse c) = days_from_civil (year c) (month c) (day c).
Proof.
  unfold Day, parse, MakeDate. rewrite Z.add_0_r.
  apply Z.div_mul. unfold msPerDay. lia.
Qed.

Lemma toISODate_parse (c : ISODate) :
  validb c = true -> toISODate (parse c) = c.
Proof.
  intros Hv. unfold toISODate. rewrite Day_parse.
  apply civil_from_days_of_civil, Hv.
Qed.

Lemma Day_shift (t off : Z) :
  0 <= off < msPerDay -> t mod msPerDay = 0 -> Day (t + off) = Day t.
Proof.
  unfold Day, msPerDay. intros Ho Ht.
  Z.to_euclidean_division_equations; lia.
Qed.

Lemma parse_midnight (c : ISODate) : parse c mod msPerDay = 0.
Proof.
  unfold parse, MakeDate. rewrite Z.add_0_r. apply Z.mod_mul.
  unfold msPerDay. lia.
Qed.

(** At or east of UTC the local date at the midnight that starts a date
    is that date. *)
Lemma today_parse (zone : Zone) (c : ISODate) :
  validb c = true -> Spec.eastAt zone c -> Spec.today zone (parse c) = c.
Proof.
  intros Hv He. unfold Spec.today, LocalTime.
  rewrite (Day_shift _ _ He (parse_midnight c)), Day_parse.
  apply civil_from_days_of_civil, Hv.
Qed.

Lemma getMonth_parse (zone : Zone) (c : ISODate) :
  validb c = true -> Spec.eastAt zone c ->
  getMonth zone (parse c) = month c - 1.
Proof.
  intros Hv He. unfold getMonth, MonthFromTime.
  fold (Spec.today zone (parse c)). rewrite (today_parse zone c Hv He).
  reflexivity.
Qed.

Lemma getFullYear_parse (zone : Zone) (c : ISODate) :
  validb c = true -> Spec.eastAt zone c ->
  getFullYear zone (parse c) = year c.
Proof.
  intros Hv He. unfold getFullYear, YearFromTime.
  fold (Spec.today zone (parse c)). rewrite (today_parse zone c Hv He).
  reflexivity.
Qed.

(** Comparing two parsed dates is comparing them in calendar order. *)
Lemma parse_leb (a b : ISODate) :
  validb a = true -> validb b = true ->
  (parse a <=? parse b) = leb a b.
Proof.
  intros Ha Hb. apply eq_true_iff_eq.
  rewrite Z.leb_le, (leb_days a b Ha Hb).
  unfold parse, MakeDate, msPerDay. lia.
Qed.

Lemma inWindow_spec (budget : Budget.t) (e : Expense.t) :
  validb (Budget.start_date budget) = true ->
  validb (Budget.end_date budget) = true ->
  validb (Expense.date e) = true ->
  BudgetsList.inWindow budget e = Spec.inBudgetWindow budget e.
Proof.
  intros Hs He Hd. unfold BudgetsList.inWindow, Spec.inBudgetWindow.
  cbv zeta. rewrite Z.geb_leb.
  rewrite (parse_leb _ _ Hs Hd), (parse_leb _ _ Hd He). reflexivity.
Qed.

(** At or east of UTC the dashboard's month test is: dated in the month
    and year of today's date on the host. *)
Lemma inCurrentMonth_spec (zone : Zone) (now : Date) (e : Expense.t) :
  validb (Expense.date e) = true ->
  Spec.eastAt zone (Expense.date e) ->
  Dashboard.inCurrentMonth zone now e
  = Spec.inMonthOf (Spec.today zone now) e.
Proof.
  intros Hd He. unfold Dashboard.inCurrentMonth, Spec.inMonthOf, sameMonth.
  cbv zeta.
  rewrite (getMonth_parse _ _ Hd He), (getFullYear_parse _ _ Hd He).
  unfold getMonth, getFullYear, MonthFromTime, YearFromTime.
  fold (Spec.today zone now).
  rewrite andb_comm. f_equal.
  destruct (Z.eqb_spec (month (Expense.date e) - 1)
                       (month (Spec.today zone now) - 1));
    destruct (Z.eqb_spec (month (Expense.date e))
                         (month (Spec.today zone now)));
    try reflexivity; lia.
Qed.

Lemma matchesBudget_spec (zone : Zone) (now : Date) (budget : Budget.t)
    (e : Expense.t) :
  validb (Expense.date e) = true ->
  Spec.eastAt zone (Expense.date e) ->
  Dashboard.matchesBudget zone now budget e
  = Spec.inCurrentMonth (Spec.today zone now) budget e.
Proof.
  intros Hd He. unfold Dashboard.matchesBudget, Spec.inCurrentMonth.
  rewrite (inCurrentMonth_spec zone now e Hd He). reflexivity.
Qed.

Lemma filter_ext_valid (f g : Expense.t -> bool) (l : list Expense.t) :
  Spec.datedValidly l ->
  (forall e, In e l -> validb (Expense.date e) = true -> f e = g e) ->
  filter f l = filter g l.
Proof.
  intros Hl Hfg. apply filter_ext_in. intros e He. apply Hfg; [exact He|].
  apply Hl, He.
Qed.

(** C2. On a host five hours west of UTC, on 15 March 2024, the dashboard
    counts for a food budget the expense dated 1 April and leaves out the
    one dated 1 March, where the expenses of the category dated in the
    current calendar month and year are the one dated 1 March alone: it
    shows 45 spent instead of 30. *)
Theorem dashboard_month_test_west_of_utc :
  let expenses := [Sample.firstOfMarch; Sample.firstOfApril] in
  Spec.today Sample.west Sample.now = mkISO 2024 3 15 /\
  filter (Dashboard.matchesBudget Sample.west Sample.now Sample.marchBudget)
         expenses = [Sample.firstOfApril] /\
  filter (Spec.inCurrentMonth (mkISO 2024 3 15) Sample.marchBudget) expenses
  = [Sample.firstOfMarch] /\
  (Dashboard.spent
     (Dashboard.budgetProgress Sample.west Sample.now expenses
                               Sample.marchBudget) == 45)%Q /\
  (Spec.total Expense.amount
     (filter (Spec.inCurrentMonth (mkISO 2024 3 15) Sample.marchBudget)
             expenses) == 30)%Q.
Proof.
  cbv zeta. split; [reflexivity|]. split; [reflexivity|].
  split; [reflexivity|]. split; reflexivity.
Qed.

(** X24. The two reference windows. The budgets view counts exactly the
    expenses of the budget's category dated within
    [[start_date, end_date]], ends included, wherever the host is; the
    dashboard counts exactly the expenses of the budget's category dated
    in the month and year of today's date on the host when the host is at
    or east of UTC; and the two windows are not interchangeable: some
    budget and collection give different sums. *)
Theorem reference_windows
    (zone : Zone) (now : Date) (budget : Budget.t)
    (expenses : list Expense.t) :
  validb (Budget.start_date budget) = true ->
  validb (Budget.end_date budget) = true ->
  Spec.datedValidly expenses ->
  (filter (BudgetsList.inWindow budget) expenses
     = filter (Spec.inBudgetWindow budget) expenses /\
   BudgetsList.spent (BudgetsList.getBudgetProgress expenses budget)
     == Spec.total Expense.amount
          (filter (Spec.inBudgetWindow budget) expenses))%Q /\
  ((forall e, In e expenses -> Spec.eastAt zone (Expense.date e)) ->
   filter (Dashboard.matchesBudget zone now budget) expenses
     = filter (Spec.inCurrentMonth (Spec.today zone now) budget) expenses /\
   Dashboard.spent (Dashboard.budgetProgress zone now expenses budget)
     == Spec.total Expense.amount
          (filter (Spec.inCurrentMonth (Spec.today zone now) budget)
                  expenses))%Q /\
  (exists now' budget' expenses',
     validb (Budget.start_date budget') = true /\
     validb (Budget.end_date budget') = true /\
     Spec.datedValidly expenses' /\
     ~ (BudgetsList.spent (BudgetsList.getBudgetProgress expenses' budget')
        == Dashboard.spent
             (Dashboard.budgetProgress zone now' expenses' budget'))%Q).
Proof.
  intros Hs He Hl.
  assert (E1 : filter (BudgetsList.inWindow budget) expenses
               = filter (Spec.inBudgetWindow budget) expenses).
  { apply filter_ext_valid; [exact Hl|].
    intros e _ Hd. apply inWindow_spec; assumption. }
  split; [|split].
  - split; [exact E1|].
    rewrite <- E1. apply reduce_amounts_total.
  - intros Hz.
    assert (E2 : filter (Dashboard.matchesBudget zone now budget) expenses
                 = filter (Spec.inCurrentMonth (Spec.today zone now) budget)
                          expenses).
    { apply filter_ext_valid; [exact Hl|].
      intros e Hin Hd. apply matchesBudget_spec; [exact Hd|apply Hz, Hin]. }
    split; [exact E2|].
    rewrite <- E2. apply reduce_amounts_total.
  - exists (parse (Expense.date Sample.januaryLunch)), Sample.marchBudget,
      [Sample.januaryLunch].
    split; [reflexivity|]. split; [reflexivity|]. split.
    + intros e [<-|[]]. reflexivity.
    + assert (M : Dashboard.matchesBudget zone
                    (parse (Expense.date Sample.januaryLunch))
                    Sample.marchBudget Sample.januaryLunch = true).
      { unfold Dashboard.matchesBudget, Dashboard.inCurrentMonth. cbv zeta.
        rewrite !Z.eqb_refl. reflexivity. }
      unfold Dashboard.budgetProgress. cbv zeta.
      cbn [Dashboard.spent filter]. rewrite M.
      intros H. vm_compute in H. discriminate H.
Qed.

End ReferenceWindows.
(** * Budget period ends *)

Section BudgetPeriod.
Import JSDate.
Local Open Scope Z_scope.

Lemma days_from_civil_day (y m d : Z) :
  days_from_civil y m d = days_from_civil y m 1 + d - 1.
Proof. unfold days_from_civil. cbv zeta. ring. Qed.

Lemma Day_MakeDate (n t : Z) : Day (MakeDate n (TimeWithinDay t)) = n.
Proof.
  unfold Day, MakeDate, TimeWithinDay.
  pose proof (Z.mod_pos_bound t msPerDay ltac:(unfold msPerDay; lia)) as B.
  symmetry. apply Z.div_unique with (t mod msPerDay); [lia|ring].
Qed.

(** [MakeDay] at the fields of a civil date, the day replaced. *)
Lemma MakeDay_same_month (c : ISODate) (dt : Z) :
  validb c = true ->
  MakeDay (year c) (month c - 1) dt
  = days_from_civil (year c) (month c) (day c) + (dt - day c).
Proof.
  intros Hv. apply validb_spec in Hv. unfold MakeDay.
  rewrite Z.div_small, Z.mod_small by lia.
  rewrite Z.add_0_r. replace (month c - 1 + 1) with (month c) by ring.
  rewrite (days_from_civil_day (year c) (month c) (day c)). ring.
Qed.

(** [MakeDay] at the fields of a civil date, the month advanced by
    one. *)
Lemma MakeDay_next_month (c : ISODate) :
  validb c = true ->
  MakeDay (year c) (month c - 1 + 1) (day c)
  = days_from_civil (year (nextMonth c)) (month (nextMonth c))
                    (day (nextMonth c)).
Proof.
  intros Hv. apply validb_spec in Hv. unfold MakeDay, nextMonth.
  replace (month c - 1 + 1) with (month c) by ring.
  destruct (Z.eqb_spec (month c) 12) as [E|N]; cbn [year month day].
  - rewrite E. change (12 / 12) with 1. change (12 mod 12 + 1) with 1.
    rewrite (days_from_civil_day (year c + 1) 1 (day c)). reflexivity.
  - rewrite Z.div_small, Z.mod_small by lia. rewrite Z.add_0_r.
    rewrite (days_from_civil_day (year c) (month c + 1) (day c)).
    reflexivity.
Qed.

(** Moving the day of the month of a local time by [k] moves the time by
    [k] days. *)
Lemma withDate_days (t k : Z) :
  withDate t (DateFromTime t + k) = t + k * msPerDay.
Proof.
  unfold withDate, YearFromTime, MonthFromTime, DateFromTime.
  rewrite (MakeDay_same_month (civil_from_days (Day t)))
    by apply civil_from_days_valid.
  rewrite days_from_civil_of_civil.
  unfold MakeDate, TimeWithinDay, Day, msPerDay.
  Z.to_euclidean_division_equations; lia.
Qed.

(** A local time set to day number [n] at the time of day of [now], read
    back with the offset in force at [now]. *)
Lemma UTC_MakeDate (zone : Zone) (now : Date) (n : Z) :
  atLocal zone (MakeDate n (TimeWithinDay (LocalTime zone now)))
  = atUTC zone now ->
  UTC zone (MakeDate n (TimeWithinDay (LocalTime zone now)))
  = now + (n - Day (LocalTime zone now)) * msPerDay.
Proof.
  intros H. unfold UTC. rewrite H.
  unfold LocalTime, MakeDate, TimeWithinDay, Day, msPerDay.
  Z.to_euclidean_division_equations; lia.
Qed.

Lemma Day_days (t k : Z) : Day (t + k * msPerDay) = Day t + k.
Proof.
  unfold Day, msPerDay. Z.to_euclidean_division_equations; lia.
Qed.

(** The end of a weekly budget is the instant seven days after its
    creation when the host's offset seven days on is the one in force at
    the creation. *)
Lemma weekly_endDate (zone : Zone) (now : Date) :
  atLocal zone (LocalTime zone now + 7 * msPerDay) = atUTC zone now ->
  BudgetForm.endDate zone now weekly = now + 7 * msPerDay.
Proof.
  intros H. unfold BudgetForm.endDate, setDate, getDate.
  rewrite withDate_days. unfold UTC. rewrite H. unfold LocalTime. lia.
Qed.

(** A weekly budget then ends exactly seven days after it starts,
    whatever the start date. *)
Lemma weekly_end_date (zone : Zone) (now : Date) (user cat : string)
    (amount : option Q) :
  atLocal zone (LocalTime zone now + 7 * msPerDay) = atUTC zone now ->
  let row := BudgetForm.handleSubmit zone now user cat amount weekly in
  BudgetForm.end_date row = civil_from_days (Day now + 7) /\
  BudgetForm.start_date row = civil_from_days (Day now) /\
  days_from_civil (year (BudgetForm.end_date row))
                  (month (BudgetForm.end_date row))
                  (day (BudgetForm.end_date row))
  = days_from_civil (year (BudgetForm.start_date row))
                    (month (BudgetForm.start_date row))
                    (day (BudgetForm.start_date row)) + 7.
Proof.
  intros H. cbv zeta.
  assert (E : BudgetForm.end_date
                (BudgetForm.handleSubmit zone now user cat amount weekly)
              = civil_from_days (Day now + 7)).
  { unfold BudgetForm.handleSubmit. cbn [BudgetForm.end_date].
    rewrite (weekly_endDate zone now H). unfold toISODate.
    rewrite Day_days. reflexivity. }
  split; [exact E|]. split; [reflexivity|].
  rewrite E. unfold BudgetForm.handleSubmit. cbn [BudgetForm.start_date].
  unfold toISODate. rewrite !days_from_civil_of_civil. reflexivity.
Qed.

Lemma today_Day (zone : Zone) (now : Date) :
  Spec.today zone now = toISODate now -> Day (LocalTime zone now) = Day now.
Proof.
  unfold Spec.today, toISODate. intros H.
  rewrite <- (days_from_civil_of_civil (Day (LocalTime zone now))), H.
  apply days_from_civil_of_civil.
Qed.

(** [withMonth] at the fields of today's date on the host. *)
Lemma withMonth_today (zone : Zone) (now : Date) :
  withMonth (LocalTime zone now) (getMonth zone now + 1)
  = MakeDate (MakeDay (year (Spec.today zone now))
                      (month (Spec.today zone now) - 1 + 1)
                      (day (Spec.today zone now)))
             (TimeWithinDay (LocalTime zone now)).
Proof. reflexivity. Qed.

(** The day on which a monthly budget ends, when the host's offset at
    the end is the one in force at the creation and the host's date at
    the creation is the date in UTC. *)
Lemma Day_monthly_endDate (zone : Zone) (now : Date) :
  atLocal zone (withMonth (LocalTime zone now) (getMonth zone now + 1))
  = atUTC zone now ->
  Spec.today zone now = toISODate now ->
  Day (BudgetForm.endDate zone now monthly)
  = days_from_civil (year (nextMonth (toISODate now)))
                    (month (nextMonth (toISODate now)))
                    (day (nextMonth (toISODate now))).
Proof.
  intros H T.
  assert (E : BudgetForm.endDate zone now monthly
              = UTC zone (withMonth (LocalTime zone now)
                                    (getMonth zone now + 1)))
    by reflexivity.
  rewrite E. clear E.
  pose proof (today_Day zone now T) as D.
  rewrite withMonth_today in *. rewrite T in *.
  rewrite (MakeDay_next_month (toISODate now)) in *
    by apply civil_from_days_valid.
  set (n := days_from_civil _ _ _) in *. clearbody n.
  rewrite (UTC_MakeDate zone now n H), Day_days, D.
  lia.
Qed.

(** A monthly budget then ends on the same day of the next month exactly
    when the next month has such a day. *)
Lemma monthly_end_date (zone : Zone) (now : Date) (user cat : string)
    (amount : option Q) :
  atLocal zone (withMonth (LocalTime zone now) (getMonth zone now + 1))
  = atUTC zone now ->
  Spec.today zone now = toISODate now ->
  let row := BudgetForm.handleSubmit zone now user cat amount monthly in
  BudgetForm.end_date row = nextMonth (BudgetForm.start_date row)
  <-> validb (nextMonth (BudgetForm.start_date row)) = true.
Proof.
  intros H T. cbv zeta. unfold BudgetForm.handleSubmit.
  cbn [BudgetForm.end_date BudgetForm.start_date].
  unfold toISODate at 1. rewrite (Day_monthly_endDate zone now H T).
  split.
  - intros E. rewrite <- E. apply civil_from_days_valid.
  - intros Hv. apply civil_from_days_of_civil, Hv.
Qed.

Lemma nextMonth_valid_28 (c : ISODate) :
  validb c = true -> day c <= 28 -> validb (nextMonth c) = true.
Proof.
  intros Hv Hd. apply validb_spec in Hv. apply validb_spec.
  unfold nextMonth. destruct (Z.eqb_spec (month c) 12);
    cbn [year month day].
  - pose proof (daysInMonth_ge_28 (year c + 1) 1). lia.
  - pose proof (daysInMonth_ge_28 (year c) (month c + 1)). lia.
Qed.

(** C3, at 31 January 2025 on a host in UTC: the stored end of a
    monthly budget is 3 March, not a day of February; a weekly budget
    created the same day ends on 7 February. *)
Theorem monthly_end_date_overflows :
  let now := parse (mkISO 2025 1 31) + 36000000 in
  let row :=
    BudgetForm.handleSubmit utc now "u1" "c-food" (Some 100%Q) monthly in
  let week :=
    BudgetForm.handleSubmit utc now "u1" "c-food" (Some 100%Q) weekly in
  BudgetForm.start_date row = mkISO 2025 1 31 /\
  BudgetForm.end_date row = mkISO 2025 3 3 /\
  BudgetForm.end_date row <> nextMonth (BudgetForm.start_date row) /\
  BudgetForm.end_date week = mkISO 2025 2 7.
Proof.
  cbv zeta. repeat split; try (vm_compute; reflexivity).
  vm_compute. discriminate.
Qed.

(** Off UTC the stored dates move apart. In New York, a weekly budget
    created on 30 October 2024 at 19:30 local time, the week in which
    summer time ends, is stored from 30 October to 7 November, eight
    days; in Los Angeles, a monthly budget created on 28 February 2025
    at 18:00 local time is stored from 1 March to 29 March. *)
Lemma end_dates_off_utc :
  let evening := parse (mkISO 2024 10 30) + 84600000 in
  let week :=
    BudgetForm.handleSubmit Sample.newYork evening "u1" "c-food"
                            (Some 100%Q) weekly in
  let night := parse (mkISO 2025 3 1) + 7200000 in
  let row :=
    BudgetForm.handleSubmit Sample.pacific night "u1" "c-food"
                            (Some 100%Q) monthly in
  (Spec.today Sample.newYork evening = mkISO 2024 10 30 /\
   BudgetForm.start_date week = mkISO 2024 10 30 /\
   BudgetForm.end_date week = mkISO 2024 11 7) /\
  (Spec.today Sample.pacific night = mkISO 2025 2 28 /\
   BudgetForm.start_date row = mkISO 2025 3 1 /\
   BudgetForm.end_date row = mkISO 2025 3 29).
Proof. cbv zeta. repeat split; vm_compute; reflexivity. Qed.

End BudgetPeriod.

(** * Loading *)

Section Loading.
Import Gateway.

Lemma limit_length {A} (n : nat) (rows : list A) :
  (List.length (limit n rows) <= n)%nat.
Proof. unfold limit. rewrite List.length_firstn. apply Nat.le_min_l. Qed.

(** The dashboard never holds more than ten expenses. *)
Lemma recent_expenses_length (uid : string) (table : list Expense.t) :
  (List.length (Dashboard.recent_expenses uid table) <= 10)%nat.
Proof. apply limit_length. Qed.

(** C4, for a user with eleven expenses of 10 in the current month, on a
    host in UTC: the dashboard holds ten of them and reports a monthly
    spending of 100,
    while the whole collection, which the budgets view does load, sums
    to 110. *)
Theorem dashboard_spending_truncated :
  let all := expenses_of "u1" Sample.marchTable in
  let st :=
    fst (Dashboard.loadDashboardData Dashboard.initial
           (succeeded [Sample.food; Sample.gas])
           (succeeded (Dashboard.recent_expenses "u1" Sample.marchTable))
           (succeeded []) (succeeded [])) in
  let bl := BudgetsList.loadExpenses BudgetsList.initial (succeeded all) in
  List.length all = 11%nat /\
  List.length (Dashboard.expenses st) = 10%nat /\
  List.length (BudgetsList.expenses bl) = 11%nat /\
  (Dashboard.calculateMonthlySpending JSDate.utc Sample.now
                                      (Dashboard.expenses st) == 100)%Q /\
  (Dashboard.calculateMonthlySpending JSDate.utc Sample.now all == 110)%Q.
Proof. cbv zeta. repeat split; vm_compute; reflexivity. Qed.



Lemma loadGoals_failed (st : GoalsList.State)
    (q : Settled (list SavingsGoal.t)) :
  reports_error q ->
  let (st', log) := GoalsList.loadGoals st q in
  GoalsList.goals st' = GoalsList.goals st /\
  log = ["Error loading goals:"%string].
Proof.
  intros H. unfold GoalsList.loadGoals.
  destruct q as [r|e]; [|repeat split].
  simpl in H. destruct (error r); [repeat split|congruence].
Qed.

(** The dashboard's load reads no [error]: whatever the four responses
    carry, their [data] replaces the collections. *)
Lemma loadDashboardData_resolved (st : Dashboard.State)
    (c : Response (list Category.t)) (e : Response (list Expense.t))
    (b : Response (list Budget.t)) (g : Response (list SavingsGoal.t)) :
  Dashboard.loadDashboardData st (Resolved c) (Resolved e) (Resolved b)
                              (Resolved g)
  = (Dashboard.mkState (orEmpty (data e)) (orEmpty (data b))
                       (orEmpty (data g)) (orEmpty (data c)) false, []).
Proof. reflexivity. Qed.

(** C8, on a dashboard holding three expenses, a budget and two
    categories: when the four queries fail, every collection is emptied
    and nothing is logged, and the unguarded expenses load of the budgets
    list empties its expenses the same way, whereas the guarded
    [loadBudgets] keeps its budgets and logs under the same failure. *)
Theorem dashboard_failed_load_clears_collections :
  let q {A} : Settled (list A) := failed Sample.refused in
  let st' := Dashboard.loadDashboardData Sample.loadedDashboard q q q q in
  let bl := BudgetsList.mkState [Sample.marchBudget] Sample.marchExpenses
                                false false in
  reports_error (@q Expense.t) /\
  Dashboard.expenses Sample.loadedDashboard = Sample.marchExpenses /\
  st' = (Dashboard.mkState [] [] [] [] false, []) /\
  BudgetsList.expenses (BudgetsList.loadExpenses bl q) = [] /\
  BudgetsList.loadBudgets bl q = (bl, ["Error loading budgets:"%string]).
Proof.
  cbv zeta. repeat split. simpl. discriminate.
Qed.

End Loading.

(** * Monthly spending and category totals *)

Section CategoryTotals.
Import Dashboard.
Local Open Scope Q_scope.

Lemma lookup_app_new (k : string) (s : Slice) (acc : Totals) :
  lookup k acc = None -> lookup k (acc ++ [(k, s)]) = Some s.
Proof.
  induction acc as [|[k' s'] acc IH]; simpl.
  - intros _. rewrite String.eqb_refl. reflexivity.
  - destruct (String.eqb k' k); [discriminate|exact IH].
Qed.

Lemma addValue_total (k : string) (a : Q) (acc : Totals) :
  lookup k acc <> None ->
  Spec.total value (map snd (addValue k a acc))
  == Spec.total value (map snd acc) + a.
Proof.
  induction acc as [|[k' s'] acc IH]; simpl.
  - intros H. congruence.
  - destruct (String.eqb k' k); simpl.
    + intros _. ring.
    + intros H. rewrite (IH H). ring.
Qed.

Lemma accumulate_total (acc : Totals) (e : Expense.t) :
  Spec.total value (map snd (accumulate acc e))
  == Spec.total value (map snd acc)
     + (if Spec.plainlyNamed e then Expense.amount e else 0).
Proof.
  unfold accumulate, Spec.plainlyNamed. cbv zeta.
  destruct (JSObject.inherited (categoryName e)); cbn [negb]; [ring|].
  destruct (lookup (categoryName e) acc) as [s|] eqn:E.
  - apply addValue_total. congruence.
  - rewrite addValue_total
      by (rewrite (lookup_app_new _ _ _ E); discriminate).
    rewrite map_app, total_app. simpl. ring.
Qed.

Lemma fold_accumulate_total (es : list Expense.t) :
  forall acc : Totals,
    Spec.total value (map snd (fold_left accumulate es acc))
    == Spec.total value (map snd acc)
       + Spec.total Expense.amount (filter Spec.plainlyNamed es).
Proof.
  induction es as [|e es IH]; intros acc; simpl.
  - ring.
  - rewrite IH, accumulate_total.
    destruct (Spec.plainlyNamed e); simpl; ring.
Qed.

Lemma insertIndexed_perm {V} (i : N) (v : V) (l : list (N * V)) :
  Permutation (JSObject.insertIndexed i v l) ((i, v) :: l).
Proof.
  induction l as [|[j w] l IH]; simpl; [apply Permutation_refl|].
  destruct (i <? j)%N; [apply Permutation_refl|].
  eapply Permutation_trans; [apply perm_skip, IH|apply perm_swap].
Qed.

(** [Object.values] lists every own value once. *)
Lemma values_perm {V} (o : list (string * V)) :
  Permutation (JSObject.values o) (map snd o).
Proof.
  unfold JSObject.values, JSObject.indexedValues, JSObject.namedValues.
  assert (G : forall acc : list (N * V),
             Permutation
               (map snd
                  (fold_left (fun acc kv =>
                                match JSObject.arrayIndex (fst kv) with
                                | Some i =>
                                    JSObject.insertIndexed i (snd kv) acc
                                | None => acc
                                end) o acc)
                ++ map snd
                     (filter (fun kv =>
                                match JSObject.arrayIndex (fst kv) with
                                | Some _ => false
                                | None => true
                                end) o))
               (map snd acc ++ map snd o)).
  { induction o as [|[k v] o IH]; intros acc; simpl.
    - apply Permutation_refl.
    - destruct (JSObject.arrayIndex k) as [i|]; simpl.
      + eapply Permutation_trans; [apply IH|].
        eapply Permutation_trans;
          [apply Permutation_app_tail, Permutation_map, insertIndexed_perm|].
        simpl. apply Permutation_middle.
      + eapply Permutation_trans;
          [apply Permutation_sym, Permutation_middle|].
        eapply Permutation_trans; [apply perm_skip, IH|].
        apply Permutation_middle. }
  apply (G []).
Qed.

Lemma total_perm (l l' : list Slice) :
  Permutation l l' -> Spec.total value l == Spec.total value l'.
Proof.
  induction 1; simpl.
  - reflexivity.
  - rewrite IHPermutation. reflexivity.
  - ring.
  - rewrite IHPermutation1. exact IHPermutation2.
Qed.

(** The category values add up to the sum of the expenses given, those
    under an inherited name left out. *)
Lemma getExpensesByCategory_total (es : list Expense.t) :
  Spec.total value (getExpensesByCategory es)
  == Spec.total Expense.amount (filter Spec.plainlyNamed es).
Proof.
  unfold getExpensesByCategory.
  rewrite (total_perm _ _ (values_perm _)), fold_accumulate_total.
  simpl. ring.
Qed.

(** At or east of UTC the monthly spending is the sum of the expenses
    dated in the month and year of today's date on the host. *)
Lemma calculateMonthlySpending_spec (zone : JSDate.Zone) (now : JSDate.Date)
    (es : list Expense.t) :
  Spec.datedValidly es ->
  (forall e, In e es -> Spec.eastAt zone (Expense.date e)) ->
  calculateMonthlySpending zone now es
  == Spec.total Expense.amount
       (filter (Spec.inMonthOf (Spec.today zone now)) es).
Proof.
  intros Hv Hz. unfold calculateMonthlySpending.
  rewrite reduce_amounts_total.
  rewrite (filter_ext_valid (inCurrentMonth zone now)
             (Spec.inMonthOf (Spec.today zone now)) es Hv).
  - reflexivity.
  - intros e He Hd. apply inCurrentMonth_spec; [exact Hd|apply Hz, He].
Qed.

Lemma filter_all {A} (f : A -> bool) (l : list A) :
  (forall x, In x l -> f x = true) -> filter f l = l.
Proof.
  induction l as [|x l IH]; simpl; intros H; [reflexivity|].
  rewrite (H x (or_introl eq_refl)). f_equal. apply IH.
  intros y Hy. apply H. right. exact Hy.
Qed.

Lemma lookup_In (k : string) (s : Slice) (acc : Totals) :
  lookup k acc = Some s -> In (k, s) acc.
Proof.
  induction acc as [|[k' s'] acc IH]; simpl; [discriminate|].
  destruct (String.eqb_spec k' k) as [->|N].
  - intros H. injection H as ->. left. reflexivity.
  - intros H. right. apply IH, H.
Qed.

Lemma In_lookup (k : string) (s : Slice) (acc : Totals) :
  NoDup (map fst acc) -> In (k, s) acc -> lookup k acc = Some s.
Proof.
  induction acc as [|[k' s'] acc IH]; simpl; intros Hnd Hin; [destruct Hin|].
  inversion Hnd as [|? ? Hn Hd]; subst.
  destruct Hin as [E|Hin].
  - injection E as -> ->. rewrite String.eqb_refl. reflexivity.
  - destruct (String.eqb_spec k' k) as [->|N]; [|apply IH; assumption].
    exfalso. apply Hn. apply (in_map fst) in Hin. exact Hin.
Qed.

Lemma lookup_None_keys (k : string) (acc : Totals) :
  lookup k acc = None <-> ~ In k (map fst acc).
Proof.
  induction acc as [|[k' s'] acc IH]; simpl; [tauto|].
  destruct (String.eqb_spec k' k) as [->|N].
  - split; [discriminate|]. intros H. exfalso. apply H. left. reflexivity.
  - rewrite IH. tauto.
Qed.

Lemma keys_addValue (k : string) (a : Q) (acc : Totals) :
  map fst (addValue k a acc) = map fst acc.
Proof.
  induction acc as [|[k' s'] acc IH]; simpl; [reflexivity|].
  destruct (String.eqb k' k); simpl; [reflexivity|]. rewrite IH. reflexivity.
Qed.

Lemma lookup_addValue (k k' : string) (a : Q) (acc : Totals) :
  lookup k' (addValue k a acc)
  = if String.eqb k k'
    then match lookup k' acc with
         | Some s => Some (mkSlice (name s) (value s + a) (color s))
         | None => None
         end
    else lookup k' acc.
Proof.
  induction acc as [|[k0 s0] acc IH]; simpl.
  - destruct (String.eqb k k'); reflexivity.
  - destruct (String.eqb_spec k0 k) as [->|N0]; simpl.
    + destruct (String.eqb_spec k k'); reflexivity.
    + rewrite IH. destruct (String.eqb_spec k k') as [->|N].
      * destruct (String.eqb_spec k0 k'); [congruence|reflexivity].
      * reflexivity.
Qed.

Lemma lookup_app (k : string) (acc acc' : Totals) :
  lookup k (acc ++ acc')
  = match lookup k acc with Some s => Some s | None => lookup k acc' end.
Proof.
  induction acc as [|[k0 s0] acc IH]; simpl; [reflexivity|].
  destruct (String.eqb k0 k); [reflexivity|exact IH].
Qed.

Lemma accumulate_wellKeyed (acc : Totals) (e : Expense.t) :
  wellKeyed acc -> wellKeyed (accumulate acc e).
Proof.
  intros (Hnd & Hname). unfold accumulate. cbv zeta.
  destruct (JSObject.inherited (categoryName e)); [split; assumption|].
  set (k := categoryName e). set (c := categoryColor e).
  assert (W : wellKeyed (match lookup k acc with
                         | Some _ => acc
                         | None => acc ++ [(k, mkSlice k 0 c)]
                         end)).
  { destruct (lookup k acc) eqn:E; [split; assumption|].
    apply lookup_None_keys in E. split.
    - rewrite map_app. simpl. apply NoDup_app; [exact Hnd| |].
      + repeat constructor. intros [].
      + intros x Hx [<-|[]]. exact (E Hx).
    - intros k' s' Hin. apply in_app_or in Hin.
      destruct Hin as [Hin|[Heq|[]]]; [apply Hname, Hin|].
      injection Heq as <- <-. reflexivity. }
  destruct W as (Wnd & Wname). split.
  - rewrite keys_addValue. exact Wnd.
  - intros k' s' Hin.
    assert (Hnd' : NoDup (map fst (addValue k (Expense.amount e)
       (match lookup k acc with
        | Some _ => acc
        | None => acc ++ [(k, mkSlice k 0 c)]
        end)))) by (rewrite keys_addValue; exact Wnd).
    apply (In_lookup _ _ _ Hnd') in Hin. rewrite lookup_addValue in Hin.
    destruct (String.eqb k k').
    + destruct (lookup k' _) as [s0|] eqn:E0; [|discriminate].
      injection Hin as <-. cbn [name]. apply Wname, lookup_In, E0.
    + apply Wname, lookup_In, Hin.
Qed.

Lemma accumulate_held (k : string) (acc : Totals) (e : Expense.t) :
  Spec.plainlyNamed e = true ->
  held k (accumulate acc e)
  == held k acc
     + (if String.eqb (categoryName e) k then Expense.amount e else 0).
Proof.
  unfold Spec.plainlyNamed. rewrite negb_true_iff. intros Hp.
  unfold held, accumulate. cbv zeta. rewrite Hp, lookup_addValue.
  destruct (String.eqb_spec (categoryName e) k) as [<-|N].
  - destruct (lookup (categoryName e) acc) as [s|] eqn:E.
    + rewrite E. reflexivity.
    + rewrite lookup_app, E. simpl. rewrite String.eqb_refl. reflexivity.
  - destruct (lookup (categoryName e) acc) as [s|] eqn:E.
    + ring.
    + rewrite lookup_app. destruct (lookup k acc); [ring|].
      simpl. destruct (String.eqb_spec (categoryName e) k); [congruence|].
      ring.
Qed.

Lemma accumulate_keys (k : string) (acc : Totals) (e : Expense.t) :
  Spec.plainlyNamed e = true ->
  In k (map fst (accumulate acc e))
  <-> In k (map fst acc) \/ k = categoryName e.
Proof.
  unfold Spec.plainlyNamed. rewrite negb_true_iff. intros Hp.
  unfold accumulate. cbv zeta. rewrite Hp, keys_addValue.
  destruct (lookup (categoryName e) acc) as [s|] eqn:E.
  - split; [tauto|]. intros [H| ->]; [exact H|].
    apply lookup_In in E. apply (in_map fst) in E. exact E.
  - rewrite map_app, in_app_iff. simpl. intuition congruence.
Qed.

Lemma accumulate_inherited (acc : Totals) (e : Expense.t) :
  Spec.plainlyNamed e = false -> accumulate acc e = acc.
Proof.
  unfold Spec.plainlyNamed. rewrite negb_false_iff. intros Hp.
  unfold accumulate. cbv zeta. rewrite Hp. reflexivity.
Qed.

Lemma fold_accumulate_by_name (es : list Expense.t) :
  forall acc : Totals,
    wellKeyed acc ->
    wellKeyed (fold_left accumulate es acc) /\
    (forall k,
       held k (fold_left accumulate es acc)
       == held k acc
          + Spec.total Expense.amount
              (filter (fun e => String.eqb (categoryName e) k)
                      (filter Spec.plainlyNamed es))) /\
    (forall k,
       In k (map fst (fold_left accumulate es acc))
       <-> In k (map fst acc) \/
           exists e, In e es /\ Spec.plainlyNamed e = true /\
                     k = categoryName e).
Proof.
  induction es as [|e es IH]; intros acc W; simpl.
  - split; [exact W|]. split.
    + intros k. ring.
    + intros k. split; [tauto|]. intros [H|(e & [] & _)]. exact H.
  - destruct (IH (accumulate acc e) (accumulate_wellKeyed acc e W))
      as (W' & Hheld & Hkeys).
    split; [exact W'|].
    destruct (Spec.plainlyNamed e) eqn:P.
    + split.
      * intros k. rewrite Hheld, (accumulate_held k acc e P). simpl.
        destruct (String.eqb (categoryName e) k); simpl; ring.
      * intros k. rewrite Hkeys, (accumulate_keys k acc e P). split.
        -- intros [[H|H]|(e' & He' & Hp & H)]; [tauto| |].
           ++ right. exists e. auto.
           ++ right. exists e'. auto.
        -- intros [H|(e' & [<-|He'] & Hp & H)]; [tauto|tauto|].
           right. exists e'. auto.
    + rewrite (accumulate_inherited acc e P) in Hheld, Hkeys |- *. split.
      * exact Hheld.
      * intros k. rewrite Hkeys. split.
        -- intros [H|(e' & He' & Hp & H)]; [tauto|].
           right. exists e'. auto.
        -- intros [H|(e' & [<-|He'] & Hp & H)]; [tauto|congruence|].
           right. exists e'. auto.
Qed.

(** Every category value is the sum of the expenses resolved to that
    name, every name occurs once, no name is an inherited one, and the
    name of every expense occurs unless it is an inherited one. *)
Lemma getExpensesByCategory_by_name (es : list Expense.t) :
  NoDup (map name (getExpensesByCategory es)) /\
  (forall s, In s (getExpensesByCategory es) ->
     JSObject.inherited (name s) = false /\
     value s
     == Spec.total Expense.amount
          (filter (fun e => String.eqb (categoryName e) (name s)) es)) /\
  (forall e, In e es -> Spec.plainlyNamed e = true ->
     exists s, In s (getExpensesByCategory es) /\ name s = categoryName e).
Proof.
  unfold getExpensesByCategory.
  assert (W0 : wellKeyed []) by (split; [constructor|intros k s []]).
  destruct (fold_accumulate_by_name es [] W0)
    as ((Hnd & Hname) & Hheld & Hkeys).
  set (acc := fold_left accumulate es []) in *.
  pose proof (values_perm acc) as P.
  assert (Enames : map name (map snd acc) = map fst acc).
  { rewrite map_map. apply map_ext_in. intros [k s] Hin.
    apply (Hname k s Hin). }
  assert (Hplain : forall k, In k (map fst acc) ->
                             JSObject.inherited k = false).
  { intros k Hk. apply Hkeys in Hk. destruct Hk as [[]|(e & _ & Hp & ->)].
    unfold Spec.plainlyNamed in Hp. apply negb_true_iff, Hp. }
  split; [|split].
  - apply (Permutation_NoDup (l := map name (map snd acc))).
    + apply Permutation_map, Permutation_sym, P.
    + rewrite Enames. exact Hnd.
  - intros s Hs. apply (Permutation_in _ P) in Hs.
    apply in_map_iff in Hs. destruct Hs as ([k s'] & <- & Hin).
    cbn [snd]. rewrite (Hname k s' Hin).
    assert (Hk : JSObject.inherited k = false)
      by (apply Hplain, (in_map fst _ _ Hin)).
    split; [exact Hk|].
    pose proof (Hheld k) as H. unfold held in H.
    rewrite (In_lookup k s' acc Hnd Hin) in H. simpl in H.
    rewrite H, Qplus_0_l.
    assert (E : filter (fun e => String.eqb (categoryName e) k)
                       (filter Spec.plainlyNamed es)
                = filter (fun e => String.eqb (categoryName e) k) es).
    { clear - Hk. induction es as [|e es IH]; simpl; [reflexivity|].
      destruct (Spec.plainlyNamed e) eqn:Pe; simpl.
      - rewrite IH. reflexivity.
      - rewrite IH. destruct (String.eqb_spec (categoryName e) k) as [E|N];
          [|reflexivity].
        unfold Spec.plainlyNamed in Pe. rewrite E, Hk in Pe.
        discriminate Pe. }
    rewrite E. reflexivity.
  - intros e He Hp.
    assert (Hk : In (categoryName e) (map fst acc)).
    { apply Hkeys. right. exists e. auto. }
    apply in_map_iff in Hk. destruct Hk as ([k s] & Ek & Hin).
    cbn [fst] in Ek. exists s. split.
    + apply (Permutation_in _ (Permutation_sym P)).
      apply in_map_iff. exists (k, s). split; [reflexivity|exact Hin].
    + rewrite (Hname k s Hin). exact Ek.
Qed.

(** C5, at two inputs. On a host in UTC in March 2024, groceries for 50
    and nails for 25 booked under a category named "constructor": the
    monthly spending is 75, the category values hold the groceries alone
    and add up to 50. On a host five hours west of UTC on 15 March 2024,
    an expense of 30 dated 1 March and one of 45 dated 1 April: the
    monthly spending is 45, where the expenses dated in March sum to
    30. *)
Theorem category_totals_leave_expenses_out :
  ((forall e, In e Sample.marchPurchases ->
      Spec.inMonthOf (Spec.today JSDate.utc Sample.now) e = true) /\
   calculateMonthlySpending JSDate.utc Sample.now Sample.marchPurchases
   == 75 /\
   map name (getExpensesByCategory Sample.marchPurchases)
   = ["Food & Dining"%string] /\
   Spec.total value (getExpensesByCategory Sample.marchPurchases) == 50) /\
  (Spec.today Sample.west Sample.now = JSDate.mkISO 2024 3 15 /\
   calculateMonthlySpending Sample.west Sample.now
     [Sample.firstOfMarch; Sample.firstOfApril] == 45 /\
   Spec.total Expense.amount
     (filter (Spec.inMonthOf (JSDate.mkISO 2024 3 15))
             [Sample.firstOfMarch; Sample.firstOfApril]) == 30).
Proof.
  split.
  - split; [intros e [<-|[<-|[]]]; reflexivity|].
    split; [reflexivity|]. split; reflexivity.
  - split; [reflexivity|]. split; reflexivity.
Qed.

(** X25. The category totals. The category values add up to the sum of the
    expenses given, whatever their dates, those whose category name is
    the name of a member of [Object.prototype] left out; each value is
    the sum of the expenses resolved to its name, each name occurs once,
    and no expense is left out but those. On a host at or east of UTC,
    the monthly spending is the sum of exactly the expenses dated in the
    month and year of today's date on the host, 0 on the empty
    collection, and when no category name is an inherited one the
    category values of the entries dated in the current month add up to
    it. *)
Theorem category_totals_by_name
    (zone : JSDate.Zone) (now : JSDate.Date) (expenses : list Expense.t) :
  Spec.datedValidly expenses ->
  (forall e, In e expenses -> Spec.eastAt zone (Expense.date e)) ->
  let today := Spec.today zone now in
  let current := filter (Spec.inMonthOf today) expenses in
  ((forall e, In e expenses -> Spec.plainlyNamed e = true) ->
   Spec.total value (getExpensesByCategory current)
     == calculateMonthlySpending zone now expenses /\
   Spec.total value (getExpensesByCategory expenses)
     == Spec.total Expense.amount expenses) /\
  Spec.total value (getExpensesByCategory expenses)
    == Spec.total Expense.amount (filter Spec.plainlyNamed expenses) /\
  calculateMonthlySpending zone now expenses
    == Spec.total Expense.amount current /\
  calculateMonthlySpending zone now [] = 0 /\
  (NoDup (map name (getExpensesByCategory expenses)) /\
   (forall s, In s (getExpensesByCategory expenses) ->
      JSObject.inherited (name s) = false /\
      value s
      == Spec.total Expense.amount
           (filter (fun e => String.eqb (categoryName e) (name s)) expenses)) /\
   (forall e, In e expenses -> Spec.plainlyNamed e = true ->
      exists s, In s (getExpensesByCategory expenses) /\
                name s = categoryName e)).
Proof.
  intros Hv Hz today current.
  pose proof (calculateMonthlySpending_spec zone now expenses Hv Hz) as Hm.
  fold today in Hm. fold current in Hm.
  split; [|split; [|split; [|split]]].
  - intros Hp. split.
    + rewrite getExpensesByCategory_total, Hm.
      rewrite (filter_all Spec.plainlyNamed current); [reflexivity|].
      intros e He. apply Hp. unfold current in He.
      apply filter_In in He. tauto.
    + rewrite getExpensesByCategory_total, (filter_all _ _ Hp). reflexivity.
  - apply getExpensesByCategory_total.
  - exact Hm.
  - reflexivity.
  - apply getExpensesByCategory_by_name.
Qed.

End CategoryTotals.
(** * Recommended savings *)

Section RecommendedSavings.
Import GoalsList.
Local Open Scope Q_scope.

Lemma max0_nonneg (x : Q) : 0 <= x -> JSNumber.max 0 x == x.
Proof. intros H. apply Q.max_r, H. Qed.



Lemma getRecommendedSavings_ahead (differenceInDays : DifferenceInDays)
    (now : JSDate.Date) (goal : SavingsGoal.t) :
  (0 < daysLeft differenceInDays now goal)%Z ->
  getRecommendedSavings differenceInDays now goal
  = let daily :=
      (SavingsGoal.target_amount goal - SavingsGoal.current_amount goal)
      / inject_Z (daysLeft differenceInDays now goal) in
    mkRecommendation (JSNumber.max 0 daily) (JSNumber.max 0 (daily * 7))
                     (JSNumber.max 0 (daily * 30)).
Proof.
  intros H. unfold getRecommendedSavings. cbv zeta.
  destruct (Z.leb_spec (daysLeft differenceInDays now goal) 0);
    [lia|reflexivity].
Qed.


Lemma ratio_below (k spent amount : Q) :
  0 < amount -> (spent / amount * 100 < k <-> spent * 100 < k * amount).
Proof.
  intros Ha.
  assert (Hne : ~ amount == 0) by (intros E; rewrite E in Ha; discriminate).
  assert (E : spent / amount * 100 == spent * 100 / amount)
    by (field; exact Hne).
  rewrite E. split; intros H.
  - assert (H' : spent * 100 / amount * amount < k * amount)
      by (apply Qmult_lt_compat_r; assumption).
    assert (E' : spent * 100 / amount * amount == spent * 100)
      by (field; exact Hne).
    rewrite E' in H'. exact H'.
  - apply Qlt_shift_div_r; assumption.
Qed.

Lemma progress_finite (goal : SavingsGoal.t) :
  ~ SavingsGoal.target_amount goal == 0 ->
  progress goal
  = JSNumber.finite
      (SavingsGoal.current_amount goal / SavingsGoal.target_amount goal
       * 100).
Proof.
  intros Hne. unfold progress, JSNumber.div.
  destruct (Qeq_bool (SavingsGoal.target_amount goal) 0) eqn:E.
  - apply Qeq_bool_iff in E. contradiction.
  - reflexivity.
Qed.

(** With a positive target, a goal is completed when the target is
    reached. *)
Lemma isCompleted_spec (goal : SavingsGoal.t) :
  0 < SavingsGoal.target_amount goal ->
  (isCompleted goal = true
   <-> SavingsGoal.target_amount goal <= SavingsGoal.current_amount goal).
Proof.
  intros Ht. unfold isCompleted.
  rewrite progress_finite
    by (intros E; rewrite E in Ht; discriminate Ht).
  cbn [JSNumber.atLeast]. rewrite geb_le.
  set (c := SavingsGoal.current_amount goal).
  set (t := SavingsGoal.target_amount goal) in *.
  split; intros H.
  - apply Qnot_lt_le. intros Hlt.
    apply (Qle_not_lt _ _ H). apply ratio_below; [exact Ht|].
    rewrite (Qmult_comm c 100).
    apply Qmult_lt_l; [reflexivity|exact Hlt].
  - apply Qnot_lt_le. intros Hlt.
    apply ratio_below in Hlt; [|exact Ht].
    rewrite (Qmult_comm c 100) in Hlt.
    apply Qmult_lt_l in Hlt; [|reflexivity].
    eapply Qlt_not_le; eassumption.
Qed.





End RecommendedSavings.
(** * Filtering expenses *)

Section Filtering.
Import JSString.
Local Open Scope string_scope.

Lemma startsWith_spec (p : string) :
  forall s, startsWith s p = true <-> exists post, s = p ++ post.
Proof.
  induction p as [|a p IH]; intros s.
  - destruct s; simpl; split; eauto.
  - destruct s as [|b s]; cbn [startsWith].
    + split; [discriminate|]. intros [post H]. discriminate H.
    + rewrite andb_true_iff, Ascii.eqb_eq, IH. split.
      * intros [-> [post ->]]. exists post. reflexivity.
      * intros [post H]. injection H as -> ->. eauto.
Qed.

Lemma includes_spec (t : string) :
  forall s, includes s t = true <-> exists pre post, s = pre ++ t ++ post.
Proof.
  induction s as [|c s IH]; cbn [includes].
  - rewrite orb_false_r, startsWith_spec. split.
    + intros [post H]. exists EmptyString, post. exact H.
    + intros [pre [post H]]. destruct pre; [eauto|discriminate H].
  - rewrite orb_true_iff, startsWith_spec, IH. split.
    + intros [[post H]|[pre [post H]]].
      * exists EmptyString, post. exact H.
      * exists (String c pre), post. simpl. rewrite H. reflexivity.
    + intros [pre [post H]]. destruct pre as [|c' pre].
      * left. exists post. exact H.
      * right. simpl in H. injection H as _ H. eauto.
Qed.

Lemma toLowerCase_app (s t : string) :
  toLowerCase (s ++ t) = toLowerCase s ++ toLowerCase t.
Proof.
  induction s as [|c s IH]; simpl; [reflexivity|]. rewrite IH. reflexivity.
Qed.

(** The code of a character after [toLowerCase]. *)
Lemma lower_char_code (c : ascii) :
  nat_of_ascii (lower_char c)
  = if ((65 <=? nat_of_ascii c) && (nat_of_ascii c <=? 90))%nat
    then (nat_of_ascii c + 32)%nat else nat_of_ascii c.
Proof.
  unfold lower_char. cbv zeta.
  destruct ((65 <=? nat_of_ascii c) && (nat_of_ascii c <=? 90))%nat eqn:E;
    [|reflexivity].
  apply andb_true_iff in E. destruct E as (L & U).
  apply Nat.leb_le in L. apply Nat.leb_le in U.
  apply nat_ascii_embedding. lia.
Qed.

Lemma nat_of_ascii_inj (a b : ascii) :
  nat_of_ascii a = nat_of_ascii b -> a = b.
Proof.
  intros H. rewrite <- (ascii_nat_embedding a), <- (ascii_nat_embedding b), H.
  reflexivity.
Qed.

(** Two characters have the same lower case exactly when they are the
    same letter, case aside. *)
Lemma lower_char_same (a b : ascii) :
  lower_char a = lower_char b <-> Spec.sameLetter a b.
Proof.
  unfold Spec.sameLetter, Spec.smallOf, Spec.isCapital. split.
  - intros H. apply (f_equal nat_of_ascii) in H.
    rewrite !lower_char_code in H.
    destruct (Nat.leb_spec 65 (nat_of_ascii a)),
             (Nat.leb_spec (nat_of_ascii a) 90),
             (Nat.leb_spec 65 (nat_of_ascii b)),
             (Nat.leb_spec (nat_of_ascii b) 90); cbn [andb] in H;
      try (left; apply nat_of_ascii_inj; lia);
      try (right; left; lia); try (right; right; lia).
  - intros [->|[(C & E)|(C & E)]]; [reflexivity| |];
      apply nat_of_ascii_inj; rewrite !lower_char_code, E;
      destruct (Nat.leb_spec 65 (nat_of_ascii a)),
               (Nat.leb_spec (nat_of_ascii a) 90),
               (Nat.leb_spec 65 (nat_of_ascii b)),
               (Nat.leb_spec (nat_of_ascii b) 90); cbn [andb];
      try rewrite E;
      repeat match goal with
             | |- context [(?x <=? ?y)%nat] =>
                 destruct (Nat.leb_spec x y)
             end; cbn [andb]; lia.
Qed.

Lemma toLowerCase_same (s : string) :
  forall t, toLowerCase s = toLowerCase t <-> Spec.equalIgnoringCase s t.
Proof.
  induction s as [|a s IH]; intros [|b t]; cbn [toLowerCase
    Spec.equalIgnoringCase]; try (split; [discriminate|tauto]);
    [tauto|].
  rewrite <- IH, <- lower_char_same. split.
  - intros H. injection H as H1 H2. tauto.
  - intros [-> ->]. reflexivity.
Qed.

(** A text whose lower case is a concatenation splits accordingly. *)
Lemma toLowerCase_split (a : string) :
  forall s b, toLowerCase s = a ++ b ->
    exists s1 s2, s = s1 ++ s2 /\ toLowerCase s1 = a /\ toLowerCase s2 = b.
Proof.
  induction a as [|c a IH]; intros s b H.
  - exists EmptyString, s. auto.
  - destruct s as [|d s]; [discriminate H|].
    cbn in H. injection H as Hc Hs.
    destruct (IH s b Hs) as (s1 & s2 & -> & <- & <-).
    exists (String d s1), s2. cbn. rewrite Hc. auto.
Qed.

(** Occurrence, letter case aside, read on the lower-cased texts. *)
Lemma containsIgnoringCase_lower (s t : string) :
  Spec.containsIgnoringCase s t
  <-> exists pre post,
        toLowerCase s = pre ++ toLowerCase t ++ post.
Proof.
  unfold Spec.containsIgnoringCase. split.
  - intros (p & m & q & -> & E). apply toLowerCase_same in E.
    exists (toLowerCase p), (toLowerCase q).
    rewrite !toLowerCase_app, E. reflexivity.
  - intros (pre & post & H).
    destruct (toLowerCase_split pre s _ H) as (s1 & s23 & -> & _ & H23).
    destruct (toLowerCase_split (toLowerCase t) s23 post H23)
      as (s2 & s3 & -> & E2 & _).
    exists s1, s2, s3. split; [reflexivity|].
    apply toLowerCase_same, E2.
Qed.

Lemma includes_ignoring_case (s t : string) :
  includes (toLowerCase s) (toLowerCase t) = true
  <-> Spec.containsIgnoringCase s t.
Proof. rewrite includes_spec. symmetry. apply containsIgnoringCase_lower. Qed.

Lemma truthy_false (s : string) : truthy s = false <-> s = EmptyString.
Proof.
  unfold truthy. rewrite negb_false_iff. apply String.eqb_eq.
Qed.

Lemma matches_spec (searchTerm selectedCategory : string) (e : Expense.t) :
  ExpensesList.matches searchTerm selectedCategory e = true <->
  (Spec.containsIgnoringCase (Expense.description e) searchTerm \/
   exists notes, Expense.notes e = Some notes /\
                 Spec.containsIgnoringCase notes searchTerm) /\
  (selectedCategory = EmptyString \/ Expense.category_id e = selectedCategory).
Proof.
  unfold ExpensesList.matches. cbv zeta.
  rewrite andb_true_iff, !orb_true_iff, negb_true_iff, truthy_false,
    String.eqb_eq, includes_ignoring_case.
  destruct (Expense.notes e) as [notes|].
  - rewrite includes_ignoring_case. split.
    + intros [[H|H] Hc]; (split; [|exact Hc]); eauto.
    + intros [[H|[n [E H]]] Hc]; (split; [|exact Hc]); [eauto|].
      injection E as ->. eauto.
  - split.
    + intros [[H|H] Hc]; [|discriminate H]. eauto.
    + intros [[H|[n [E _]]] Hc]; [eauto|discriminate E].
Qed.


(** Searching "coffee" with no category selected, on the sample
    collection: only the expense described as "Coffee beans" is kept. *)
Example filter_coffee :
  ExpensesList.filteredExpenses
    (ExpensesList.mkState Sample.marchExpenses false false "coffee" EmptyString [])
  = [ Sample.expense "e3" Sample.food 70 "Coffee beans"
        (Some "Monthly treat") (JSDate.mkISO 2024 3 12) ].
Proof. vm_compute. reflexivity. Qed.

(** A match on the search axis alone is not enough. *)
Example filter_coffee_other_category :
  ExpensesList.filteredExpenses
    (ExpensesList.mkState Sample.marchExpenses false false "coffee" "c-gas" [])
  = [].
Proof. vm_compute. reflexivity. Qed.

End Filtering.

(** * Goal progress *)

Section GoalProgress.
Import Gateway GoalsSystem.
Local Open Scope Q_scope.

(** The update is issued for a number above 0 only, and writes the
    amount in memory plus that number. *)
Lemma requestedAmount_spec (goal : SavingsGoal.t) (amount : option Q)
    (newAmount : Q) :
  GoalsList.requestedAmount goal amount = Some newAmount <->
  exists delta, amount = Some delta /\ 0 < delta /\
                newAmount = SavingsGoal.current_amount goal + delta.
Proof.
  unfold GoalsList.requestedAmount, GoalsList.acceptsAmount.
  destruct amount as [a|].
  - destruct (JSNumber.gtb a 0) eqn:E.
    + apply gtb_lt in E. split.
      * intros H. injection H as <-. eauto.
      * intros (delta & H & _ & ->). injection H as ->. reflexivity.
    + split; [discriminate|].
      intros (delta & H & Hpos & _). injection H as ->.
      apply gtb_lt in Hpos. congruence.
  - split; [discriminate|]. intros (delta & H & _). discriminate H.
Qed.

Lemma submitAmount_ignored (st : GoalsList.State) (goal : SavingsGoal.t)
    (amount : option Q) (q : Settled unit) :
  GoalsList.requestedAmount goal amount = None ->
  GoalsList.submitAmount st goal amount q = (st, []).
Proof. intros H. unfold GoalsList.submitAmount. rewrite H. reflexivity. Qed.

Lemma updateProgress_failed (st : GoalsList.State) (id : string)
    (newAmount : Q) (q : Settled unit) :
  reports_error q ->
  fst (GoalsList.updateProgress st id newAmount q) = st.
Proof.
  intros H. unfold GoalsList.updateProgress.
  destruct q as [r|e]; [|reflexivity].
  simpl in H. destruct (error r); [reflexivity|congruence].
Qed.

Lemma updateProgress_accepted (st : GoalsList.State) (id : string)
    (newAmount : Q) (q : Settled unit) :
  accepted q ->
  GoalsList.goals (fst (GoalsList.updateProgress st id newAmount q))
  = map (fun goal =>
           if String.eqb (SavingsGoal.id goal) id
           then SavingsGoal.with_current_amount goal newAmount
           else goal) (GoalsList.goals st).
Proof.
  intros H. unfold GoalsList.updateProgress.
  destruct q as [r|e]; [|destruct H].
  simpl in H. rewrite H. reflexivity.
Qed.

Lemma submitAmount_failed (st : GoalsList.State) (goal : SavingsGoal.t)
    (amount : option Q) (q : Settled unit) :
  reports_error q ->
  fst (GoalsList.submitAmount st goal amount q) = st.
Proof.
  intros H. unfold GoalsList.submitAmount.
  destruct (GoalsList.requestedAmount goal amount); [|reflexivity].
  apply updateProgress_failed, H.
Qed.

Lemma handleDelete_failed (st : GoalsList.State) (id : string)
    (q : Settled unit) :
  reports_error q -> fst (GoalsList.handleDelete st id true q) = st.
Proof.
  intros H. unfold GoalsList.handleDelete. cbn [negb].
  destruct q as [r|e]; [|reflexivity].
  simpl in H. destruct (error r); [reflexivity|congruence].
Qed.

Lemma handleDelete_accepted (st : GoalsList.State) (id : string)
    (q : Settled unit) :
  accepted q ->
  GoalsList.goals (fst (GoalsList.handleDelete st id true q))
  = filter (fun goal => negb (String.eqb (SavingsGoal.id goal) id))
           (GoalsList.goals st).
Proof.
  intros H. unfold GoalsList.handleDelete. cbn [negb].
  destruct q as [r|e]; [|destruct H].
  simpl in H. rewrite H. reflexivity.
Qed.

Lemma loadGoals_failed_state (st : GoalsList.State)
    (q : Settled (list SavingsGoal.t)) :
  reports_error q ->
  GoalsList.goals (fst (GoalsList.loadGoals st q)) = GoalsList.goals st.
Proof.
  intros H. pose proof (loadGoals_failed st q H) as L.
  destruct (GoalsList.loadGoals st q) as [st' log]. apply L.
Qed.

Lemma ids_update (rows : list SavingsGoal.t) (id : string) (a : Q)
    (stamp : string) :
  ids (update_current_amount rows id a stamp) = ids rows.
Proof.
  unfold ids, update_current_amount. rewrite map_map.
  apply map_ext. intros g.
  destruct (String.eqb (SavingsGoal.id g) id); reflexivity.
Qed.

Lemma In_update (rows : list SavingsGoal.t) (id : string) (a : Q)
    (stamp : string) (r : SavingsGoal.t) :
  In r rows ->
  exists r', In r' (update_current_amount rows id a stamp) /\
             SavingsGoal.id r' = SavingsGoal.id r /\
             SavingsGoal.current_amount r'
             = if String.eqb (SavingsGoal.id r) id then a
               else SavingsGoal.current_amount r.
Proof.
  intros Hr. unfold update_current_amount.
  eexists. split; [apply in_map_iff; exists r; split; [reflexivity|exact Hr]|].
  destruct (String.eqb (SavingsGoal.id r) id); split; reflexivity.
Qed.

Lemma NoDup_ids_filter (f : SavingsGoal.t -> bool)
    (rows : list SavingsGoal.t) :
  NoDup (ids rows) -> NoDup (ids (filter f rows)).
Proof.
  unfold ids. induction rows as [|g rows IH]; simpl; intros H.
  - constructor.
  - inversion H as [|? ? Hn Hd]; subst.
    destruct (f g); simpl; [|apply IH, Hd].
    constructor; [|apply IH, Hd].
    intros Hin. apply Hn. apply in_map_iff in Hin.
    destruct Hin as (g' & E & Hg'). apply filter_In in Hg'.
    apply in_map_iff. exists g'. tauto.
Qed.

(** Rows of a table with one row per id are determined by their id. *)
Lemma NoDup_ids_eq (rows : list SavingsGoal.t) (r1 r2 : SavingsGoal.t) :
  NoDup (ids rows) -> In r1 rows -> In r2 rows ->
  SavingsGoal.id r1 = SavingsGoal.id r2 -> r1 = r2.
Proof.
  unfold ids. induction rows as [|g rows IH]; simpl; intros H H1 H2 E.
  - destruct H1.
  - inversion H as [|? ? Hn Hd]; subst.
    destruct H1 as [->|H1], H2 as [->|H2].
    + reflexivity.
    + exfalso. apply Hn. rewrite E. apply in_map, H2.
    + exfalso. apply Hn. rewrite <- E. apply in_map, H1.
    + apply IH; assumption.
Qed.

(** Consistency is kept by every step. *)
Lemma step_consistent (s s' : Sys) :
  consistent s -> step s s' -> consistent s'.
Proof.
  intros (Hnd & Hiss & Hview) Hstep.
  destruct Hstep as
    [s rows Hperm | s q Hq | s g Hfresh Hzero
    | s goal amount q Hin Hnone
    | s goal amount newAmount stamp q Hin Hreq Hacc
    | s goal amount q Hin Hq
    | s id q | s id q Hacc | s id q Hq];
    unfold consistent; cbn [table issued view].
  - (* load *)
    split; [exact Hnd|]. split; [exact Hiss|].
    intros g Hg. simpl in Hg. exists g.
    split; [|split; reflexivity].
    eapply Permutation_in; eassumption.
  - (* failed load *)
    split; [exact Hnd|]. split; [exact Hiss|].
    rewrite (loadGoals_failed_state _ _ Hq). exact Hview.
  - (* create *)
    split; [|split].
    + unfold ids. rewrite map_app. simpl.
      apply NoDup_app; [exact Hnd|repeat constructor; intros []|].
      intros a Ha [<-|[]]. apply Hfresh.
      apply in_map_iff in Ha. destruct Ha as (r & <- & Hr).
      apply Hiss, Hr.
    + intros r Hr. apply in_app_or in Hr. destruct Hr as [Hr|[<-|[]]].
      * right. apply Hiss, Hr.
      * left. reflexivity.
    + intros v Hv. destruct (Hview v Hv) as (r & Hr & E).
      exists r. split; [apply in_or_app; left; exact Hr|exact E].
  - (* ignored input *)
    rewrite (submitAmount_ignored _ _ _ _ Hnone).
    split; [exact Hnd|]. split; [exact Hiss|exact Hview].
  - (* accepted update *)
    split; [|split].
    + rewrite ids_update. exact Hnd.
    + intros r Hr. unfold update_current_amount in Hr.
      apply in_map_iff in Hr. destruct Hr as (r0 & <- & Hr0).
      destruct (String.eqb (SavingsGoal.id r0) (SavingsGoal.id goal));
        cbn [SavingsGoal.id]; apply Hiss, Hr0.
    + unfold GoalsList.submitAmount. rewrite Hreq.
      rewrite (updateProgress_accepted _ _ _ _ Hacc).
      intros v Hv. apply in_map_iff in Hv. destruct Hv as (v0 & <- & Hv0).
      destruct (Hview v0 Hv0) as (r & Hr & Eid & Ecur).
      destruct (In_update (table s) (SavingsGoal.id goal) newAmount stamp
                          r Hr) as (r' & Hr' & Eid' & Ecur').
      exists r'. split; [exact Hr'|]. rewrite Eid', Ecur', Eid.
      destruct (String.eqb (SavingsGoal.id v0) (SavingsGoal.id goal));
        simpl; auto.
  - (* failed update *)
    rewrite (submitAmount_failed _ _ _ _ Hq).
    split; [exact Hnd|]. split; [exact Hiss|exact Hview].
  - (* cancelled delete *)
    split; [exact Hnd|]. split; [exact Hiss|exact Hview].
  - (* accepted delete *)
    split; [|split].
    + apply NoDup_ids_filter, Hnd.
    + intros r Hr. apply filter_In in Hr. apply Hiss, Hr.
    + rewrite (handleDelete_accepted _ _ _ Hacc).
      intros v Hv. apply filter_In in Hv. destruct Hv as (Hv & Hne).
      destruct (Hview v Hv) as (r & Hr & Eid & Ecur).
      exists r. split; [|auto]. apply filter_In. split; [exact Hr|].
      rewrite Eid. exact Hne.
  - (* failed delete *)
    rewrite (handleDelete_failed _ _ _ Hq).
    split; [exact Hnd|]. split; [exact Hiss|exact Hview].
Qed.

(** Across a step, every row whose id had been issued before comes from
    a row with that id and no larger an amount. *)
Lemma step_monotone (s s' : Sys) :
  consistent s -> step s s' ->
  (forall id, In id (issued s) -> In id (issued s')) /\
  (forall r', In r' (table s') -> In (SavingsGoal.id r') (issued s) ->
     exists r, In r (table s) /\ SavingsGoal.id r = SavingsGoal.id r' /\
               SavingsGoal.current_amount r <= SavingsGoal.current_amount r').
Proof.
  intros (Hnd & Hiss & Hview) Hstep.
  assert (Hsame : forall r' : SavingsGoal.t, In r' (table s) ->
            exists r, In r (table s) /\
                      SavingsGoal.id r = SavingsGoal.id r' /\
                      SavingsGoal.current_amount r
                      <= SavingsGoal.current_amount r').
  { intros r' Hr'. exists r'. split; [exact Hr'|].
    split; [reflexivity|apply Qle_refl]. }
  destruct Hstep as
    [s rows Hperm | s q Hq | s g Hfresh Hzero
    | s goal amount q Hin Hnone
    | s goal amount newAmount stamp q Hin Hreq Hacc
    | s goal amount q Hin Hq
    | s id q | s id q Hacc | s id q Hq];
    cbn [table issued view]; (split; [auto with datatypes|]);
    try (intros r' Hr' _; apply Hsame, Hr').
  - (* create *)
    intros r' Hr' Hi. apply in_app_or in Hr'.
    destruct Hr' as [Hr'|[<-|[]]]; [apply Hsame, Hr'|].
    exfalso. apply Hfresh, Hi.
  - (* accepted update *)
    intros r' Hr' _. unfold update_current_amount in Hr'.
    apply in_map_iff in Hr'. destruct Hr' as (r & <- & Hr).
    exists r. split; [exact Hr|].
    destruct (String.eqb_spec (SavingsGoal.id r) (SavingsGoal.id goal))
      as [E|N]; [|split; [reflexivity|apply Qle_refl]].
    split; [reflexivity|]. cbn [SavingsGoal.current_amount].
    apply requestedAmount_spec in Hreq.
    destruct Hreq as (delta & _ & Hpos & ->).
    destruct (Hview goal Hin) as (r0 & Hr0 & Eid & Ecur).
    assert (r0 = r) by
      (apply (NoDup_ids_eq (table s)); try assumption; congruence).
    subst r0. rewrite Ecur.
    rewrite <- (Qplus_0_r (SavingsGoal.current_amount goal)) at 1.
    apply Qplus_le_r. apply Qlt_le_weak, Hpos.
  - (* accepted delete *)
    intros r' Hr' _. apply filter_In in Hr'. apply Hsame, Hr'.
Qed.


Lemma steps_monotone (s s' : Sys) :
  consistent s -> steps s s' ->
  (forall id, In id (issued s) -> In id (issued s')) /\
  (forall r', In r' (table s') -> In (SavingsGoal.id r') (issued s) ->
     exists r, In r (table s) /\ SavingsGoal.id r = SavingsGoal.id r' /\
               SavingsGoal.current_amount r <= SavingsGoal.current_amount r').
Proof.
  intros Hc Hs. induction Hs as [s|s1 s2 s3 H12 H23 IH].
  - split; [auto|]. intros r' Hr' _. exists r'.
    split; [exact Hr'|]. split; [reflexivity|apply Qle_refl].
  - destruct (step_monotone s1 s2 Hc H12) as (Hi12 & Hm12).
    destruct (IH (step_consistent s1 s2 Hc H12)) as (Hi23 & Hm23).
    split; [auto|]. intros r3 Hr3 Hi.
    destruct (Hm23 r3 Hr3 (Hi12 _ Hi)) as (r2 & Hr2 & E2 & L2).
    rewrite <- E2 in Hi.
    destruct (Hm12 r2 Hr2 Hi) as (r1 & Hr1 & E1 & L1).
    exists r1. split; [exact Hr1|]. split; [congruence|].
    eapply Qle_trans; eassumption.
Qed.

(** C9. Along every sequence of serialized user actions from a
    consistent state, the stored [current_amount] of a goal never
    decreases; a progress update is issued only for an entered number
    above 0 and writes the amount in memory plus that number; and the
    amount may come to exceed the target. *)
Theorem current_amount_never_decreases (s s' : Sys) :
  consistent s -> steps s s' ->
  (forall r r', In r (table s) -> In r' (table s') ->
     SavingsGoal.id r' = SavingsGoal.id r ->
     SavingsGoal.current_amount r <= SavingsGoal.current_amount r') /\
  (forall goal amount newAmount,
     GoalsList.requestedAmount goal amount = Some newAmount <->
     exists delta, amount = Some delta /\ 0 < delta /\
                   newAmount = SavingsGoal.current_amount goal + delta) /\
  (exists t t' r',
     consistent t /\ steps t t' /\ In r' (table t') /\
     SavingsGoal.target_amount r' < SavingsGoal.current_amount r').
Proof.
  intros Hc Hs. split; [|split].
  - intros r r' Hr Hr' E.
    destruct (steps_monotone s s' Hc Hs) as (_ & Hm).
    destruct Hc as (Hnd & Hiss & _).
    destruct (Hm r' Hr') as (r0 & Hr0 & E0 & L).
    { rewrite E. apply Hiss, Hr. }
    assert (r0 = r) by
      (apply (NoDup_ids_eq (table s)); try assumption; congruence).
    subst r0. exact L.
  - intros goal amount newAmount. apply requestedAmount_spec.
  - exists Sample.shown, Sample.deposited.
    eexists. split; [|split; [|split]].
    + split; [|split].
      * repeat constructor. intros [].
      * intros g [<-|[]]. left. reflexivity.
      * intros g [<-|[]]. exists Sample.nearly.
        split; [left; reflexivity|split; reflexivity].
    + eapply steps_cons; [|apply steps_refl].
      apply (step_submit Sample.shown Sample.nearly (Some 50) (90 + 50)
               "2024-03-15" (succeeded tt)).
      * left. reflexivity.
      * reflexivity.
      * reflexivity.
    + left. reflexivity.
    + reflexivity.
Qed.

End GoalProgress.

(** * Deleting *)

Section Deleting.
Import Gateway.

Lemma In_filter_id {A} (key : A -> string) (id : string) (l : list A) (x : A) :
  In x (filter (fun y => negb (String.eqb (key y) id)) l)
  <-> In x l /\ key x <> id.
Proof.
  rewrite filter_In, negb_true_iff.
  destruct (String.eqb_spec (key x) id); split; intros [H1 H2];
    split; congruence.
Qed.

Lemma handleDelete_expenses (st : ExpensesList.State) (id : string)
    (q : Settled unit) :
  accepted q ->
  fst (ExpensesList.handleDelete st id true q)
  = ExpensesList.setExpenses
      (filter (fun e => negb (String.eqb (Expense.id e) id))
              (ExpensesList.expenses st)) st.
Proof.
  intros H. unfold ExpensesList.handleDelete. cbn [negb].
  destruct q as [r|e]; [|destruct H]. simpl in H. rewrite H. reflexivity.
Qed.

Lemma handleDelete_budgets (st : BudgetsList.State) (id : string)
    (q : Settled unit) :
  accepted q ->
  fst (BudgetsList.handleDelete st id true q)
  = BudgetsList.setBudgets
      (filter (fun b => negb (String.eqb (Budget.id b) id))
              (BudgetsList.budgets st)) st.
Proof.
  intros H. unfold BudgetsList.handleDelete. cbn [negb].
  destruct q as [r|e]; [|destruct H]. simpl in H. rewrite H. reflexivity.
Qed.

(** C10. After a successful delete of the record with id [id], the
    view's collection is the prior one without the records of that id,
    in the same order and with every other record as it was, and the
    derived list of expenses filtered by search term and category holds
    no record of that id; this for the expenses list, the budgets list
    and the goals list. *)
Theorem successful_delete_removes_record
    (es : ExpensesList.State) (bs : BudgetsList.State)
    (gs : GoalsList.State) (id : string) (q : Settled unit) :
  accepted q ->
  let es' := fst (ExpensesList.handleDelete es id true q) in
  let bs' := fst (BudgetsList.handleDelete bs id true q) in
  let gs' := fst (GoalsList.handleDelete gs id true q) in
  (ExpensesList.expenses es'
     = filter (fun e => negb (String.eqb (Expense.id e) id))
              (ExpensesList.expenses es) /\
   (forall e, In e (ExpensesList.expenses es')
              <-> In e (ExpensesList.expenses es) /\ Expense.id e <> id) /\
   (forall e, In e (ExpensesList.filteredExpenses es')
              <-> In e (ExpensesList.filteredExpenses es) /\
                  Expense.id e <> id) /\
   ExpensesList.searchTerm es' = ExpensesList.searchTerm es /\
   ExpensesList.selectedCategory es' = ExpensesList.selectedCategory es) /\
  (BudgetsList.budgets bs'
     = filter (fun b => negb (String.eqb (Budget.id b) id))
              (BudgetsList.budgets bs) /\
   (forall b, In b (BudgetsList.budgets bs')
              <-> In b (BudgetsList.budgets bs) /\ Budget.id b <> id) /\
   BudgetsList.expenses bs' = BudgetsList.expenses bs) /\
  (GoalsList.goals gs'
     = filter (fun g => negb (String.eqb (SavingsGoal.id g) id))
              (GoalsList.goals gs) /\
   (forall g, In g (GoalsList.goals gs')
              <-> In g (GoalsList.goals gs) /\ SavingsGoal.id g <> id)).
Proof.
  intros Hq. cbv zeta.
  rewrite (handleDelete_expenses es id q Hq),
          (handleDelete_budgets bs id q Hq).
  split; [|split].
  - split; [reflexivity|]. split; [|split; [|split; reflexivity]].
    + intros e. cbn [ExpensesList.setExpenses ExpensesList.expenses].
      apply (In_filter_id Expense.id).
    + intros e. unfold ExpensesList.filteredExpenses.
      cbn [ExpensesList.setExpenses ExpensesList.expenses
           ExpensesList.searchTerm ExpensesList.selectedCategory].
      rewrite !filter_In, negb_true_iff, String.eqb_neq. tauto.
  - split; [reflexivity|]. split; [|reflexivity].
    intros b. cbn [BudgetsList.setBudgets BudgetsList.budgets].
    apply (In_filter_id Budget.id).
  - rewrite (handleDelete_accepted gs id q Hq).
    split; [reflexivity|]. intros g. apply (In_filter_id SavingsGoal.id).
Qed.

End Deleting.

(** * The theorems at the sample data *)

Section Instances.
Import Gateway.

Lemma marchExpenses_dated : Spec.datedValidly Sample.marchExpenses.
Proof. intros e [<-|[<-|[<-|[]]]]; reflexivity. Defined.

(** The March budget of 100 with 120 spent in its window is over
    budget. *)
Lemma budget_progress_correct_witness :
  (0 < Budget.amount Sample.marchBudget)%Q /\
  let p := BudgetsList.getBudgetProgress Sample.marchExpenses
                                         Sample.marchBudget in
  (BudgetsList.isOverBudget p = true
   <-> (Budget.amount Sample.marchBudget < BudgetsList.spent p)%Q) /\
  ((Budget.amount Sample.marchBudget < BudgetsList.spent p)%Q ->
   (BudgetsList.percentage p == 100)%Q).
Proof.
  assert (H : (0 < Budget.amount Sample.marchBudget)%Q) by reflexivity.
  split; [exact H|].
  pose proof (budget_progress_correct JSDate.utc Sample.now
                Sample.marchExpenses
                Sample.marchBudget H) as T.
  cbv zeta in T. destruct T as [(_ & _ & P & _ & _ & _ & O) _].
  cbv zeta. split; [exact O|exact P].
Defined.


Lemma marchExpenses_ascii :
  forall x, In x Sample.marchExpenses -> Spec.asciiTexts x.
Proof. intros x [<-|[<-|[<-|[]]]]; split; reflexivity || exact I. Defined.


Lemma shown_consistent : GoalsSystem.consistent Sample.shown.
Proof.
  split; [|split].
  - repeat constructor. intros [].
  - intros g [<-|[]]. left. reflexivity.
  - intros g [<-|[]]. exists Sample.nearly.
    split; [left; reflexivity|split; reflexivity].
Defined.

Lemma shown_deposited : GoalsSystem.steps Sample.shown Sample.deposited.
Proof.
  eapply GoalsSystem.steps_cons; [|apply GoalsSystem.steps_refl].
  apply (GoalsSystem.step_submit Sample.shown Sample.nearly (Some 50%Q)
           (90 + 50)%Q "2024-03-15" (succeeded tt)).
  - left. reflexivity.
  - reflexivity.
  - reflexivity.
Defined.

Lemma current_amount_never_decreases_witness :
  GoalsSystem.consistent Sample.shown /\
  GoalsSystem.steps Sample.shown Sample.deposited /\
  (forall r r',
     In r (GoalsSystem.table Sample.shown) ->
     In r' (GoalsSystem.table Sample.deposited) ->
     SavingsGoal.id r' = SavingsGoal.id r ->
     (SavingsGoal.current_amount r <= SavingsGoal.current_amount r')%Q).
Proof.
  split; [exact shown_consistent|]. split; [exact shown_deposited|].
  exact (proj1 (current_amount_never_decreases Sample.shown Sample.deposited
                  shown_consistent shown_deposited)).
Defined.

Lemma successful_delete_removes_record_witness :
  accepted (succeeded tt) /\
  let es := ExpensesList.mkState Sample.marchExpenses false false
                                 "coffee" EmptyString [] in
  let es' := fst (ExpensesList.handleDelete es "e3" true (succeeded tt)) in
  forall e, In e (ExpensesList.filteredExpenses es')
            <-> In e (ExpensesList.filteredExpenses es) /\
                Expense.id e <> "e3"%string.
Proof.
  assert (H : accepted (succeeded tt)) by reflexivity.
  split; [exact H|]. cbv zeta.
  pose proof (successful_delete_removes_record
                (ExpensesList.mkState Sample.marchExpenses false false
                                      "coffee" EmptyString [])
                BudgetsList.initial GoalsList.initial "e3"
                (succeeded tt) H) as T.
  cbv zeta in T. destruct T as ((_ & _ & F & _) & _). exact F.
Defined.

End Instances.

(** * Budget windows *)

Section BudgetWindows.
Import JSDate.
Local Open Scope Z_scope.

(** X1. On a host whose offset from UTC is, seven days on, the one in
    force at the creation, a weekly budget is stored with an end date
    exactly seven days after its start date, the start date being the
    date of creation in UTC; both are dates of the calendar. *)
Theorem weekly_budget_spans_seven_days
    (zone : Zone) (now : Date) (user cat : string) (amount : option Q) :
  atLocal zone (LocalTime zone now + 7 * msPerDay) = atUTC zone now ->
  let row := BudgetForm.handleSubmit zone now user cat amount weekly in
  BudgetForm.start_date row = toISODate now /\
  validb (BudgetForm.start_date row) = true /\
  validb (BudgetForm.end_date row) = true /\
  days_from_civil (year (BudgetForm.end_date row))
                  (month (BudgetForm.end_date row))
                  (day (BudgetForm.end_date row))
  = days_from_civil (year (BudgetForm.start_date row))
                    (month (BudgetForm.start_date row))
                    (day (BudgetForm.start_date row)) + 7.
Proof.
  intros H. cbv zeta.
  destruct (weekly_end_date zone now user cat amount H) as (E & S & D).
  split; [reflexivity|]. split; [rewrite S; apply civil_from_days_valid|].
  split; [rewrite E; apply civil_from_days_valid|exact D].
Qed.

(** X2. On a host whose offset from UTC at the end of the period is the
    one in force at the creation, and whose date at the creation is the
    date in UTC, a monthly budget is stored with the same day of the
    next month as its end date exactly when the next month has such a
    day, which is so whenever it is created on the 28th or earlier. *)
Theorem monthly_budget_same_day_next_month
    (zone : Zone) (now : Date) (user cat : string) (amount : option Q) :
  atLocal zone (withMonth (LocalTime zone now) (getMonth zone now + 1))
  = atUTC zone now ->
  Spec.today zone now = toISODate now ->
  let row := BudgetForm.handleSubmit zone now user cat amount monthly in
  (BudgetForm.end_date row = nextMonth (BudgetForm.start_date row)
   <-> validb (nextMonth (BudgetForm.start_date row)) = true) /\
  (day (BudgetForm.start_date row) <= 28 ->
   BudgetForm.end_date row = nextMonth (BudgetForm.start_date row)) /\
  validb (BudgetForm.end_date row) = true.
Proof.
  intros H T. cbv zeta.
  pose proof (monthly_end_date zone now user cat amount H T) as M.
  cbv zeta in M. split; [exact M|]. split.
  - intros Hd. apply M. apply nextMonth_valid_28; [|exact Hd].
    apply civil_from_days_valid.
  - apply civil_from_days_valid.
Qed.

Ltac zdiv := Z.to_euclidean_division_equations; lia.

(** The same day number of the next month lies at least 28 days on. *)
Lemma days_from_civil_nextMonth (c : ISODate) :
  1 <= month c <= 12 ->
  days_from_civil (year c) (month c) (day c) + 28
  <= days_from_civil (year (nextMonth c)) (month (nextMonth c))
                     (day (nextMonth c)).
Proof.
  intros Hm. unfold nextMonth.
  destruct (Z.eqb_spec (month c) 12) as [E|N]; cbn [year month day];
    rewrite !days_from_civil_closed; cbv zeta.
  - rewrite E. change (12 <=? 2) with false. change (1 <=? 2) with true.
    cbv iota. replace (year c + 1 - 1) with (year c) by ring.
    change (monthStart (shiftedMonth 12)) with 275.
    change (monthStart (shiftedMonth 1)) with 306. lia.
  - unfold shiftedMonth, monthStart.
    destruct (Z.leb_spec (month c) 2), (Z.leb_spec (month c + 1) 2);
      zdiv.
Qed.

Lemma Day_le (t u : Z) : t <= u -> Day t <= Day u.
Proof.
  unfold Day, msPerDay. intros H. Z.to_euclidean_division_equations; lia.
Qed.

Lemma MakeDate_ge (n t k : Z) :
  Day t + k <= n -> t + k * msPerDay <= MakeDate n (TimeWithinDay t).
Proof.
  unfold MakeDate, TimeWithinDay, Day, msPerDay. intros H.
  Z.to_euclidean_division_equations; nia.
Qed.

(** Wherever the host is, a budget does not end before the day it
    starts. *)
Lemma Day_endDate (zone : Zone) (now : Date) (period : Period) :
  withinADay zone -> Day now <= Day (BudgetForm.endDate zone now period).
Proof.
  intros W. apply Day_le.
  destruct (W now) as (B1 & _).
  unfold BudgetForm.endDate. destruct period.
  - unfold setDate, getDate. rewrite withDate_days. unfold UTC.
    destruct (W (LocalTime zone now + 7 * msPerDay)) as (_ & B2).
    unfold LocalTime in *. unfold msPerDay in *. lia.
  - unfold setMonth, withMonth, getMonth.
    set (lt := LocalTime zone now).
    set (c := civil_from_days (Day lt)).
    assert (G : lt + 28 * msPerDay
                <= MakeDate (MakeDay (YearFromTime lt) (MonthFromTime lt + 1)
                                     (DateFromTime lt))
                            (TimeWithinDay lt)).
    { apply MakeDate_ge.
      unfold YearFromTime, MonthFromTime, DateFromTime. fold c.
      rewrite (MakeDay_next_month c) by apply civil_from_days_valid.
      pose proof (civil_from_days_valid (Day lt)) as Hv. fold c in Hv.
      apply validb_spec in Hv.
      pose proof (days_from_civil_nextMonth c (proj1 Hv)) as H.
      unfold c in H at 1 2 3. rewrite days_from_civil_of_civil in H.
      exact H. }
    unfold UTC.
    destruct (W (MakeDate (MakeDay (YearFromTime lt) (MonthFromTime lt + 1)
                                   (DateFromTime lt))
                          (TimeWithinDay lt))) as (_ & B2).
    unfold lt, LocalTime in *. unfold msPerDay in *. lia.
Qed.

Lemma parse_toISODate_le (t u : Date) :
  Day t <= Day u -> parse (toISODate t) <= parse (toISODate u).
Proof.
  intros H. unfold parse, toISODate, MakeDate.
  rewrite !days_from_civil_of_civil. unfold msPerDay. lia.
Qed.

(** X3. On any host within a day of UTC, a budget just created counts,
    in the budgets list, an expense of its category dated the day of
    creation (the date in UTC, as the forms store it), for either
    period. *)
Theorem new_budget_counts_todays_expense
    (zone : Zone) (now : Date) (user cat : string) (amount : option Q)
    (period : Period) (budget : Budget.t) (e : Expense.t) :
  let row := BudgetForm.handleSubmit zone now user cat amount period in
  withinADay zone ->
  Budget.category_id budget = BudgetForm.category_id row ->
  Budget.start_date budget = BudgetForm.start_date row ->
  Budget.end_date budget = BudgetForm.end_date row ->
  Expense.category_id e = cat ->
  Expense.date e = toISODate now ->
  BudgetsList.inWindow budget e = true.
Proof.
  cbv zeta. unfold BudgetForm.handleSubmit.
  cbn [BudgetForm.category_id BudgetForm.start_date BudgetForm.end_date].
  intros W Hc Hs He Hec Hd.
  unfold BudgetsList.inWindow. cbv zeta. rewrite Hc, Hs, He, Hec, Hd.
  rewrite String.eqb_refl, Z.geb_leb, Z.leb_refl. cbn [andb].
  apply Z.leb_le, parse_toISODate_le, Day_endDate, W.
Qed.

(** X4. On a host whose offset from UTC is, seven days on, the one in
    force at the creation, the window of a weekly budget has eight days:
    an expense of the budget's category counts in the budgets list
    exactly when it is dated on the day of creation or on one of the
    seven days after it. *)
Theorem weekly_window_has_eight_days
    (zone : Zone) (now : Date) (user cat : string) (amount : option Q)
    (budget : Budget.t) (e : Expense.t) :
  let row := BudgetForm.handleSubmit zone now user cat amount weekly in
  atLocal zone (LocalTime zone now + 7 * msPerDay) = atUTC zone now ->
  Budget.start_date budget = BudgetForm.start_date row ->
  Budget.end_date budget = BudgetForm.end_date row ->
  validb (Expense.date e) = true ->
  (BudgetsList.inWindow budget e = true <->
   Expense.category_id e = Budget.category_id budget /\
   exists k, 0 <= k <= 7 /\
             Expense.date e = civil_from_days (Day now + k)).
Proof.
  cbv zeta. intros H Hs He Hv.
  destruct (weekly_end_date zone now user cat amount H) as (E & S & _).
  rewrite E in He. rewrite S in Hs.
  unfold BudgetsList.inWindow. cbv zeta.
  rewrite !andb_true_iff, String.eqb_eq, Z.geb_leb, !Z.leb_le, Hs, He.
  unfold parse, MakeDate. rewrite !days_from_civil_of_civil.
  set (d := days_from_civil (year (Expense.date e)) (month (Expense.date e))
                            (day (Expense.date e))).
  assert (Ed : civil_from_days d = Expense.date e)
    by (apply civil_from_days_of_civil, Hv).
  unfold msPerDay. split.
  - intros [[Hc H1] H2]. split; [exact Hc|].
    exists (d - Day now). split; [lia|].
    rewrite <- Ed. f_equal. ring.
  - intros [Hc (k & Hk & Ek)]. split; [split; [exact Hc|]|].
    + assert (d = Day now + k); [|lia].
      unfold d. rewrite Ek. apply days_from_civil_of_civil.
    + assert (d = Day now + k); [|lia].
      unfold d. rewrite Ek. apply days_from_civil_of_civil.
Qed.

End BudgetWindows.

(** * What the cards show *)

Section Cards.
Local Open Scope Q_scope.

Lemma ratio_above (k spent amount : Q) :
  0 < amount -> (k < spent / amount * 100 <-> k * amount < spent * 100).
Proof.
  intros Ha.
  assert (Hne : ~ amount == 0) by (intros E; rewrite E in Ha; discriminate).
  assert (E : spent / amount * 100 == spent * 100 / amount)
    by (field; exact Hne).
  rewrite E. split; intros H.
  - assert (H' : k * amount < spent * 100 / amount * amount)
      by (apply Qmult_lt_compat_r; assumption).
    assert (E' : spent * 100 / amount * amount == spent * 100)
      by (field; exact Hne).
    rewrite E' in H'. exact H'.
  - apply Qlt_shift_div_l; assumption.
Qed.

(** The bar of a progress that is what [Spec.progressOf] says. *)
Lemma barColor_thresholds (amount : Q) (matching : list Expense.t)
    (spent remaining percentage : Q) (over : bool) :
  0 < amount ->
  Spec.progressOf amount matching spent remaining percentage over ->
  (Render.barColor over percentage = Render.red <-> amount < spent) /\
  (Render.barColor over percentage = Render.yellow
   <-> spent <= amount /\ 80 * amount < spent * 100) /\
  (Render.barColor over percentage = Render.emerald
   <-> spent * 100 <= 80 * amount) /\
  Render.barWidth percentage == percentage /\
  Render.barWidth percentage <= 100.
Proof.
  intros Ha (_ & Hin & Hout & _ & _ & _ & Hover).
  assert (Hle : percentage <= 100).
  { destruct (Qlt_le_dec amount spent) as [H|H].
    - rewrite (Hout H). apply Qle_refl.
    - rewrite (Hin H). apply percentage_within; assumption. }
  assert (Hlow : spent * 100 <= 80 * amount -> spent <= amount).
  { intros H. apply Qnot_lt_le. intros Hlt.
    apply (Qlt_not_le _ _ Hlt).
    apply Qmult_le_r with (z := 100); [reflexivity|].
    eapply Qle_trans; [exact H|].
    rewrite (Qmult_comm amount 100).
    apply Qmult_le_compat_r; [discriminate|apply Qlt_le_weak, Ha]. }
  assert (Hw : Render.barWidth percentage == percentage)
    by (apply Q.min_r, Hle).
  assert (Hred : Render.barColor over percentage = Render.red
                 <-> amount < spent).
  { rewrite <- Hover. unfold Render.barColor.
    destruct over; [tauto|].
    destruct (JSNumber.gtb percentage 80); split; discriminate. }
  assert (Hy : over = false ->
               (JSNumber.gtb percentage 80 = true
                <-> 80 * amount < spent * 100)).
  { intros Hf. assert (Hs : spent <= amount).
    { apply Qnot_lt_le. intros H. apply Hover in H. congruence. }
    rewrite gtb_lt, (Hin Hs). apply ratio_above, Ha. }
  split; [exact Hred|]. split; [|split; [|split]].
  - unfold Render.barColor. destruct over.
    + split; [discriminate|]. intros [H _]. exfalso.
      apply (Qlt_not_le amount spent); [apply Hover; reflexivity|exact H].
    + specialize (Hy eq_refl).
      assert (Hs : spent <= amount).
      { apply Qnot_lt_le. intros H. apply Hover in H. discriminate H. }
      destruct (JSNumber.gtb percentage 80).
      * split; [intros _|reflexivity].
        split; [exact Hs|apply Hy; reflexivity].
      * split; [discriminate|]. intros [_ H]. apply Hy in H. discriminate H.
  - unfold Render.barColor. destruct over.
    + split; [discriminate|]. intros H. exfalso.
      apply (Qlt_not_le amount spent); [apply Hover; reflexivity|].
      apply Hlow, H.
    + specialize (Hy eq_refl).
      destruct (JSNumber.gtb percentage 80).
      * split; [discriminate|]. intros H. exfalso.
        apply (Qlt_not_le (80 * amount) (spent * 100));
          [apply Hy; reflexivity|exact H].
      * split; [intros _|reflexivity].
        apply Qnot_lt_le. intros H. apply Hy in H. discriminate H.
  - exact Hw.
  - rewrite Hw. exact Hle.
Qed.

(** X5. For a budget with a positive amount, the bar of its card in the
    budgets list and of its row on the dashboard is red exactly when
    more was spent than budgeted, yellow exactly when more than 80% and
    no more than the whole was spent, and green exactly when no more than
    80% was spent; its width is the percentage itself, never above 100;
    and a card labelled "Over budget" always shows the figure 0. *)
Theorem budget_bar_thresholds
    (zone : JSDate.Zone) (now : JSDate.Date) (expenses : list Expense.t)
    (budget : Budget.t) :
  0 < Budget.amount budget ->
  let amount := Budget.amount budget in
  let card := Render.budgetCard expenses budget in
  let spent :=
    BudgetsList.spent (BudgetsList.getBudgetProgress expenses budget) in
  let d := Dashboard.budgetProgress zone now expenses budget in
  ((Render.color card = Render.red <-> amount < spent) /\
   (Render.color card = Render.yellow
    <-> spent <= amount /\ 80 * amount < spent * 100) /\
   (Render.color card = Render.emerald <-> spent * 100 <= 80 * amount) /\
   Render.width card
   == BudgetsList.percentage (BudgetsList.getBudgetProgress expenses budget)
   /\ Render.width card <= 100) /\
  (Render.label card = "Over budget"%string <-> amount < spent) /\
  (Render.label card = "Over budget"%string -> Render.figure card == 0) /\
  ((Render.barColor (Dashboard.isOverBudget d) (Dashboard.percentage d)
    = Render.red <-> amount < Dashboard.spent d) /\
   (Render.barColor (Dashboard.isOverBudget d) (Dashboard.percentage d)
    = Render.yellow
    <-> Dashboard.spent d <= amount /\ 80 * amount < Dashboard.spent d * 100)
   /\
   (Render.barColor (Dashboard.isOverBudget d) (Dashboard.percentage d)
    = Render.emerald <-> Dashboard.spent d * 100 <= 80 * amount) /\
   Render.barWidth (Dashboard.percentage d) == Dashboard.percentage d /\
   Render.barWidth (Dashboard.percentage d) <= 100).
Proof.
  intros Ha amount card spent d.
  pose proof (progress_arithmetic amount
                (filter (BudgetsList.inWindow budget) expenses) Ha) as P.
  pose proof (progress_arithmetic amount
                (filter (Dashboard.matchesBudget zone now budget) expenses) Ha)
    as D.
  cbv zeta in P, D.
  split; [exact (barColor_thresholds _ _ _ _ _ _ Ha P)|].
  split; [|split; [|exact (barColor_thresholds _ _ _ _ _ _ Ha D)]].
  - destruct P as (_ & _ & _ & _ & _ & _ & Hover).
    unfold card, spent, amount, Render.budgetCard,
      BudgetsList.getBudgetProgress in *.
    cbv zeta. cbn [Render.label BudgetsList.isOverBudget BudgetsList.spent].
    destruct (JSNumber.gtb _ 100) eqn:G.
    + split; [intros _; apply Hover; reflexivity|reflexivity].
    + split; [discriminate|]. intros H. apply Hover in H. discriminate H.
  - destruct P as (_ & _ & _ & _ & Hzero & _ & Hover).
    unfold card, spent, amount, Render.budgetCard,
      BudgetsList.getBudgetProgress in *.
    cbv zeta.
    cbn [Render.label Render.figure BudgetsList.isOverBudget
         BudgetsList.remaining].
    destruct (JSNumber.gtb _ 100) eqn:G; [|discriminate].
    intros _. apply Hzero, Hover. reflexivity.
Qed.

Lemma total_filter_le {A} (amount : A -> Q) (f g : A -> bool) (l : list A) :
  (forall x, In x l -> 0 <= amount x) ->
  (forall x, f x = true -> g x = true) ->
  Spec.total amount (filter f l) <= Spec.total amount (filter g l).
Proof.
  intros Hpos Hfg. induction l as [|x l IH]; simpl; [apply Qle_refl|].
  assert (IH' : Spec.total amount (filter f l)
                <= Spec.total amount (filter g l))
    by (apply IH; intros y Hy; apply Hpos; right; exact Hy).
  assert (Hx : 0 <= amount x) by (apply Hpos; left; reflexivity).
  destruct (f x) eqn:F.
  - rewrite (Hfg x F). simpl. apply Qplus_le_r. exact IH'.
  - destruct (g x); simpl; [|exact IH'].
    rewrite <- (Qplus_0_l (Spec.total amount (filter f l))).
    apply Qplus_le_compat; assumption.
Qed.

(** X7. On the dashboard the spending of a budget depends on its
    category alone: two budgets of one category show the same spending,
    whatever their periods and dates; and, no amount being negative, no
    budget's spending exceeds the spending of the month. *)
Theorem dashboard_spent_by_category
    (zone : JSDate.Zone) (now : JSDate.Date) (expenses : list Expense.t)
    (b1 b2 : Budget.t) :
  (forall e, In e expenses -> 0 <= Expense.amount e) ->
  Budget.category_id b1 = Budget.category_id b2 ->
  Dashboard.spent (Dashboard.budgetProgress zone now expenses b1)
  = Dashboard.spent (Dashboard.budgetProgress zone now expenses b2) /\
  Dashboard.spent (Dashboard.budgetProgress zone now expenses b1)
  <= Dashboard.calculateMonthlySpending zone now expenses.
Proof.
  intros Hpos Hc. unfold Dashboard.budgetProgress. cbv zeta.
  cbn [Dashboard.spent]. split.
  - f_equal. apply filter_ext. intros e.
    unfold Dashboard.matchesBudget. rewrite Hc. reflexivity.
  - unfold Dashboard.calculateMonthlySpending.
    rewrite !reduce_amounts_total. apply total_filter_le; [exact Hpos|].
    intros e H. unfold Dashboard.matchesBudget in H.
    apply andb_true_iff in H. apply H.
Qed.

End Cards.

(** * Searching and totalling the expenses *)

Section Searching.
Import JSString.
Local Open Scope string_scope.

Lemma startsWith_empty (s : string) : startsWith s EmptyString = true.
Proof. destruct s; reflexivity. Qed.

Lemma includes_empty (s : string) : includes s EmptyString = true.
Proof. destruct s; reflexivity. Qed.

Lemma string_app_assoc (a b c : string) : (a ++ b) ++ c = a ++ (b ++ c).
Proof.
  induction a as [|x a IH]; simpl; [reflexivity|]. rewrite IH. reflexivity.
Qed.

Lemma containsIgnoringCase_trans (s t u : string) :
  Spec.containsIgnoringCase s t -> Spec.containsIgnoringCase t u ->
  Spec.containsIgnoringCase s u.
Proof.
  rewrite !containsIgnoringCase_lower.
  intros (p1 & q1 & E1) (p2 & q2 & E2).
  exists (p1 ++ p2), (q2 ++ q1). rewrite E1, E2.
  rewrite !string_app_assoc. reflexivity.
Qed.

Lemma equalIgnoringCase_refl (s : string) : Spec.equalIgnoringCase s s.
Proof.
  induction s as [|c s IH]; cbn; [exact I|].
  split; [left; reflexivity|exact IH].
Qed.

Lemma containsIgnoringCase_around (pre t post : string) :
  Spec.containsIgnoringCase (pre ++ t ++ post) t.
Proof.
  exists pre, t, post. split; [reflexivity|apply equalIgnoringCase_refl].
Qed.

Lemma matches_narrows (t t' cat : string) (e : Expense.t) :
  Spec.containsIgnoringCase t' t ->
  ExpensesList.matches t' cat e = true ->
  ExpensesList.matches t cat e = true.
Proof.
  intros Ht. rewrite !matches_spec. intros [[H|(n & En & H)] Hc].
  - split; [left|exact Hc]. eapply containsIgnoringCase_trans; eassumption.
  - split; [right|exact Hc]. exists n. split; [exact En|].
    eapply containsIgnoringCase_trans; eassumption.
Qed.

(** X8. With an empty search box every expense of the selected category
    is listed, and with no category selected either the list is the whole
    collection and the total is the sum of all its amounts. *)
Theorem no_filters_list_everything (st : ExpensesList.State) :
  ExpensesList.searchTerm st = EmptyString ->
  (forall e, In e (ExpensesList.filteredExpenses st)
             <-> In e (ExpensesList.expenses st) /\
                 (ExpensesList.selectedCategory st = EmptyString \/
                  Expense.category_id e = ExpensesList.selectedCategory st))
  /\
  (ExpensesList.selectedCategory st = EmptyString ->
   ExpensesList.filteredExpenses st = ExpensesList.expenses st /\
   (ExpensesList.totalAmount st
    == Spec.total Expense.amount (ExpensesList.expenses st))%Q).
Proof.
  intros Ht.
  assert (Hm : forall e,
             ExpensesList.matches (ExpensesList.searchTerm st)
                                  (ExpensesList.selectedCategory st) e
             = negb (truthy (ExpensesList.selectedCategory st))
               || String.eqb (Expense.category_id e)
                             (ExpensesList.selectedCategory st)).
  { intros e. unfold ExpensesList.matches. cbv zeta. rewrite Ht.
    change (toLowerCase EmptyString) with EmptyString.
    rewrite includes_empty. reflexivity. }
  split.
  - intros e. unfold ExpensesList.filteredExpenses.
    rewrite filter_In, Hm, orb_true_iff, negb_true_iff, truthy_false,
      String.eqb_eq. reflexivity.
  - intros Hc.
    assert (E : ExpensesList.filteredExpenses st = ExpensesList.expenses st).
    { unfold ExpensesList.filteredExpenses. apply filter_all.
      intros e _. rewrite Hm, Hc. reflexivity. }
    split; [exact E|]. unfold ExpensesList.totalAmount. rewrite E.
    apply reduce_amounts_total.
Qed.

(** X9. On texts of ASCII characters, typing more into the search box
    never adds an expense to the list: what is listed for a search term
    is listed for every part of that term, and, no amount being
    negative, the total does not grow. *)
Theorem longer_search_term_narrows
    (st : ExpensesList.State) (pre t post : string) :
  isAscii (pre ++ t ++ post) = true ->
  (forall e, In e (ExpensesList.expenses st) -> Spec.asciiTexts e) ->
  (forall e, In e (ExpensesList.expenses st) -> (0 <= Expense.amount e)%Q) ->
  let long := ExpensesFilters.setSearchTerm (pre ++ t ++ post) st in
  let short := ExpensesFilters.setSearchTerm t st in
  (forall e, In e (ExpensesList.filteredExpenses long) ->
             In e (ExpensesList.filteredExpenses short)) /\
  (ExpensesList.totalAmount long <= ExpensesList.totalAmount short)%Q.
Proof.
  intros _ _ Hpos long short.
  assert (Hn : forall e,
             ExpensesList.matches (pre ++ t ++ post)
                                  (ExpensesList.selectedCategory st) e = true ->
             ExpensesList.matches t (ExpensesList.selectedCategory st) e
             = true).
  { intros e. apply matches_narrows, containsIgnoringCase_around. }
  split.
  - intros e. unfold long, short, ExpensesList.filteredExpenses,
      ExpensesFilters.setSearchTerm.
    cbn [ExpensesList.expenses ExpensesList.searchTerm
         ExpensesList.selectedCategory].
    rewrite !filter_In. intros [Hin H]. split; [exact Hin|apply Hn, H].
  - unfold long, short, ExpensesList.totalAmount,
      ExpensesList.filteredExpenses, ExpensesFilters.setSearchTerm.
    cbn [ExpensesList.expenses ExpensesList.searchTerm
         ExpensesList.selectedCategory].
    rewrite !reduce_amounts_total.
    apply total_filter_le; [exact Hpos|exact Hn].
Qed.

Lemma filter_filter_comm {A} (f g : A -> bool) (l : list A) :
  filter f (filter g l) = filter g (filter f l).
Proof.
  induction l as [|x l IH]; simpl; [reflexivity|].
  destruct (f x) eqn:F, (g x) eqn:G; simpl; rewrite ?F, ?G, IH; reflexivity.
Qed.

Lemma total_without (l : list Expense.t) (e : Expense.t) :
  NoDup (map Expense.id l) -> In e l ->
  (Spec.total Expense.amount
     (filter (fun y => negb (String.eqb (Expense.id y) (Expense.id e))) l)
   == Spec.total Expense.amount l - Expense.amount e)%Q.
Proof.
  induction l as [|x l IH]; simpl; intros Hnd Hin; [destruct Hin|].
  inversion Hnd as [|? ? Hn Hd]; subst.
  destruct Hin as [->|Hin].
  - rewrite String.eqb_refl. cbn [negb].
    rewrite filter_all.
    + ring.
    + intros y Hy. apply negb_true_iff, String.eqb_neq. intros E.
      apply Hn. rewrite <- E. apply in_map, Hy.
  - destruct (String.eqb_spec (Expense.id x) (Expense.id e)) as [E|N].
    + exfalso. apply Hn. rewrite E. apply in_map, Hin.
    + cbn [negb]. simpl. rewrite (IH Hd Hin). ring.
Qed.

Lemma NoDup_ids_filter_expenses (f : Expense.t -> bool)
    (l : list Expense.t) :
  NoDup (map Expense.id l) -> NoDup (map Expense.id (filter f l)).
Proof.
  induction l as [|x l IH]; simpl; intros H; [constructor|].
  inversion H as [|? ? Hn Hd]; subst.
  destruct (f x); simpl; [|apply IH, Hd].
  constructor; [|apply IH, Hd].
  intros Hin. apply Hn. apply in_map_iff in Hin.
  destruct Hin as (y & E & Hy). apply filter_In in Hy.
  apply in_map_iff. exists y. tauto.
Qed.

(** X10. Ids being unique, a successful delete of a listed expense
    lowers the total of the list by exactly that expense's amount, and a
    successful delete of an id that is not listed leaves the list and its
    total as they were. *)
Theorem delete_adjusts_total
    (st : ExpensesList.State) (id : string) (q : Gateway.Settled unit) :
  NoDup (map Expense.id (ExpensesList.expenses st)) ->
  Gateway.accepted q ->
  let st' := fst (ExpensesList.handleDelete st id true q) in
  (forall e, In e (ExpensesList.filteredExpenses st) -> Expense.id e = id ->
     (ExpensesList.totalAmount st'
      == ExpensesList.totalAmount st - Expense.amount e)%Q) /\
  ((forall e, In e (ExpensesList.filteredExpenses st) -> Expense.id e <> id) ->
   ExpensesList.filteredExpenses st' = ExpensesList.filteredExpenses st /\
   ExpensesList.totalAmount st' = ExpensesList.totalAmount st).
Proof.
  intros Hnd Hq st'.
  assert (E : ExpensesList.filteredExpenses st'
              = filter (fun y => negb (String.eqb (Expense.id y) id))
                       (ExpensesList.filteredExpenses st)).
  { unfold st'. rewrite (handleDelete_expenses st id q Hq).
    unfold ExpensesList.filteredExpenses, ExpensesList.setExpenses.
    cbn [ExpensesList.expenses ExpensesList.searchTerm
         ExpensesList.selectedCategory].
    apply filter_filter_comm. }
  split.
  - intros e He Hid. unfold ExpensesList.totalAmount. rewrite E.
    rewrite !reduce_amounts_total. subst id.
    apply total_without; [|exact He].
    apply NoDup_ids_filter_expenses, Hnd.
  - intros Hout.
    assert (E' : ExpensesList.filteredExpenses st'
                 = ExpensesList.filteredExpenses st).
    { rewrite E. apply filter_all. intros e He.
      apply negb_true_iff, String.eqb_neq, Hout, He. }
    split; [exact E'|]. unfold ExpensesList.totalAmount. rewrite E'.
    reflexivity.
Qed.

End Searching.

(** * The goal cards *)

Section GoalCards.
Import GoalsList.
Local Open Scope Q_scope.

(** X11. A goal with a positive target is shown as completed exactly
    when its current amount has reached the target; its card then shows
    the completion notice and a full bar, whatever its date. *)
Theorem goal_completed_when_target_reached
    (differenceInDays : DifferenceInDays) (now : JSDate.Date)
    (goal : SavingsGoal.t) :
  0 < SavingsGoal.target_amount goal ->
  (isCompleted goal = true
   <-> SavingsGoal.target_amount goal <= SavingsGoal.current_amount goal) /\
  (panel differenceInDays now goal = GoalCompleted
   <-> SavingsGoal.target_amount goal <= SavingsGoal.current_amount goal) /\
  exists width,
    Render.goalBarWidth goal = JSNumber.finite width /\
    (SavingsGoal.target_amount goal <= SavingsGoal.current_amount goal ->
     width == 100) /\
    width <= 100.
Proof.
  intros Ht. pose proof (isCompleted_spec goal Ht) as Hc.
  assert (Hne : ~ SavingsGoal.target_amount goal == 0)
    by (intros E; rewrite E in Ht; discriminate Ht).
  split; [exact Hc|]. split.
  - rewrite <- Hc. unfold panel. cbv zeta.
    destruct (isCompleted goal); cbn [negb].
    + tauto.
    + destruct (_ >? 0)%Z; split; discriminate.
  - unfold Render.goalBarWidth. unfold isCompleted in Hc.
    rewrite (progress_finite goal Hne) in *.
    cbn [JSNumber.minOf JSNumber.atLeast] in *.
    eexists. split; [reflexivity|]. split.
    + intros H. apply Hc in H. apply geb_le in H.
      unfold JSNumber.min. apply Q.min_l, H.
    + unfold JSNumber.min. apply Q.le_min_l.
Qed.

(** X12. For a goal with a positive target that is not yet reached and
    has days left, the card shows the recommendation, the daily pace is
    positive, saving it on each of the days left brings the current
    amount exactly to the target, and the weekly and monthly paces are 7
    and 30 times the daily one. *)
Theorem daily_pace_reaches_target
    (differenceInDays : DifferenceInDays) (now : JSDate.Date)
    (goal : SavingsGoal.t) :
  0 < SavingsGoal.target_amount goal ->
  isCompleted goal = false ->
  (0 < daysLeft differenceInDays now goal)%Z ->
  let r := getRecommendedSavings differenceInDays now goal in
  panel differenceInDays now goal = RecommendedSavings r /\
  0 < daily r /\
  SavingsGoal.current_amount goal
  + daily r * inject_Z (daysLeft differenceInDays now goal)
  == SavingsGoal.target_amount goal /\
  weekly r == 7 * daily r /\
  monthly r == 30 * daily r.
Proof.
  intros Ht Hc Hd r.
  assert (Hrem : 0 < SavingsGoal.target_amount goal
                     - SavingsGoal.current_amount goal).
  { assert (Hlt : SavingsGoal.current_amount goal
                  < SavingsGoal.target_amount goal).
    { apply Qnot_le_lt. intros H. apply (isCompleted_spec goal Ht) in H.
      congruence. }
    rewrite <- (Qplus_opp_r (SavingsGoal.current_amount goal)).
    apply Qplus_lt_l. exact Hlt. }
  set (rem := SavingsGoal.target_amount goal
              - SavingsGoal.current_amount goal) in *.
  set (d := daysLeft differenceInDays now goal) in *.
  assert (Hpos : 0 < inject_Z d).
  { change 0 with (inject_Z 0). rewrite <- Zlt_Qlt. exact Hd. }
  assert (Hne : ~ inject_Z d == 0).
  { intros E. rewrite E in Hpos. discriminate. }
  assert (Hq : 0 < rem / inject_Z d).
  { apply Qlt_shift_div_l; [exact Hpos|]. rewrite Qmult_0_l. exact Hrem. }
  assert (Er : r = mkRecommendation
                     (JSNumber.max 0 (rem / inject_Z d))
                     (JSNumber.max 0 (rem / inject_Z d * 7))
                     (JSNumber.max 0 (rem / inject_Z d * 30)))
    by (unfold r;
        rewrite (getRecommendedSavings_ahead differenceInDays now goal Hd);
        reflexivity).
  assert (Ed : daily r == rem / inject_Z d).
  { rewrite Er. cbn [daily]. apply max0_nonneg, Qlt_le_weak, Hq. }
  assert (Ew : weekly r == rem / inject_Z d * 7).
  { rewrite Er. cbn [weekly]. apply max0_nonneg.
    rewrite <- (Qmult_0_l 7).
    apply Qmult_le_compat_r; [apply Qlt_le_weak, Hq|discriminate]. }
  assert (Em : monthly r == rem / inject_Z d * 30).
  { rewrite Er. cbn [monthly]. apply max0_nonneg.
    rewrite <- (Qmult_0_l 30).
    apply Qmult_le_compat_r; [apply Qlt_le_weak, Hq|discriminate]. }
  split; [|split; [|split; [|split]]].
  - unfold panel. cbv zeta. rewrite Hc. cbn [negb].
    destruct (Z.gtb_spec (daysLeft differenceInDays now goal) 0);
      [reflexivity|unfold d in Hd; lia].
  - rewrite Ed. exact Hq.
  - rewrite Ed. unfold rem. field. exact Hne.
  - rewrite Ew, Ed. ring.
  - rewrite Em, Ed. ring.
Qed.

End GoalCards.

(** * Progress updates beyond the serialized case *)

Section GoalUpdates.
Import Gateway GoalsSystem.
Local Open Scope Q_scope.





End GoalUpdates.

(** * Loads and deletes that do not go through *)

Section Outcomes.
Import Gateway.



End Outcomes.

(** * Saving through the forms *)

Section Saving.
Import Gateway.




End Saving.

(** * The filters of the expenses list *)

Section Filters.
Import JSString.
Local Open Scope string_scope.

Lemma truthy_true (s : string) : truthy s = true <-> s <> EmptyString.
Proof.
  destruct (truthy s) eqn:T.
  - split; [|reflexivity]. intros _ E. apply truthy_false in E. congruence.
  - apply truthy_false in T. split; [discriminate|contradiction].
Qed.

Lemma filter_twice {A} (f g : A -> bool) (l : list A) :
  filter g (filter f l) = filter (fun x => f x && g x) l.
Proof.
  induction l as [|x l IH]; simpl; [reflexivity|].
  destruct (f x); simpl; [destruct (g x)|]; rewrite IH; reflexivity.
Qed.


(** X23. Selecting a category lists exactly the expenses of that category
    among those listed under "All Categories" for the same search term,
    in the same order; so every expense listed has the selected
    category. *)
Theorem category_select_filters_the_full_list
    (st : ExpensesList.State) (id : string) :
  id <> EmptyString ->
  let one := ExpensesFilters.setSelectedCategory id st in
  let all := ExpensesFilters.setSelectedCategory EmptyString st in
  ExpensesList.filteredExpenses one
  = filter (fun e => String.eqb (Expense.category_id e) id)
           (ExpensesList.filteredExpenses all) /\
  (forall e, In e (ExpensesList.filteredExpenses one) ->
             Expense.category_id e = id /\
             In e (ExpensesList.filteredExpenses all)).
Proof.
  intros Hid. cbv zeta.
  assert (E : ExpensesList.filteredExpenses
                (ExpensesFilters.setSelectedCategory id st)
              = filter (fun e => String.eqb (Expense.category_id e) id)
                  (ExpensesList.filteredExpenses
                     (ExpensesFilters.setSelectedCategory EmptyString st))).
  { unfold ExpensesList.filteredExpenses, ExpensesFilters.setSelectedCategory.
    cbn [ExpensesList.searchTerm ExpensesList.selectedCategory
         ExpensesList.expenses].
    rewrite filter_twice. apply filter_ext. intros e.
    unfold ExpensesList.matches. cbv zeta.
    apply truthy_true in Hid. rewrite Hid.
    change (truthy EmptyString) with false. cbn [negb orb].
    rewrite andb_true_r. reflexivity. }
  split; [exact E|]. intros e He. rewrite E in He.
  apply filter_In in He. destruct He as (Hin & Hc).
  apply String.eqb_eq in Hc. split; assumption.
Qed.

End Filters.

(** * The further theorems at the sample data *)

Section FurtherInstances.
Import Gateway.
Local Open Scope string_scope.

Lemma marchExpenses_nonnegative :
  forall e, In e Sample.marchExpenses -> (0 <= Expense.amount e)%Q.
Proof. intros e [<-|[<-|[<-|[]]]]; discriminate. Defined.

Lemma marchExpenses_ids :
  NoDup (map Expense.id Sample.marchExpenses).
Proof.
  repeat constructor; cbn; intuition discriminate.
Defined.

Lemma west_withinADay : JSDate.withinADay Sample.west.
Proof. intros t. cbn. unfold JSDate.msPerDay. lia. Defined.

(** A weekly budget created at noon (UTC) of 15 March 2024 on a host
    five hours west of UTC runs from the 15th to the 22nd. *)
Lemma weekly_budget_spans_seven_days_witness :
  JSDate.atLocal Sample.west
    (JSDate.LocalTime Sample.west Sample.now + 7 * JSDate.msPerDay)
  = JSDate.atUTC Sample.west Sample.now /\
  let row := BudgetForm.handleSubmit Sample.west Sample.now "u1" "c-food"
                                     (Some 100%Q) weekly in
  BudgetForm.start_date row = JSDate.mkISO 2024 3 15 /\
  BudgetForm.end_date row = JSDate.mkISO 2024 3 22 /\
  JSDate.days_from_civil (JSDate.year (BudgetForm.end_date row))
                         (JSDate.month (BudgetForm.end_date row))
                         (JSDate.day (BudgetForm.end_date row))
  = JSDate.days_from_civil (JSDate.year (BudgetForm.start_date row))
                           (JSDate.month (BudgetForm.start_date row))
                           (JSDate.day (BudgetForm.start_date row)) + 7.
Proof.
  split; [reflexivity|]. cbv zeta.
  split; [reflexivity|]. split; [reflexivity|].
  pose proof (weekly_budget_spans_seven_days Sample.west Sample.now "u1"
                "c-food" (Some 100%Q) eq_refl) as T.
  cbv zeta in T. destruct T as (_ & _ & _ & T). exact T.
Defined.

(** A monthly budget created at the same instant on the same host ends
    on 15 April. *)
Lemma monthly_budget_same_day_next_month_witness :
  JSDate.atLocal Sample.west
    (JSDate.withMonth (JSDate.LocalTime Sample.west Sample.now)
                      (JSDate.getMonth Sample.west Sample.now + 1))
  = JSDate.atUTC Sample.west Sample.now /\
  Spec.today Sample.west Sample.now = JSDate.toISODate Sample.now /\
  let row := BudgetForm.handleSubmit Sample.west Sample.now "u1" "c-food"
                                     (Some 100%Q) monthly in
  BudgetForm.end_date row = JSDate.nextMonth (BudgetForm.start_date row).
Proof.
  split; [reflexivity|]. split; [reflexivity|]. cbv zeta.
  pose proof (monthly_budget_same_day_next_month Sample.west Sample.now
                "u1" "c-food" (Some 100%Q) eq_refl eq_refl) as T.
  cbv zeta in T. destruct T as (_ & T & _). apply T.
  vm_compute. discriminate.
Defined.

(** That monthly budget counts the lunch of the 15th. *)
Lemma new_budget_counts_todays_expense_witness :
  JSDate.withinADay Sample.west /\
  Budget.start_date Cases.freshBudget
  = BudgetForm.start_date
      (BudgetForm.handleSubmit Sample.west Sample.now "u1" "c-food"
                               (Some 100%Q) monthly) /\
  Budget.end_date Cases.freshBudget
  = BudgetForm.end_date
      (BudgetForm.handleSubmit Sample.west Sample.now "u1" "c-food"
                               (Some 100%Q) monthly) /\
  Expense.date Cases.todaysLunch = JSDate.toISODate Sample.now /\
  BudgetsList.inWindow Cases.freshBudget Cases.todaysLunch = true.
Proof.
  split; [exact west_withinADay|].
  split; [reflexivity|]. split; [reflexivity|]. split; [reflexivity|].
  exact (new_budget_counts_todays_expense Sample.west Sample.now "u1"
           "c-food" (Some 100%Q) monthly Cases.freshBudget Cases.todaysLunch
           west_withinADay eq_refl eq_refl eq_refl eq_refl eq_refl).
Defined.

(** The weekly budget created on 10 March 2024 on that host counts the
    groceries of the 11th, one day after. *)
Lemma weekly_window_has_eight_days_witness :
  JSDate.atLocal Sample.west
    (JSDate.LocalTime Sample.west Cases.tenth + 7 * JSDate.msPerDay)
  = JSDate.atUTC Sample.west Cases.tenth /\
  Budget.start_date Sample.marchBudget
  = BudgetForm.start_date
      (BudgetForm.handleSubmit Sample.west Cases.tenth "u1" "c-food"
                               (Some 100%Q) weekly) /\
  Budget.end_date Sample.marchBudget
  = BudgetForm.end_date
      (BudgetForm.handleSubmit Sample.west Cases.tenth "u1" "c-food"
                               (Some 100%Q) weekly) /\
  JSDate.validb (Expense.date Cases.groceries) = true /\
  BudgetsList.inWindow Sample.marchBudget Cases.groceries = true.
Proof.
  split; [reflexivity|].
  split; [reflexivity|]. split; [reflexivity|]. split; [reflexivity|].
  apply (weekly_window_has_eight_days Sample.west Cases.tenth "u1" "c-food"
           (Some 100%Q) Sample.marchBudget Cases.groceries
           eq_refl eq_refl eq_refl eq_refl).
  split; [reflexivity|]. exists 1%Z. split; [lia|reflexivity].
Defined.

(** The March budget of 100 with 120 spent has a red, full bar. *)
Lemma budget_bar_thresholds_witness :
  (0 < Budget.amount Sample.marchBudget)%Q /\
  Render.color (Render.budgetCard Sample.marchExpenses Sample.marchBudget)
  = Render.red /\
  (Render.figure (Render.budgetCard Sample.marchExpenses Sample.marchBudget)
   == 0)%Q.
Proof.
  assert (H : (0 < Budget.amount Sample.marchBudget)%Q) by reflexivity.
  split; [exact H|].
  pose proof (budget_bar_thresholds JSDate.utc Sample.now
                Sample.marchExpenses
                Sample.marchBudget H) as T.
  cbv zeta in T. destruct T as ((R & _) & L & F & _).
  assert (O : (Budget.amount Sample.marchBudget
               < BudgetsList.spent
                   (BudgetsList.getBudgetProgress Sample.marchExpenses
                                                  Sample.marchBudget))%Q)
    by reflexivity.
  split; [apply R, O|apply F, L, O].
Defined.

(** The January and the March budget, both for food, show the same
    spending on the dashboard. *)
Lemma dashboard_spent_by_category_witness :
  Budget.category_id Sample.marchBudget
  = Budget.category_id Sample.januaryBudget /\
  Dashboard.spent
    (Dashboard.budgetProgress Sample.west Sample.now Sample.marchExpenses
                              Sample.marchBudget)
  = Dashboard.spent
      (Dashboard.budgetProgress Sample.west Sample.now Sample.marchExpenses
                                Sample.januaryBudget).
Proof.
  split; [reflexivity|].
  exact (proj1 (dashboard_spent_by_category Sample.west Sample.now
                  Sample.marchExpenses
                  Sample.marchBudget Sample.januaryBudget
                  marchExpenses_nonnegative eq_refl)).
Defined.

(** With no filter set the list is the three March expenses. *)
Lemma no_filters_list_everything_witness :
  ExpensesList.searchTerm Cases.listing = EmptyString /\
  ExpensesList.filteredExpenses Cases.listing = Sample.marchExpenses.
Proof.
  split; [reflexivity|].
  exact (proj1 (proj2 (no_filters_list_everything Cases.listing eq_refl)
                  eq_refl)).
Defined.

(** What "coffee beans" lists, "fee" lists too. *)
Lemma longer_search_term_narrows_witness :
  JSString.isAscii ("cof" ++ "fee" ++ " beans") = true /\
  (forall e, In e (ExpensesList.expenses Cases.listing) ->
             Spec.asciiTexts e) /\
  (forall e, In e (ExpensesList.expenses Cases.listing) ->
             (0 <= Expense.amount e)%Q) /\
  (ExpensesList.totalAmount
     (ExpensesFilters.setSearchTerm ("cof" ++ "fee" ++ " beans")
                                    Cases.listing)
   <= ExpensesList.totalAmount
        (ExpensesFilters.setSearchTerm "fee" Cases.listing))%Q.
Proof.
  split; [reflexivity|]. split; [exact marchExpenses_ascii|].
  split; [exact marchExpenses_nonnegative|].
  exact (proj2 (longer_search_term_narrows Cases.listing "cof" "fee"
                  " beans" eq_refl marchExpenses_ascii
                  marchExpenses_nonnegative)).
Defined.

(** Deleting the coffee beans lowers the total by their 70. *)
Lemma delete_adjusts_total_witness :
  NoDup (map Expense.id (ExpensesList.expenses Cases.listing)) /\
  accepted (succeeded tt) /\
  In Cases.beans (ExpensesList.filteredExpenses Cases.listing) /\
  (ExpensesList.totalAmount
     (fst (ExpensesList.handleDelete Cases.listing "e3" true
             (succeeded tt)))
   == ExpensesList.totalAmount Cases.listing - 70)%Q.
Proof.
  assert (I : In Cases.beans (ExpensesList.filteredExpenses Cases.listing)).
  { right. left. reflexivity. }
  split; [exact marchExpenses_ids|]. split; [reflexivity|].
  split; [exact I|].
  exact (proj1 (delete_adjusts_total Cases.listing "e3" (succeeded tt)
                  marchExpenses_ids eq_refl)
               Cases.beans I eq_refl).
Defined.

(** The goal reached in full is shown as completed two weeks after its
    date, with a full bar. *)
Lemma goal_completed_when_target_reached_witness :
  (0 < SavingsGoal.target_amount Sample.reached)%Q /\
  GoalsList.panel Sample.fullDays Sample.now Sample.reached
  = GoalsList.GoalCompleted /\
  exists width,
    Render.goalBarWidth Sample.reached = JSNumber.finite width /\
    (width == 100)%Q.
Proof.
  assert (H : (0 < SavingsGoal.target_amount Sample.reached)%Q)
    by reflexivity.
  split; [exact H|].
  destruct (goal_completed_when_target_reached Sample.fullDays Sample.now
              Sample.reached H) as (_ & P & (w & E & F & _)).
  split; [apply P; discriminate|].
  exists w. split; [exact E|]. apply F. discriminate.
Defined.

(** The holiday goal, 800 short with ten days left, asks for 80 a day. *)
Lemma daily_pace_reaches_target_witness :
  (0 < SavingsGoal.target_amount Sample.holiday)%Q /\
  GoalsList.isCompleted Sample.holiday = false /\
  (0 < GoalsList.daysLeft Sample.fullDays Sample.midnight Sample.holiday)%Z
  /\
  (SavingsGoal.current_amount Sample.holiday
   + GoalsList.daily (GoalsList.getRecommendedSavings
                        Sample.fullDays Sample.midnight Sample.holiday)
     * inject_Z (GoalsList.daysLeft Sample.fullDays Sample.midnight
                                    Sample.holiday)
   == SavingsGoal.target_amount Sample.holiday)%Q.
Proof.
  assert (H : (0 < SavingsGoal.target_amount Sample.holiday)%Q)
    by reflexivity.
  assert (D : (0 < GoalsList.daysLeft Sample.fullDays Sample.midnight
                                      Sample.holiday)%Z)
    by reflexivity.
  split; [exact H|]. split; [reflexivity|]. split; [exact D|].
  pose proof (daily_pace_reaches_target Sample.fullDays Sample.midnight
                Sample.holiday H eq_refl D) as T.
  cbv zeta in T. destruct T as (_ & _ & T & _). exact T.
Defined.




(** Selecting "Transportation" lists the fuel alone. *)
Lemma category_select_filters_the_full_list_witness :
  "c-gas" <> EmptyString /\
  ExpensesList.filteredExpenses
    (ExpensesFilters.setSelectedCategory "c-gas" Cases.listing)
  = filter (fun e => String.eqb (Expense.category_id e) "c-gas")
           (ExpensesList.filteredExpenses
              (ExpensesFilters.setSelectedCategory EmptyString
                                                   Cases.listing)).
Proof.
  assert (H : "c-gas" <> EmptyString) by discriminate.
  split; [exact H|].
  exact (proj1 (category_select_filters_the_full_list Cases.listing "c-gas"
                  H)).
Defined.

(** The March budget and the March expenses on a host in UTC. *)
Lemma reference_windows_witness :
  JSDate.validb (Budget.start_date Sample.marchBudget) = true /\
  JSDate.validb (Budget.end_date Sample.marchBudget) = true /\
  Spec.datedValidly Sample.marchExpenses /\
  (forall e, In e Sample.marchExpenses ->
             Spec.eastAt JSDate.utc (Expense.date e)) /\
  filter (BudgetsList.inWindow Sample.marchBudget) Sample.marchExpenses
  = filter (Spec.inBudgetWindow Sample.marchBudget) Sample.marchExpenses /\
  filter (Dashboard.matchesBudget JSDate.utc Sample.now Sample.marchBudget)
         Sample.marchExpenses
  = filter (Spec.inCurrentMonth (Spec.today JSDate.utc Sample.now)
                                Sample.marchBudget)
           Sample.marchExpenses.
Proof.
  assert (Hz : forall e, In e Sample.marchExpenses ->
                         Spec.eastAt JSDate.utc (Expense.date e)).
  { intros e _. unfold Spec.eastAt, JSDate.utc, JSDate.fixed, JSDate.msPerDay.
    cbn [JSDate.atUTC]. lia. }
  split; [reflexivity|]. split; [reflexivity|].
  split; [exact marchExpenses_dated|]. split; [exact Hz|].
  pose proof (reference_windows JSDate.utc Sample.now Sample.marchBudget
                Sample.marchExpenses eq_refl eq_refl marchExpenses_dated)
    as T.
  destruct T as [[B _] [D _]]. split; [exact B|exact (proj1 (D Hz))].
Defined.

(** The March expenses, none under an inherited name, on a host in
    UTC. *)
Lemma category_totals_by_name_witness :
  Spec.datedValidly Sample.marchExpenses /\
  (forall e, In e Sample.marchExpenses ->
             Spec.eastAt JSDate.utc (Expense.date e)) /\
  (forall e, In e Sample.marchExpenses -> Spec.plainlyNamed e = true) /\
  (Spec.total Dashboard.value
     (Dashboard.getExpensesByCategory
        (filter (Spec.inMonthOf (Spec.today JSDate.utc Sample.now))
                Sample.marchExpenses))
   == Dashboard.calculateMonthlySpending JSDate.utc Sample.now
                                         Sample.marchExpenses)%Q.
Proof.
  assert (Hz : forall e, In e Sample.marchExpenses ->
                         Spec.eastAt JSDate.utc (Expense.date e)).
  { intros e _. unfold Spec.eastAt, JSDate.utc, JSDate.fixed, JSDate.msPerDay.
    cbn [JSDate.atUTC]. lia. }
  assert (Hp : forall e, In e Sample.marchExpenses ->
                         Spec.plainlyNamed e = true).
  { intros e [<-|[<-|[<-|[]]]]; reflexivity. }
  split; [exact marchExpenses_dated|]. split; [exact Hz|].
  split; [exact Hp|].
  pose proof (category_totals_by_name JSDate.utc Sample.now
                Sample.marchExpenses marchExpenses_dated Hz) as T.
  cbv zeta in T. exact (proj1 (proj1 T Hp)).
Defined.

End FurtherInstances.
